(** * The Pea supervisor of jina/peapods/peas/__init__.py

    A shallow embedding of the worker entry point [run], of the
    supervisor [BasePea] (start, wait_start_success, close, the
    retrying control-channel sender) and of the runtime selection
    policy [_get_runtime_cls], followed by the properties of their
    lifecycle protocol. *)

From stdpp Require Import gmap strings list.
From Stdlib Require Import Ascii ZArith Lia.

Open Scope Z_scope.

(** ** Python values shared by all components *)

(** Exceptions.  [except Exception] catches every class below except
    those flagged as deriving from BaseException only (KeyboardInterrupt,
    SystemExit, ...). *)
Inductive PyExc : Type :=
  | RuntimeFailToStart
  | RuntimeRunForeverEarlyError
  | TimeoutError (pea_name : string)
      (* TimeoutError(f'{typename(self)}:{self.name} can not be initialized
         after {_timeout * 1e3}ms'): the duration is a float product and is
         not carried *)
  | ShutdownNotReceived (timeout_ctrl : Z)
      (* Exception(f'Shutdown signal was not received for {timeout_ctrl}') *)
  | KeyError (key : string)
  | Foreign (is_exception : bool) (what : string).

Definition is_Exception (ex : PyExc) : bool :=
  match ex with
  | Foreign b _ => b
  | _ => true
  end.

(** The outcome of a call: a value, or a raised exception. *)
Inductive Outcome (A : Type) : Type :=
  | Returns (a : A)
  | Raises (ex : PyExc).
Arguments Returns {A} a.
Arguments Raises {A} ex.

Definition raised {A} (o : Outcome A) : bool :=
  match o with Raises _ => true | Returns _ => false end.

(** ** Configuration (the argparse namespace) *)

Inductive RuntimeBackendType := THREAD | PROCESS.
Inductive GatewayProtocolType := GRPC | HTTP | WEBSOCKET.

(** Modelled from the spec: the enums module is not part of the sources;
    this file only compares a socket type with [DEALER_CONNECT], the
    "connect as dealer" socket role. *)
Inductive SocketType := DEALER_CONNECT | OtherSocket (code : nat).

Definition backend_eqb (a b : RuntimeBackendType) : bool :=
  match a, b with
  | THREAD, THREAD | PROCESS, PROCESS => true
  | _, _ => false
  end.

Definition socket_eqb (a b : SocketType) : bool :=
  match a, b with
  | DEALER_CONNECT, DEALER_CONNECT => true
  | OtherSocket m, OtherSocket n => Nat.eqb m n
  | _, _ => false
  end.

(** The fields of [args] this file reads.  [env] is [None] or a dict;
    [protocol] is [None] when the namespace has no such attribute
    (hasattr is false). *)
Record Args : Type := mkArgs {
  name : string;
  identity : string;
  quiet : bool;
  quiet_error : bool;
  env : option (gmap string string);
  runtime_backend : RuntimeBackendType;
  runtime_cls : string;
  host : string;
  disable_remote : bool;
  uses : string;
  protocol : option GatewayProtocolType;
  timeout_ready : Z;
  timeout_ctrl : Z;
  daemon : bool;
  noblock_on_start : bool;
  socket_in : SocketType
}.

Definition set_runtime_cls (v : string) (a : Args) : Args :=
  mkArgs (name a) (identity a) (quiet a) (quiet_error a) (env a)
         (runtime_backend a) v (host a) (disable_remote a) (uses a)
         (protocol a) (timeout_ready a) (timeout_ctrl a) (daemon a)
         (noblock_on_start a) (socket_in a).

Definition set_timeout_ready (v : Z) (a : Args) : Args :=
  mkArgs (name a) (identity a) (quiet a) (quiet_error a) (env a)
         (runtime_backend a) (runtime_cls a) (host a) (disable_remote a)
         (uses a) (protocol a) v (timeout_ctrl a) (daemon a)
         (noblock_on_start a) (socket_in a).

Definition set_uses (v : string) (a : Args) : Args :=
  mkArgs (name a) (identity a) (quiet a) (quiet_error a) (env a)
         (runtime_backend a) (runtime_cls a) (host a) (disable_remote a)
         v (protocol a) (timeout_ready a) (timeout_ctrl a) (daemon a)
         (noblock_on_start a) (socket_in a).

(** Truth value of a dict-or-None: [None] and the empty dict are false. *)
Definition dict_truthy (d : option (gmap string string)) : bool :=
  match d with
  | None => false
  | Some m => negb (bool_decide (m = ∅))
  end.

(** ** Runtime selection policy *)

(** The runtime classes this module names. *)
Inductive RuntimeClass :=
  | ZEDRuntime | ContainerRuntime | JinadRuntime
  | GRPCRuntime | WebSocketRuntime | HTTPRuntime.

Definition runtime_class_eqb (a b : RuntimeClass) : bool :=
  match a, b with
  | ZEDRuntime, ZEDRuntime | ContainerRuntime, ContainerRuntime
  | JinadRuntime, JinadRuntime | GRPCRuntime, GRPCRuntime
  | WebSocketRuntime, WebSocketRuntime | HTTPRuntime, HTTPRuntime => true
  | _, _ => false
  end.

(** Modelled from the spec: [get_runtime] of the runtimes package is not
    part of the sources; it resolves a class name to the class and fails
    on a name it does not know. *)
Definition get_runtime (cls_name : string) : Outcome RuntimeClass :=
  if String.eqb cls_name "ZEDRuntime" then Returns ZEDRuntime
  else if String.eqb cls_name "ContainerRuntime" then Returns ContainerRuntime
  else if String.eqb cls_name "JinadRuntime" then Returns JinadRuntime
  else if String.eqb cls_name "GRPCRuntime" then Returns GRPCRuntime
  else if String.eqb cls_name "WebSocketRuntime" then Returns WebSocketRuntime
  else if String.eqb cls_name "HTTPRuntime" then Returns HTTPRuntime
  else Raises (KeyError cls_name).

(** What the selection policy imports from outside this file: the local
    default host, the hub URI recogniser and the hub puller (which
    returns the rewritten executor reference). *)
Record HubExternals : Type := mkHub {
  __default_host__ : string;
  is_valid_huburi : string -> bool;
  hub_pull : string -> string
}.

Definition gateway_runtime_dict (p : GatewayProtocolType) : string :=
  match p with
  | GRPC => "GRPCRuntime"
  | WEBSOCKET => "WebSocketRuntime"
  | HTTP => "HTTPRuntime"
  end.

Definition gateway_runtime_values : list string :=
  [gateway_runtime_dict GRPC;
   gateway_runtime_dict WEBSOCKET;
   gateway_runtime_dict HTTP].

Definition str_in (s : string) (l : list string) : bool :=
  existsb (String.eqb s) l.

Definition startswith (s pre : string) : bool := String.prefix pre s.

(** The four rules run in source order, each rewriting [args] in place;
    the mutated namespace is returned next to the class. *)
Definition rule_remote (X : HubExternals) (a : Args) : Args :=
  if negb (str_in (runtime_cls a) gateway_runtime_values)
     && negb (String.eqb (host a) (__default_host__ X))
     && negb (disable_remote a)
  then set_timeout_ready (-1) (set_runtime_cls "JinadRuntime" a)
  else a.

Definition rule_container (a : Args) : Args :=
  if String.eqb (runtime_cls a) "ZEDRuntime" && startswith (uses a) "docker://"
  then set_runtime_cls "ContainerRuntime" a
  else a.

Definition rule_hub (X : HubExternals) (a : Args) : Args :=
  if String.eqb (runtime_cls a) "ZEDRuntime" && is_valid_huburi X (uses a)
  then
    let a' := set_uses (hub_pull X (uses a)) a in
    if startswith (uses a') "docker://"
    then set_runtime_cls "ContainerRuntime" a'
    else a'
  else a.

Definition rule_gateway (a : Args) : Args :=
  match protocol a with
  | Some p => set_runtime_cls (gateway_runtime_dict p) a
  | None => a
  end.

Definition _get_runtime_cls (X : HubExternals) (a : Args)
  : Args * Outcome RuntimeClass :=
  let a := rule_remote X a in
  let a := rule_container a in
  let a := rule_hub X a in
  let a := rule_gateway a in
  (a, get_runtime (runtime_cls a)).

(** The class a gateway protocol stands for (used to state which class
    the policy returns). *)
Definition gateway_class (p : GatewayProtocolType) : RuntimeClass :=
  match p with
  | GRPC => GRPCRuntime
  | WEBSOCKET => WebSocketRuntime
  | HTTP => HTTPRuntime
  end.

(** ** The event set and the journal of observable effects *)

(** The four signals shared by the supervisor and its worker. *)
Record Events : Type := mkEvents {
  is_started : bool;
  is_shutdown : bool;
  is_ready : bool;
  cancel_event : bool
}.

Definition no_events : Events := mkEvents false false false false.

Definition set_started (e : Events) : Events :=
  mkEvents true (is_shutdown e) (is_ready e) (cancel_event e).
Definition set_shutdown (e : Events) : Events :=
  mkEvents (is_started e) true (is_ready e) (cancel_event e).
Definition set_cancel (e : Events) : Events :=
  mkEvents (is_started e) (is_shutdown e) (is_ready e) true.

(** The process environment as Python has it: the [os.environ] mapping
    and the native environment block behind it.  Assigning into
    [os.environ] writes both; [os.unsetenv] removes a variable from the
    native block only and leaves the mapping as it was.  Either call
    raises on a name that is empty or holds '=' or a NUL byte, the
    assignment also on a value that holds a NUL byte; a call that raises
    changes nothing. *)
Record ProcEnv : Type := mkProcEnv {
  os_environ : gmap string string;
  native_env : gmap string string
}.

Definition has_char (c : Ascii.ascii) (s : string) : bool :=
  existsb (Ascii.eqb c) (String.list_ascii_of_string s).

Definition legal_env_name (k : string) : bool :=
  negb (String.eqb k EmptyString)
  && negb (has_char "="%char k) && negb (has_char Ascii.zero k).

Definition legal_env_value (v : string) : bool :=
  negb (has_char Ascii.zero v).

(** An item [os.environ[k] = v] accepts. *)
Definition settable (kv : string * string) : bool :=
  legal_env_name kv.1 && legal_env_value kv.2.

Definition embedded_null : PyExc :=
  Foreign true "ValueError: embedded null byte".

Definition setitem_error (kv : string * string) : PyExc :=
  if has_char Ascii.zero kv.1 || has_char Ascii.zero kv.2 then embedded_null
  else Foreign true "ValueError: illegal environment variable name".

Definition unsetenv_error (k : string) : PyExc :=
  if has_char Ascii.zero k then embedded_null
  else Foreign true "OSError: [Errno 22] Invalid argument".

(** The effect of an assignment that is accepted. *)
Definition with_variable (e : ProcEnv) (kv : string * string) : ProcEnv :=
  mkProcEnv (<[kv.1 := kv.2]> (os_environ e)) (<[kv.1 := kv.2]> (native_env e)).

(** The effect of an [os.unsetenv] that is accepted. *)
Definition without_variable (e : ProcEnv) (k : string) : ProcEnv :=
  mkProcEnv (os_environ e) (delete k (native_env e)).

(** [os.environ[k] = v] *)
Definition environ_setitem (e : ProcEnv) (kv : string * string)
  : Outcome unit * ProcEnv :=
  if settable kv then (Returns tt, with_variable e kv)
  else (Raises (setitem_error kv), e).

(** [os.unsetenv(k)] *)
Definition os_unsetenv (e : ProcEnv) (k : string) : Outcome unit * ProcEnv :=
  if legal_env_name k then (Returns tt, without_variable e k)
  else (Raises (unsetenv_error k), e).

(** [for x in xs: call(x)]: the first call that raises ends the loop. *)
Fixpoint for_each {A} (call : ProcEnv -> A -> Outcome unit * ProcEnv)
    (xs : list A) (e : ProcEnv) : Outcome unit * ProcEnv :=
  match xs with
  | [] => (Returns tt, e)
  | x :: xs =>
      match call e x with
      | (Returns _, e) => for_each call xs e
      | (Raises ex, e) => (Raises ex, e)
      end
  end.

Definition dict_keys (d : gmap string string) : list string :=
  (map_to_list d).*1.

(** [os.environ.update(d)]: one assignment per item of [d], in the order
    the dict is iterated.  The overlay is a finite map, which keeps no
    insertion order: the loops run over [map_to_list d].  The order only
    decides which calls come before one that is refused. *)
Definition os_environ_update (d : gmap string string) (e : ProcEnv)
  : Outcome unit * ProcEnv :=
  for_each environ_setitem (map_to_list d) e.

(** What [os.environ.update(d)] leaves when every assignment is
    accepted. *)
Definition environ_update (d : gmap string string) (e : ProcEnv) : ProcEnv :=
  mkProcEnv (d ∪ os_environ e) (d ∪ native_env e).

(** Every item of the overlay can be assigned into [os.environ]. *)
Definition settable_overlay (d : gmap string string) : bool :=
  forallb settable (map_to_list d).

(** Every name of the overlay can be handed to [os.unsetenv]. *)
Definition legal_names (d : gmap string string) : bool :=
  forallb legal_env_name (dict_keys d).

Inductive Command := ACTIVATE | DEACTIVATE | TERMINATE.

Inductive LogLevel := DEBUG | WARNING | ERROR | SUCCESS.

(** The messages this file logs, by template. *)
Inductive LogMsg : Type :=
  | MsgEmpty
  | MsgEnvWithThread          (* environment variables should not be set when runtime=thread *)
  | MsgDuringInit (ex : PyExc)
  | MsgThreadBackend          (* Using Thread as runtime backend is not recommended ... *)
  | MsgSending (command : Command) (retry : Z)
  | MsgRepr (ex : PyExc)
  | MsgWaitingSignal          (* waiting for ready or shutdown signal from runtime *)
  | MsgReady                  (* __ready_msg__ *)
  | MsgReadyTimeout (timeout_ready : Z)
  | MsgDuringClose (ex : PyExc)
  | MsgClosedBeforeReady
  | MsgTerminatingAfterWait
  | MsgStop.                  (* __stop_msg__ *)

(** Everything the code does to the outside, in the order it does it. *)
Inductive Action : Type :=
  | Log (lvl : LogLevel) (msg : LogMsg) (exc_info : bool)
  | LoggerClose
  | Construct (seen : ProcEnv)    (* runtime_cls(...) is called under this environment *)
  | WorkerStart
  | WorkerJoin
  | WorkerTerminate
  | Sleep (ms : Z)
  | SendCtrl (command : Command) (timeout : Z)
  | CancelSet
  | WaitShutdown (timeout : Z)
  | WaitReadyOrShutdown (timeout_ms : option Z).

(** ** The worker entry point *)

Module EntryPoint.

(** What a Runtime can reach: the two event handles it is given and
    the environment of the execution unit it runs in. *)
Record Ctx : Type := mkCtx {
  ctx_ready : bool;
  ctx_cancel : bool;
  ctx_env : ProcEnv
}.

(** A Runtime object: a context manager with a blocking run_forever.
    [rt_exit] receives the exception in flight, if any, and returns the
    truth value of what __exit__ returns. *)
Record Runtime : Type := mkRuntime {
  rt_enter : Ctx -> Outcome unit * Ctx;
  rt_run_forever : Ctx -> Outcome unit * Ctx;
  rt_exit : option PyExc -> Ctx -> Outcome bool * Ctx
}.

(** A Runtime class: its constructor, called with args, the control
    address and the control timeout. *)
Record RuntimeCls : Type := mkRuntimeCls {
  rt_init : Args -> string -> Z -> Ctx -> Outcome Runtime * Ctx
}.

Record World : Type := mkWorld {
  events : Events;
  penv : ProcEnv;
  journal : list Action
}.

Definition record (a : Action) (w : World) : World :=
  mkWorld (events w) (penv w) (journal w ++ [a]).

Definition with_events (f : Events -> Events) (w : World) : World :=
  mkWorld (f (events w)) (penv w) (journal w).

Definition with_penv (f : ProcEnv -> ProcEnv) (w : World) : World :=
  mkWorld (events w) (f (penv w)) (journal w).

(** Runs a piece of Runtime code: it may set Ready and Cancel and touch
    the environment; Started and Shutdown are out of its reach. *)
Definition in_runtime {A} (f : Ctx -> Outcome A * Ctx) (w : World)
  : Outcome A * World :=
  let e := events w in
  let '(o, c) := f (mkCtx (is_ready e) (cancel_event e) (penv w)) in
  (o, mkWorld (mkEvents (is_started e) (is_shutdown e) (ctx_ready c) (ctx_cancel c))
              (ctx_env c) (journal w)).

(** Runs calls of the os module on the environment of the World. *)
Definition in_penv (f : ProcEnv -> Outcome unit * ProcEnv) (w : World)
  : Outcome unit * World :=
  let '(o, e) := f (penv w) in
  (o, mkWorld (events w) e (journal w)).

Definition _unset_envs (args : Args) (envs : gmap string string) (w : World)
  : Outcome unit * World :=
  if negb (bool_decide (envs = ∅))
     && negb (backend_eqb (runtime_backend args) THREAD)
  then in_penv (for_each os_unsetenv (dict_keys envs)) w
  else (Returns tt, w).

(** Overlay values are strings here, so [str(v)] is [v]. *)
Definition _set_envs (args : Args) (envs : gmap string string) (w : World)
  : Outcome unit * World :=
  if dict_truthy (env args) then
    if backend_eqb (runtime_backend args) THREAD
    then (Returns tt, record (Log WARNING MsgEnvWithThread false) w)
    else in_penv (os_environ_update envs) w
  else (Returns tt, w).

(** [with runtime: body] *)
Definition with_runtime (rt : Runtime) (body : World -> Outcome unit * World)
    (w : World) : Outcome unit * World :=
  match in_runtime (rt_enter rt) w with
  | (Raises ex, w) => (Raises ex, w)
  | (Returns _, w) =>
      match body w with
      | (Returns _, w) =>
          match in_runtime (rt_exit rt None) w with
          | (Raises ex, w) => (Raises ex, w)
          | (Returns _, w) => (Returns tt, w)
          end
      | (Raises ex, w) =>
          match in_runtime (rt_exit rt (Some ex)) w with
          | (Raises ex', w) => (Raises ex', w)
          | (Returns true, w) => (Returns tt, w)
          | (Returns false, w) => (Raises ex, w)
          end
      end
  end.

(** The call [runtime_cls(args=..., ctrl_addr=..., ...)]. *)
Definition construct (runtime_cls : RuntimeCls) (args : Args)
    (zed_runtime_ctrl_address : string) (timeout_ctrl : Z) (w : World)
  : Outcome Runtime * World :=
  in_runtime (rt_init runtime_cls args zed_runtime_ctrl_address timeout_ctrl)
             (record (Construct (penv w)) w).

Definition init_error_msg (args : Args) (ex : PyExc) : LogMsg :=
  if negb (quiet_error args) then MsgDuringInit ex else MsgEmpty.

(** [except Exception as ex: logger.error(...)] for an exception [ex]
    raised in the try suite; any other exception stays in flight. *)
Definition except_Exception (args : Args) (ex : PyExc) (w : World)
  : Outcome unit * World :=
  if is_Exception ex then
    (Returns tt,
     record (Log ERROR (init_error_msg args ex) (negb (quiet_error args))) w)
  else (Raises ex, w).

Definition run (args : Args) (name : string) (runtime_cls : RuntimeCls)
    (envs : gmap string string) (timeout_ctrl : Z)
    (zed_runtime_ctrl_address : string) (w : World) : Outcome unit * World :=
  let '(o, w) :=
    (* try *)
    match _set_envs args envs w with
    | (Raises ex, w) => except_Exception args ex w
    | (Returns _, w) =>
        match construct runtime_cls args zed_runtime_ctrl_address timeout_ctrl w with
        | (Raises ex, w) => except_Exception args ex w
        | (Returns runtime, w) =>
            (* else *)
            let w := with_events set_started w in
            with_runtime runtime (in_runtime (rt_run_forever runtime)) w
        end
    end in
  (* finally: an exception of _unset_envs replaces the one in flight and
     skips is_shutdown.set() *)
  match _unset_envs args envs w with
  | (Raises ex, w) => (Raises ex, w)
  | (Returns _, w) => (o, with_events set_shutdown w)
  end.

(** Started and Shutdown, the two signals only [run] itself writes. *)
Definition own_signals (w : World) : bool * bool :=
  (is_started (events w), is_shutdown (events w)).

(** Whether the constructor call made by [run] returns a Runtime. *)
Definition construction_succeeds (args : Args) (runtime_cls : RuntimeCls)
    (envs : gmap string string) (timeout_ctrl : Z)
    (zed_runtime_ctrl_address : string) (w : World) : bool :=
  match _set_envs args envs w with
  | (Returns _, w) =>
      negb (raised (fst (construct runtime_cls args zed_runtime_ctrl_address
                                   timeout_ctrl w)))
  | (Raises _, _) => false
  end.

(** The finalizer of [run] makes no call that can raise: no os.unsetenv
    at all under the thread backend, and only legal names otherwise. *)
Definition finalizer_safe (args : Args) (envs : gmap string string) : bool :=
  backend_eqb (runtime_backend args) THREAD || legal_names envs.

(** The environment under which the constructor was called, read off a
    journal. *)
Fixpoint seen_at_construction (j : list Action) : option ProcEnv :=
  match j with
  | [] => None
  | Construct e :: _ => Some e
  | _ :: j => seen_at_construction j
  end.

End EntryPoint.

(** ** The supervisor *)

Module BasePea.

(** The supervisor object.  The control address is resolved once at
    construction and carried as given. *)
Record Pea : Type := mkPea {
  args : Args;
  self_name : string;
  self_runtime_cls : RuntimeClass;
  _envs : gmap string string;
  _timeout_ctrl : Z;
  _zed_runtime_ctrl_address : string;
  events : Events;
  journal : list Action;
  worker_started : bool       (* self.worker.start() has been called *)
}.

(** What the supervisor cannot decide: how the control channel answers
    each call of send_ctrl_message (numbered from 0 over the life of the
    Pea), and what the worker has done to the events by the time a
    blocking wait returns.  [combinator_wait] also says whether the
    derived ready-or-shutdown event fired before the timeout.  Between
    two waits [is_set()] reads the events as the last wait left them;
    the worker's progress becomes visible at the waits. *)
Record Outside : Type := mkOutside {
  ctrl_reply : nat -> Command -> Outcome unit;
  shutdown_wait : list Action -> Events -> Events;
  combinator_wait : list Action -> Events -> bool * Events
}.

(** Supervisor code: reads and writes the Pea, returns or raises. *)
Definition M (A : Type) : Type := Pea -> Outcome A * Pea.

Definition ret {A} (a : A) : M A := fun p => (Returns a, p).

Definition bind {A B} (m : M A) (f : A -> M B) : M B :=
  fun p =>
    match m p with
    | (Returns a, p) => f a p
    | (Raises ex, p) => (Raises ex, p)
    end.

Declare Scope pea_scope.
Delimit Scope pea_scope with pea.
Bind Scope pea_scope with M.
Notation "x <- m ;; k" := (bind m (fun x => k))
  (at level 100, m at next level, k at level 200, right associativity)
  : pea_scope.
Notation "m ;; k" := (bind m (fun _ => k))
  (at level 100, k at level 200, right associativity) : pea_scope.
Open Scope pea_scope.

Definition raise {A} (ex : PyExc) : M A := fun p => (Raises ex, p).

(** [try: body  except Exception as ex: handler ex] *)
Definition try_except {A} (body : M A) (handler : PyExc -> M A) : M A :=
  fun p =>
    match body p with
    | (Returns a, p) => (Returns a, p)
    | (Raises ex, p) =>
        if is_Exception ex then handler ex p else (Raises ex, p)
    end.

Definition with_journal (j : list Action) (p : Pea) : Pea :=
  mkPea (args p) (self_name p) (self_runtime_cls p) (_envs p)
        (_timeout_ctrl p) (_zed_runtime_ctrl_address p) (events p) j
        (worker_started p).

Definition with_events (e : Events) (p : Pea) : Pea :=
  mkPea (args p) (self_name p) (self_runtime_cls p) (_envs p)
        (_timeout_ctrl p) (_zed_runtime_ctrl_address p) e (journal p)
        (worker_started p).

Definition with_worker_started (p : Pea) : Pea :=
  mkPea (args p) (self_name p) (self_runtime_cls p) (_envs p)
        (_timeout_ctrl p) (_zed_runtime_ctrl_address p) (events p) (journal p)
        true.

Definition emit (a : Action) : M unit :=
  fun p => (Returns tt, with_journal (journal p ++ [a]) p).

Definition logger (lvl : LogLevel) (msg : LogMsg) : M unit :=
  emit (Log lvl msg false).

Definition get {A} (f : Pea -> A) : M A := fun p => (Returns (f p), p).

(** The commands sent so far, one per call of send_ctrl_message. *)
Fixpoint sends (j : list Action) : list Command :=
  match j with
  | [] => []
  | SendCtrl c _ :: j => c :: sends j
  | _ :: j => sends j
  end.

(** send_ctrl_message(address, command, timeout, raise_exception=True) *)
Definition send_ctrl_message (O : Outside) (command : Command) (timeout : Z)
  : M unit :=
  fun p =>
    (ctrl_reply O (length (sends (journal p))) command,
     with_journal (journal p ++ [SendCtrl command timeout]) p).

(** is_shutdown.wait(timeout): returns the flag as it is on return. *)
Definition is_shutdown_wait (O : Outside) (timeout : Z) : M bool :=
  fun p =>
    let j := journal p ++ [WaitShutdown timeout] in
    let e := shutdown_wait O j (events p) in
    (Returns (is_shutdown e), with_events e (with_journal j p)).

(** What Event.wait(timeout) returns: without a timeout the call only
    returns once the event is set, so the answer is True; with one, it
    is whether the event fired in time. *)
Definition wait_result (timeout_ms : option Z) (fired : bool) : bool :=
  match timeout_ms with
  | None => true
  | Some _ => fired
  end.

(** ready_or_shutdown.event.wait(timeout) *)
Definition ready_or_shutdown_wait (O : Outside) (timeout_ms : option Z)
  : M bool :=
  fun p =>
    let j := journal p ++ [WaitReadyOrShutdown timeout_ms] in
    let '(fired, e) := combinator_wait O j (events p) in
    (Returns (wait_result timeout_ms fired), with_events e (with_journal j p)).

(** The overlay built by __init__. *)
Definition init_envs (a : Args) (self_name : string) : gmap string string :=
  let e := <["JINA_LOG_ID" := identity a]> {["JINA_POD_NAME" := self_name]} in
  let e := if quiet a then <["JINA_LOG_CONFIG" := "QUIET"]> e else e in
  match env a with
  | Some user => if dict_truthy (env a) then user ∪ e else e
  | None => e
  end.

Definition __init__ (X : HubExternals) (a : Args) (ctrl_address : string)
  : Outcome Pea :=
  let self_name := if String.eqb (name a) "" then "BasePea" else name a in
  let j := if backend_eqb (runtime_backend a) THREAD
           then [Log WARNING MsgThreadBackend false] else [] in
  let envs := init_envs a self_name in
  let '(a, cls) := _get_runtime_cls X a in
  match cls with
  | Raises ex => Raises ex
  | Returns cls =>
      Returns (mkPea a self_name cls envs (timeout_ctrl a) ctrl_address
                     no_events j false)
  end.

(** [self.worker.join()].  close reaches it only after it has seen Ready
    set, which the worker sets itself, hence on a worker that runs. *)
Definition join : M unit := emit WorkerJoin.

(** What [Process.terminate()] raises on a process that was never
    started. *)
Definition never_started_error : PyExc :=
  Foreign true "AttributeError: 'NoneType' object has no attribute 'terminate'".

(** What [worker.start()] raises on a worker that was started before. *)
Definition already_started_error (backend : RuntimeBackendType) : PyExc :=
  match backend with
  | THREAD => Foreign true "RuntimeError: threads can only be started once"
  | PROCESS => Foreign true "AssertionError: cannot start a process twice"
  end.

(** Only a process has [terminate]; for a thread the call does nothing.
    A process that was never started has nothing to signal, and the
    call raises. *)
Definition terminate : M unit :=
  fun p =>
    if backend_eqb (runtime_backend (args p)) PROCESS
    then if worker_started p then emit WorkerTerminate p
         else (Raises never_started_error, p)
    else (Returns tt, p).

(** [self.worker.start()]: a thread or a process starts once. *)
Definition worker_start : M unit :=
  fun p =>
    if worker_started p
    then (Raises (already_started_error (runtime_backend (args p))), p)
    else emit WorkerStart (with_worker_started p).

(** Whether [terminate] can be called on the Pea without raising. *)
Definition can_terminate (p : Pea) : bool :=
  negb (backend_eqb (runtime_backend (args p)) PROCESS) || worker_started p.

Definition time_sleep (ms : Z) : M unit := emit (Sleep ms).

(** The body of the for loop of _retry_control_message, over the
    retries still to run. *)
Fixpoint retry_loop (O : Outside) (command : Command) (num_retry : Z)
    (retries : list Z) : M unit :=
  match retries with
  | [] => ret tt
  | retry :: rest =>
      logger DEBUG (MsgSending command retry);;
      timeout <- get _timeout_ctrl;;
      ((fun p =>
          match send_ctrl_message O command timeout p with
          | (Returns _, p) => (Returns tt, p)             (* break *)
          | (Raises ex, p) =>
              if is_Exception ex then
                (logger WARNING (MsgRepr ex);;
                 if retry =? num_retry then raise ex
                 else retry_loop O command num_retry rest) p
              else (Raises ex, p)
          end) : M unit)
  end.

(** range(1, num_retry + 1) *)
Definition _retry_control_message (O : Outside) (command : Command)
    (num_retry : Z) : M unit :=
  retry_loop O command num_retry (seqZ 1 num_retry).

(** The records [_retry_control_message] may write: log records and
    sends, hence no sleep and no wait between two attempts. *)
Definition log_or_send (a : Action) : bool :=
  match a with
  | Log _ _ _ | SendCtrl _ _ => true
  | _ => false
  end.

(** The [i]-th send of [command] is answered by an exception that
    [except Exception] catches. *)
Definition fails_at (O : Outside) (command : Command) (i : nat) : Prop :=
  exists ex, ctrl_reply O i command = Raises ex /\ is_Exception ex = true.

(** What a Pea is configured with, as opposed to its events and journal. *)
Definition config (p : Pea)
  : Args * string * RuntimeClass * gmap string string * Z * string :=
  (args p, self_name p, self_runtime_cls p, _envs p, _timeout_ctrl p,
   _zed_runtime_ctrl_address p).

(** Code that may move the events and extend the journal but leaves the
    configuration alone. *)
Definition keeps_config {A} (m : M A) : Prop :=
  forall p, config (snd (m p)) = config p.

Definition _is_dealer (p : Pea) : bool :=
  socket_eqb (socket_in (args p)) DEALER_CONNECT.

Definition activate_runtime (O : Outside) : M unit :=
  dealer <- get _is_dealer;;
  if dealer then _retry_control_message O ACTIVATE 3 else ret tt.

Definition _deactivate_runtime (O : Outside) : M unit :=
  dealer <- get _is_dealer;;
  if dealer then _retry_control_message O DEACTIVATE 3 else ret tt.

Definition _cancel_runtime (O : Outside) : M unit :=
  cls <- get self_runtime_cls;;
  if runtime_class_eqb cls ZEDRuntime || runtime_class_eqb cls ContainerRuntime
  then _retry_control_message O TERMINATE 3
  else
    emit CancelSet;;
    ((fun p => (Returns tt, with_events (set_cancel (events p)) p)) : M unit).

(** The timeout handed to the combinator: [None] for a non-positive
    ready-timeout; otherwise the source divides by 1e3 to get seconds,
    the value is kept in milliseconds here. *)
Definition ready_timeout (p : Pea) : option Z :=
  let t := timeout_ready (args p) in
  if t <=? 0 then None else Some t.

Definition close_error_msg (a : Args) (ex : PyExc) : LogMsg :=
  if negb (quiet_error a) then MsgDuringClose ex else MsgEmpty.

(** Wait for Shutdown after the stop request; on a miss, terminate and
    raise. *)
Definition await_shutdown (O : Outside) : M unit :=
  t <- get _timeout_ctrl;;
  arrived <- is_shutdown_wait O t;;
  if negb arrived then
    terminate;;
    time_sleep 100;;
    raise (ShutdownNotReceived t)
  else ret tt.

(** The try suite of the ready branch of close. *)
Definition close_handshake (O : Outside) : M unit :=
  _deactivate_runtime O;;
  _cancel_runtime O;;
  await_shutdown O.

Definition close (O : Outside) : M unit :=
  logger DEBUG MsgWaitingSignal;;
  ev <- get events;;
  (if is_ready ev && negb (is_shutdown ev) then
     try_except (close_handshake O)
       (fun ex =>
          a <- get args;;
          emit (Log ERROR (close_error_msg a ex) (negb (quiet_error a))));;
     a <- get args;;
     if negb (daemon a) then join else ret tt
   else if is_shutdown ev then
     ret tt
   else
     logger WARNING MsgClosedBeforeReady;;
     _timeout <- get ready_timeout;;
     logger DEBUG MsgWaitingSignal;;
     fired <- ready_or_shutdown_wait O _timeout;;
     if fired then
       ev <- get events;;
       if is_ready ev then
         _cancel_runtime O;;
         await_shutdown O
       else ret tt
     else
       logger WARNING MsgTerminatingAfterWait;;
       terminate;;
       time_sleep 100);;
  logger DEBUG MsgStop;;
  emit LoggerClose.

(** The journal at the moment the combinator wait of the last branch of
    close starts. *)
Definition waiting_journal (p : Pea) : list Action :=
  journal p ++ [Log DEBUG MsgWaitingSignal false;
                Log WARNING MsgClosedBeforeReady false;
                Log DEBUG MsgWaitingSignal false;
                WaitReadyOrShutdown (ready_timeout p)].

(** What a call of terminate that returns adds to the journal. *)
Definition kill_record (p : Pea) : list Action :=
  if backend_eqb (runtime_backend (args p)) PROCESS then [WorkerTerminate] else [].

Definition wait_start_success (O : Outside) : M unit :=
  _timeout <- get ready_timeout;;
  logger DEBUG MsgWaitingSignal;;
  fired <- ready_or_shutdown_wait O _timeout;;
  if fired then
    ev <- get events;;
    if is_shutdown ev then
      if negb (is_started ev) then raise RuntimeFailToStart
      else raise RuntimeRunForeverEarlyError
    else logger SUCCESS MsgReady
  else
    a <- get args;;
    logger WARNING (MsgReadyTimeout (timeout_ready a));;
    close O;;
    name <- get self_name;;
    raise (TimeoutError name).

Definition start (O : Outside) : M unit :=
  worker_start;;
  a <- get args;;
  if negb (noblock_on_start a) then wait_start_success O else ret tt.

Definition __enter__ (O : Outside) : M unit := start O.
Definition __exit__ (O : Outside) : M unit := close O.

End BasePea.

(** ** Sample configurations, runtimes and channels

    Concrete inputs on which the properties below are exercised. *)

(** A gateway configured over gRPC together with a container image. *)
Definition gateway_with_image : Args :=
  mkArgs "gateway" "id-0" false false None PROCESS "ZEDRuntime" "10.1.2.3"
         false "docker://jinahub/encoder" (Some GRPC) 1000 500 false false
         (OtherSocket 0).

Definition local_hub : HubExternals :=
  mkHub "0.0.0.0" (String.prefix "jinahub") (fun _ => "docker://pulled").

(** A local dealer Pea; [user_env] is what the user passed as env. *)
Definition pea_args (backend : RuntimeBackendType)
    (user_env : option (gmap string string)) : Args :=
  mkArgs "pea" "id-1" false false user_env backend "ZEDRuntime" "0.0.0.0"
         false "MyExecutor" None 1000 500 false false DEALER_CONNECT.

Definition user_overrides : gmap string string := {["MODEL_DIR" := "/models"]}.

(** The environment the worker starts with. *)
Definition inherited_env : ProcEnv :=
  mkProcEnv {["HOME" := "/root"]} {["HOME" := "/root"]}.

Definition fresh_world : EntryPoint.World :=
  EntryPoint.mkWorld no_events inherited_env [].

Definition boom : PyExc := Foreign true "boom".

(** A Runtime whose run_forever raises and whose __exit__ returns a
    false value, so the exception is not suppressed. *)
Definition rt_failing_loop : EntryPoint.Runtime :=
  EntryPoint.mkRuntime
    (fun c => (Returns tt, c))
    (fun c => (Raises boom, c))
    (fun _ c => (Returns false, c)).

(** A Runtime that becomes ready and then returns. *)
Definition rt_ready_then_stops : EntryPoint.Runtime :=
  EntryPoint.mkRuntime
    (fun c => (Returns tt, c))
    (fun c => (Returns tt,
               EntryPoint.mkCtx true (EntryPoint.ctx_cancel c) (EntryPoint.ctx_env c)))
    (fun _ c => (Returns true, c)).

Definition cls_of (rt : EntryPoint.Runtime) : EntryPoint.RuntimeCls :=
  EntryPoint.mkRuntimeCls (fun _ _ _ c => (Returns rt, c)).

Definition cls_failing_init : EntryPoint.RuntimeCls :=
  EntryPoint.mkRuntimeCls (fun _ _ _ c => (Raises boom, c)).

(** Supervisors over the sample dealer Pea, its worker started. *)
Definition sample_pea (backend : RuntimeBackendType) (cls : RuntimeClass)
    (e : Events) : BasePea.Pea :=
  let a := pea_args backend None in
  BasePea.mkPea a "pea" cls (BasePea.init_envs a "pea") (timeout_ctrl a)
                "tcp://0.0.0.0:50001" e [] true.

Definition ready_events : Events := mkEvents true false true false.
Definition closed_events : Events := mkEvents true true true false.

(** The error of the n-th send (counted from 0) on a failing channel. *)
Definition send_failure (n : nat) : PyExc :=
  Foreign true (match n with
                | O => "first send timed out"
                | S O => "second send timed out"
                | S (S O) => "third send timed out"
                | _ => "later send timed out"
                end).

(** A channel on which every send fails. *)
Definition dead_channel : BasePea.Outside :=
  BasePea.mkOutside (fun n _ => Raises (send_failure n))
                    (fun _ e => e)
                    (fun _ e => (false, e)).

(** A channel whose second send is the first to succeed. *)
Definition flaky_channel : BasePea.Outside :=
  BasePea.mkOutside (fun n _ => if Nat.eqb n 1 then Returns tt
                                else Raises (send_failure n))
                    (fun _ e => e)
                    (fun _ e => (false, e)).

(** A worker that becomes ready, acknowledges every command and shuts
    down when asked. *)
Definition obedient_worker : BasePea.Outside :=
  BasePea.mkOutside (fun _ _ => Returns tt)
                    (fun _ e => set_shutdown e)
                    (fun _ _ => (true, ready_events)).

(** A worker that becomes ready and acknowledges every command but never
    signals Shutdown. *)
Definition stuck_worker : BasePea.Outside :=
  BasePea.mkOutside (fun _ _ => Returns tt)
                    (fun _ e => e)
                    (fun _ _ => (true, ready_events)).

(** A Runtime whose run_forever returns at once, never ready. *)
Definition rt_returns_at_once : EntryPoint.Runtime :=
  EntryPoint.mkRuntime
    (fun c => (Returns tt, c))
    (fun c => (Returns tt, c))
    (fun _ c => (Returns true, c)).

(** The event set a supervisor finds once the worker running [cls] has
    left [run]. *)
Definition events_after_run (cls : EntryPoint.RuntimeCls) : Events :=
  EntryPoint.events
    (snd (EntryPoint.run (pea_args PROCESS None) "pea" cls
                         (BasePea.init_envs (pea_args PROCESS None) "pea")
                         500 "tcp://0.0.0.0:50001" fresh_world)).

(** A worker that has already left [run] when the supervisor looks. *)
Definition finished_worker (cls : EntryPoint.RuntimeCls) : BasePea.Outside :=
  BasePea.mkOutside (fun _ _ => Returns tt)
                    (fun _ e => e)
                    (fun _ _ => (true, events_after_run cls)).

(** ** Notions used by the further properties *)

(** The condition of the first rule of _get_runtime_cls. *)
Definition remote_applies (X : HubExternals) (a : Args) : bool :=
  negb (str_in (runtime_cls a) gateway_runtime_values)
  && negb (String.eqb (host a) (__default_host__ X))
  && negb (disable_remote a).

(** The fields of args the selection policy never assigns. *)
Definition policy_untouched (a : Args) :=
  (name a, identity a, quiet a, quiet_error a, env a, runtime_backend a,
   host a, disable_remote a, protocol a, timeout_ctrl a, daemon a,
   noblock_on_start a, socket_in a).

(** A gateway whose class name was left at the default and whose host is
    remote. *)
Definition remote_gateway : Args :=
  mkArgs "gateway" "id-2" false false None PROCESS "ZEDRuntime" "10.1.2.3"
         false "MyExecutor" (Some HTTP) 5000 500 false false (OtherSocket 0).

(** The same Pea args on a remote host, with a container image. *)
Definition remote_pea_args : Args :=
  mkArgs "pea" "id-3" false false None PROCESS "ZEDRuntime" "10.1.2.3"
         false "docker://jinahub/encoder" None 5000 500 false false
         (OtherSocket 0).

(** Local Pea args with a given executor reference. *)
Definition local_pea_args (uses : string) : Args :=
  mkArgs "pea" "id-4" false false None PROCESS "ZEDRuntime" "0.0.0.0"
         false uses None 5000 500 false false (OtherSocket 0).

(** A hub whose pull yields a plain executor rather than an image. *)
Definition source_hub : HubExternals :=
  mkHub "0.0.0.0" (String.prefix "jinahub") (fun _ => "PulledExecutor").

(** Runtime code that leaves the environment as it finds it. *)
Definition keeps_env {A} (f : EntryPoint.Ctx -> Outcome A * EntryPoint.Ctx) : Prop :=
  forall c, EntryPoint.ctx_env (snd (f c)) = EntryPoint.ctx_env c.

(** A Runtime class none of whose code touches the environment. *)
Definition env_neutral (cls : EntryPoint.RuntimeCls) : Prop :=
  forall args addr tc,
    keeps_env (EntryPoint.rt_init cls args addr tc)
    /\ forall c rt c',
         EntryPoint.rt_init cls args addr tc c = (Returns rt, c') ->
         keeps_env (EntryPoint.rt_enter rt)
         /\ keeps_env (EntryPoint.rt_run_forever rt)
         /\ forall e, keeps_env (EntryPoint.rt_exit rt e).

(** An environment that already carries a worker name from the parent. *)
Definition named_env : ProcEnv :=
  mkProcEnv {["JINA_POD_NAME" := "parent"]} {["JINA_POD_NAME" := "parent"]}.

(** A constructor interrupted by the user. *)
Definition interrupt : PyExc := Foreign false "KeyboardInterrupt".

Definition cls_interrupted_init : EntryPoint.RuntimeCls :=
  EntryPoint.mkRuntimeCls (fun _ _ _ c => (Raises interrupt, c)).


(** A world whose environment already names a worker. *)
Definition named_world : EntryPoint.World :=
  EntryPoint.mkWorld no_events named_env [].

(** Whether the class listens for control messages, the test of
    _cancel_runtime. *)
Definition message_class (p : BasePea.Pea) : bool :=
  runtime_class_eqb (BasePea.self_runtime_cls p) ZEDRuntime
  || runtime_class_eqb (BasePea.self_runtime_cls p) ContainerRuntime.

(** A channel interrupted by the user on the second send. *)
Definition interrupted_channel : BasePea.Outside :=
  BasePea.mkOutside (fun n _ => if Nat.eqb n 1 then Raises interrupt
                                else Raises (send_failure n))
                    (fun _ e => e)
                    (fun _ e => (false, e)).

(** What close may do on a Pea configured as [p]: log, close the logger,
    send DEACTIVATE if a dealer and TERMINATE if the class listens for
    messages, both under the control timeout, set Cancel otherwise, wait
    for Shutdown under the control timeout and for the combinator under
    the ready-timeout, terminate a process, join unless a daemon, and
    sleep a tenth of a second. *)
Definition permitted_in_close (p : BasePea.Pea) (a : Action) : bool :=
  match a with
  | Log _ _ _ | LoggerClose => true
  | SendCtrl ACTIVATE _ => false
  | SendCtrl DEACTIVATE t =>
      BasePea._is_dealer p && (t =? BasePea._timeout_ctrl p)
  | SendCtrl TERMINATE t =>
      message_class p && (t =? BasePea._timeout_ctrl p)
  | CancelSet => negb (message_class p)
  | WaitShutdown t => t =? BasePea._timeout_ctrl p
  | WaitReadyOrShutdown o => bool_decide (o = BasePea.ready_timeout p)
  | WorkerTerminate => backend_eqb (runtime_backend (BasePea.args p)) PROCESS
  | WorkerJoin => negb (daemon (BasePea.args p))
  | Sleep ms => ms =? 100
  | Construct _ | WorkerStart => false
  end.

(** Code that, run on a Pea configured as [p0], extends the journal by
    actions satisfying [P] and keeps the configuration. *)
Definition appends (p0 : BasePea.Pea) (P : Action -> bool) {A}
    (m : BasePea.M A) : Prop :=
  forall p, BasePea.config p = BasePea.config p0 ->
    exists added,
      BasePea.journal (snd (m p)) = BasePea.journal p ++ added
      /\ Forall (fun a => P a = true) added
      /\ BasePea.config (snd (m p)) = BasePea.config p0.

(** How the ready branch of close ends once the handshake is over:
    join unless a daemon, the last debug record, the logger closed. *)
Definition finish_ready (q : BasePea.Pea) : Outcome unit * BasePea.Pea :=
  (Returns tt,
   BasePea.with_journal
     (BasePea.journal q
      ++ (if daemon (BasePea.args q) then [] else [WorkerJoin])
      ++ [Log DEBUG MsgStop false; LoggerClose]) q).

(** A dealer Pea whose class has no control listener. *)
Definition gateway_pea (e : Events) : BasePea.Pea :=
  sample_pea PROCESS GRPCRuntime e.

(** A channel interrupted by the user on the first send. *)
Definition interrupted_at_once : BasePea.Outside :=
  BasePea.mkOutside (fun _ _ => Raises interrupt)
                    (fun _ e => e)
                    (fun _ e => (false, e)).

(** A worker that shuts down on its own before it ever becomes ready. *)
Definition dying_worker : BasePea.Outside :=
  BasePea.mkOutside (fun _ _ => Returns tt)
                    (fun _ e => e)
                    (fun _ _ => (true, mkEvents true true false false)).

(** The overlay entries __init__ writes before merging the user's env. *)
Definition default_overlay (a : Args) (self_name : string) (k : string)
  : option string :=
  if String.eqb k "JINA_POD_NAME" then Some self_name
  else if String.eqb k "JINA_LOG_ID" then Some (identity a)
  else if String.eqb k "JINA_LOG_CONFIG" && quiet a then Some "QUIET"
  else None.

(** A user env with an empty variable name, as [--env =x] gives. *)
Definition nameless_env : gmap string string := {[EmptyString := "x"]}.

(** The sample dealer Pea before its worker is started. *)
Definition unstarted_pea (backend : RuntimeBackendType) (cls : RuntimeClass)
    (e : Events) : BasePea.Pea :=
  let a := pea_args backend None in
  BasePea.mkPea a "pea" cls (BasePea.init_envs a "pea") (timeout_ctrl a)
                "tcp://0.0.0.0:50001" e [] false.

(** A worker that is neither ready nor shut down when the ready-timeout
    expires, nor when close waits once more. *)
Definition silent_worker : BasePea.Outside :=
  BasePea.mkOutside (fun _ _ => Returns tt)
                    (fun _ e => e)
                    (fun _ e => (false, e)).

(** A user env that renames the worker. *)
Definition renaming_env : gmap string string :=
  {["JINA_POD_NAME" := "renamed"]}.

(** What the user's env, if any, says about a variable. *)
Definition user_value (a : Args) (k : string) : option string :=
  match env a with
  | Some user => user !! k
  | None => None
  end.

(** * Properties *)

(** ** Runtime selection *)

Section Selection.
Variable X : HubExternals.

Lemma protocol_rule_remote a : protocol (rule_remote X a) = protocol a.
Proof. unfold rule_remote. now destruct (_ && _). Qed.

Lemma protocol_rule_container a : protocol (rule_container a) = protocol a.
Proof. unfold rule_container. now destruct (_ && _). Qed.

Lemma protocol_rule_hub a : protocol (rule_hub X a) = protocol a.
Proof.
  unfold rule_hub. destruct (_ && _); [|reflexivity].
  now destruct (startswith _ _).
Qed.

Lemma get_runtime_gateway p :
  get_runtime (gateway_runtime_dict p) = Returns (gateway_class p).
Proof. now destruct p. Qed.

(** C6: whenever a gateway protocol is configured, the policy returns
    the gateway Runtime class of that protocol and leaves its name in
    args.runtime_cls, whatever the host, the executor reference (a
    docker:// image included), the hub resolution or the class name
    configured before. *)
Theorem C6_gateway_protocol_selects_gateway_runtime (a : Args) (p : GatewayProtocolType) :
  protocol a = Some p ->
  snd (_get_runtime_cls X a) = get_runtime (gateway_runtime_dict p)
  /\ snd (_get_runtime_cls X a) = Returns (gateway_class p)
  /\ runtime_cls (fst (_get_runtime_cls X a)) = gateway_runtime_dict p.
Proof.
  intros Hp. unfold _get_runtime_cls. cbn [fst snd].
  assert (Hg : runtime_cls (rule_gateway (rule_hub X (rule_container (rule_remote X a))))
               = gateway_runtime_dict p).
  { unfold rule_gateway.
    rewrite protocol_rule_hub, protocol_rule_container, protocol_rule_remote, Hp.
    reflexivity. }
  rewrite Hg. rewrite get_runtime_gateway. auto.
Qed.
End Selection.

(** The gateway class is selected although args.uses is a docker:// image
    and the host is remote. *)
Lemma C6_gateway_over_image_witness :
  protocol gateway_with_image = Some GRPC
  /\ startswith (uses gateway_with_image) "docker://" = true
  /\ snd (_get_runtime_cls local_hub gateway_with_image) = Returns GRPCRuntime.
Proof.
  split; [reflexivity|]. split; [reflexivity|].
  exact (proj1 (proj2 (C6_gateway_protocol_selects_gateway_runtime
                         local_hub gateway_with_image GRPC eq_refl))).
Defined.

(** ** The calls into the os module *)

Lemma for_each_setitem items e :
  forallb settable items = true ->
  for_each environ_setitem items e = (Returns tt, foldl with_variable e items).
Proof.
  revert e. induction items as [|kv items IH]; intros e H; [reflexivity|].
  cbn [forallb] in H. apply andb_true_iff in H as [Hkv H].
  cbn [for_each foldl]. unfold environ_setitem at 1. rewrite Hkv.
  now apply IH.
Qed.

Lemma for_each_unsetenv ks e :
  forallb legal_env_name ks = true ->
  for_each os_unsetenv ks e = (Returns tt, foldl without_variable e ks).
Proof.
  revert e. induction ks as [|k ks IH]; intros e H; [reflexivity|].
  cbn [forallb] in H. apply andb_true_iff in H as [Hk H].
  cbn [for_each foldl]. unfold os_unsetenv at 1. rewrite Hk.
  now apply IH.
Qed.

(** A loop over a name that os.unsetenv refuses ends in its exception,
    which [except Exception] would catch. *)
Lemma for_each_unsetenv_refused ks e :
  forallb legal_env_name ks = false ->
  exists ex e', for_each os_unsetenv ks e = (Raises ex, e')
                /\ is_Exception ex = true.
Proof.
  revert e. induction ks as [|k ks IH]; intros e H; [discriminate|].
  cbn [forallb] in H. cbn [for_each]. unfold os_unsetenv at 1.
  destruct (legal_env_name k) eqn:Hk.
  - cbn [andb] in H. apply IH, H.
  - exists (unsetenv_error k), e. split; [reflexivity|].
    unfold unsetenv_error, embedded_null. now destruct (has_char _ _).
Qed.

Lemma for_each_setitem_raises items e ex e' :
  for_each environ_setitem items e = (Raises ex, e') -> is_Exception ex = true.
Proof.
  revert e. induction items as [|kv items IH]; intros e; [discriminate|].
  cbn [for_each]. unfold environ_setitem at 1.
  destruct (settable kv).
  - apply IH.
  - intros [= <- _]. unfold setitem_error, embedded_null. now destruct (_ || _).
Qed.

Lemma foldl_with_variable items e :
  foldl with_variable e items
  = mkProcEnv (list_to_map (reverse items) ∪ os_environ e)
              (list_to_map (reverse items) ∪ native_env e).
Proof.
  revert e. induction items as [|[k v] items IH]; intros [m n].
  - cbn. now rewrite !(left_id ∅ (∪)).
  - cbn [foldl]. rewrite IH. cbn [with_variable os_environ native_env fst snd].
    rewrite reverse_cons, list_to_map_app. cbn [list_to_map foldr fst snd].
    rewrite <- !(assoc_L (∪)), <- !insert_union_l, !(left_id_L ∅ (∪)).
    reflexivity.
Qed.

Lemma os_environ_update_accepted d e :
  settable_overlay d = true ->
  os_environ_update d e = (Returns tt, environ_update d e).
Proof.
  intros H. unfold os_environ_update. rewrite for_each_setitem by exact H.
  rewrite foldl_with_variable. unfold environ_update.
  assert (Hd : list_to_map (reverse (map_to_list d)) = d).
  { rewrite <- (list_to_map_to_list d) at 2.
    apply list_to_map_proper.
    - rewrite fmap_reverse, reverse_Permutation. apply NoDup_fst_map_to_list.
    - apply reverse_Permutation. }
  now rewrite Hd.
Qed.

Lemma settable_overlay_legal_names d :
  settable_overlay d = true -> legal_names d = true.
Proof.
  unfold settable_overlay, legal_names, dict_keys.
  induction (map_to_list d) as [|kv l IH]; [reflexivity|].
  cbn. intros [Hkv Hl]%andb_true_iff.
  unfold settable in Hkv. apply andb_true_iff in Hkv as [Hk _].
  rewrite Hk. cbn. now apply IH.
Qed.

Lemma native_env_foldl_unsetenv ks e k :
  native_env (foldl without_variable e ks) !! k
  = if decide (k ∈ ks) then None else native_env e !! k.
Proof.
  revert e. induction ks as [|k0 ks IH]; intros e; cbn [foldl].
  - rewrite decide_False; [reflexivity|apply not_elem_of_nil].
  - rewrite IH. cbn [without_variable native_env].
    destruct (decide (k ∈ ks)) as [Hin|Hnin].
    + rewrite decide_True; [reflexivity|now apply elem_of_cons; right].
    + destruct (decide (k = k0)) as [->|Hne].
      * rewrite decide_True; [|now apply elem_of_cons; left].
        apply lookup_delete_eq.
      * rewrite decide_False.
        -- now apply lookup_delete_ne.
        -- intros [?|?]%elem_of_cons; congruence.
Qed.

Lemma os_environ_foldl_unsetenv ks e :
  os_environ (foldl without_variable e ks) = os_environ e.
Proof. revert e. induction ks as [|k0 ks IH]; intros e; cbn; [|rewrite IH]; reflexivity. Qed.

Lemma elem_of_dict_keys (d : gmap string string) k :
  k ∈ dict_keys d <-> is_Some (d !! k).
Proof.
  unfold dict_keys. rewrite list_elem_of_fmap. split.
  - intros [[k' v] [-> Hin]]. apply elem_of_map_to_list in Hin. now exists v.
  - intros [v Hv]. exists (k, v). split; [reflexivity|].
    now apply elem_of_map_to_list.
Qed.


(** ** The worker entry point *)

Section EntryPointFacts.
Import EntryPoint.

Lemma own_signals_in_runtime {A} (f : Ctx -> Outcome A * Ctx) w :
  own_signals (snd (in_runtime f w)) = own_signals w.
Proof. unfold in_runtime. now destruct (f _). Qed.

Lemma own_signals_with_runtime rt body w :
  (forall w0, own_signals (snd (body w0)) = own_signals w0) ->
  own_signals (snd (with_runtime rt body w)) = own_signals w.
Proof.
  intros Hbody. unfold with_runtime.
  destruct (in_runtime (rt_enter rt) w) as [[[]|ex] w1] eqn:E1;
    pose proof (own_signals_in_runtime (rt_enter rt) w) as H1;
    rewrite E1 in H1; cbn [snd] in *; [|exact H1].
  specialize (Hbody w1).
  destruct (body w1) as [[[]|ex] w2]; cbn [snd] in Hbody.
  - pose proof (own_signals_in_runtime (rt_exit rt None) w2) as H2.
    destruct (in_runtime (rt_exit rt None) w2) as [[b|ex] w3];
      cbn [snd] in *; congruence.
  - pose proof (own_signals_in_runtime (rt_exit rt (Some ex)) w2) as H2.
    destruct (in_runtime (rt_exit rt (Some ex)) w2) as [[[|]|ex'] w3];
      cbn [snd] in *; congruence.
Qed.

Lemma events_in_penv f w : events (snd (in_penv f w)) = events w.
Proof. unfold in_penv. now destruct (f _). Qed.

Lemma journal_in_penv f w : journal (snd (in_penv f w)) = journal w.
Proof. unfold in_penv. now destruct (f _). Qed.

Lemma events__set_envs args envs w :
  events (snd (_set_envs args envs w)) = events w.
Proof.
  unfold _set_envs. destruct (dict_truthy _); [|reflexivity].
  destruct (backend_eqb _ _); [reflexivity|apply events_in_penv].
Qed.

Lemma events__unset_envs args envs w :
  events (snd (_unset_envs args envs w)) = events w.
Proof. unfold _unset_envs. destruct (_ && _); [apply events_in_penv|reflexivity]. Qed.

Lemma journal__unset_envs args envs w :
  journal (snd (_unset_envs args envs w)) = journal w.
Proof. unfold _unset_envs. destruct (_ && _); [apply journal_in_penv|reflexivity]. Qed.

(** What [_set_envs] raises is caught by [except Exception]. *)
Lemma _set_envs_raises args envs w ex w0 :
  _set_envs args envs w = (Raises ex, w0) -> is_Exception ex = true.
Proof.
  unfold _set_envs. destruct (dict_truthy _); [|discriminate].
  destruct (backend_eqb _ _); [discriminate|].
  unfold in_penv, os_environ_update.
  destruct (for_each _ _ _) as [o e] eqn:E. intros [= -> _].
  exact (for_each_setitem_raises _ _ _ _ E).
Qed.

Lemma _set_envs_process args envs w :
  dict_truthy (env args) = true -> runtime_backend args = PROCESS ->
  settable_overlay envs = true ->
  _set_envs args envs w = (Returns tt, with_penv (environ_update envs) w).
Proof.
  intros Ht Hb Hs. unfold _set_envs, in_penv. rewrite Ht, Hb. cbn [backend_eqb].
  now rewrite os_environ_update_accepted.
Qed.

Lemma _unset_envs_thread args envs w :
  runtime_backend args = THREAD -> _unset_envs args envs w = (Returns tt, w).
Proof. intros Hb. unfold _unset_envs. rewrite Hb. cbn. now rewrite andb_false_r. Qed.

Lemma _unset_envs_process args envs w :
  runtime_backend args = PROCESS -> legal_names envs = true ->
  _unset_envs args envs w
  = (Returns tt,
     with_penv (fun e => foldl without_variable e (dict_keys envs)) w).
Proof.
  intros Hb Hl. unfold _unset_envs. rewrite Hb. cbn [backend_eqb negb].
  rewrite andb_true_r. destruct (bool_decide (envs = ∅)) eqn:He; cbn [negb].
  - apply bool_decide_eq_true in He. subst envs.
    unfold dict_keys. rewrite map_to_list_empty. now destruct w.
  - unfold in_penv. now rewrite for_each_unsetenv.
Qed.

(** The finalizer returns exactly when it is safe. *)
Lemma _unset_envs_safe args envs w :
  finalizer_safe args envs = true ->
  fst (_unset_envs args envs w) = Returns tt.
Proof.
  unfold finalizer_safe. destruct (runtime_backend args) eqn:Hb; cbn.
  - intros _. now rewrite _unset_envs_thread.
  - intros Hl. now rewrite _unset_envs_process.
Qed.

Lemma _unset_envs_unsafe args envs w :
  finalizer_safe args envs = false ->
  exists ex w', _unset_envs args envs w = (Raises ex, w')
                /\ is_Exception ex = true.
Proof.
  unfold finalizer_safe. destruct (runtime_backend args) eqn:Hb; cbn;
    [discriminate|].
  intros Hl. unfold _unset_envs. rewrite Hb. cbn [backend_eqb negb].
  rewrite andb_true_r. destruct (bool_decide (envs = ∅)) eqn:He; cbn [negb].
  - apply bool_decide_eq_true in He. subst envs.
    unfold legal_names, dict_keys in Hl. now rewrite map_to_list_empty in Hl.
  - unfold in_penv.
    destruct (for_each_unsetenv_refused (dict_keys envs) (penv w) Hl)
      as (ex & e' & -> & Hex).
    now exists ex, (mkWorld (events w) e' (journal w)).
Qed.

Lemma own_signals_construct cls args addr tc w :
  own_signals (snd (construct cls args addr tc w)) = own_signals w.
Proof. unfold construct. now rewrite own_signals_in_runtime. Qed.

Lemma events_except_Exception args ex w :
  events (snd (except_Exception args ex w)) = events w.
Proof. unfold except_Exception. now destruct (is_Exception ex). Qed.

(** [run] ends in its finally clause whatever happened before; the
    clause sets Shutdown once [_unset_envs] has returned. *)
Lemma run_shutdown args name cls envs tc addr w :
  is_shutdown (events (snd (run args name cls envs tc addr w)))
  = is_shutdown (events w) || finalizer_safe args envs.
Proof.
  unfold run.
  match goal with
  | |- context [let '(o, w0) := ?t in _] =>
      assert (Hs : is_shutdown (events (snd t)) = is_shutdown (events w));
      [|destruct t as [o w3]]
  end.
  - pose proof (events__set_envs args envs w) as H0.
    destruct (_set_envs args envs w) as [[[]|ex] w0]; cbn [snd] in H0.
    + pose proof (own_signals_construct cls args addr tc w0) as Hc.
      destruct (construct cls args addr tc w0) as [[rt|ex] w1]; cbn [snd] in Hc.
      * pose proof (own_signals_with_runtime rt (in_runtime (rt_run_forever rt))
                      (with_events set_started w1)
                      (own_signals_in_runtime _)) as Hw.
        unfold own_signals in Hw, Hc. injection Hw as _ Hw. injection Hc as _ Hc.
        rewrite Hw. cbn. now rewrite Hc, H0.
      * rewrite events_except_Exception.
        unfold own_signals in Hc. injection Hc as _ Hc. now rewrite Hc, H0.
    + rewrite events_except_Exception. now rewrite H0.
  - cbn [snd] in Hs.
    pose proof (events__unset_envs args envs w3) as Hu.
    destruct (finalizer_safe args envs) eqn:Hf.
    + pose proof (_unset_envs_safe args envs w3 Hf) as Hr.
      destruct (_unset_envs args envs w3) as [[[]|ex] w4]; [|discriminate].
      cbn. now rewrite orb_true_r.
    + destruct (_unset_envs_unsafe args envs w3 Hf) as (ex & w4 & Hr & _).
      rewrite Hr in Hu |- *. cbn [snd] in *. now rewrite Hu, Hs, orb_false_r.
Qed.

Lemma run_started args name cls envs tc addr w :
  is_started (events (snd (run args name cls envs tc addr w)))
  = is_started (events w) || construction_succeeds args cls envs tc addr w.
Proof.
  unfold run, construction_succeeds.
  match goal with
  | |- context [let '(o, w0) := ?t in _] =>
      assert (Hs : is_started (events (snd t))
                   = is_started (events w)
                     || match _set_envs args envs w with
                        | (Returns _, w0) =>
                            negb (raised (fst (construct cls args addr tc w0)))
                        | (Raises _, _) => false
                        end);
      [|destruct t as [o w3]]
  end.
  - pose proof (events__set_envs args envs w) as H0.
    destruct (_set_envs args envs w) as [[[]|ex] w0]; cbn [snd] in H0.
    + pose proof (own_signals_construct cls args addr tc w0) as Hc.
      destruct (construct cls args addr tc w0) as [[rt|ex] w1];
        cbn [fst snd raised negb] in *.
      * pose proof (own_signals_with_runtime rt (in_runtime (rt_run_forever rt))
                      (with_events set_started w1)
                      (own_signals_in_runtime _)) as Hw.
        unfold own_signals in Hw. injection Hw as Hw _.
        rewrite Hw. cbn. now rewrite orb_true_r.
      * rewrite events_except_Exception.
        unfold own_signals in Hc. injection Hc as Hc _.
        now rewrite Hc, H0, orb_false_r.
    + rewrite events_except_Exception. now rewrite H0, orb_false_r.
  - cbn [snd] in Hs. rewrite <- Hs.
    pose proof (events__unset_envs args envs w3) as Hu.
    destruct (_unset_envs args envs w3) as [[[]|ex] w4]; cbn [snd] in *;
      cbn; now rewrite Hu.
Qed.

(** When the finalizer raises, its exception is what [run] raises. *)
Lemma run_raises_from_finalizer args name cls envs tc addr w :
  finalizer_safe args envs = false ->
  exists ex, fst (run args name cls envs tc addr w) = Raises ex
             /\ is_Exception ex = true.
Proof.
  intros Hf. unfold run.
  match goal with
  | |- context [let '(o, w0) := ?t in _] => destruct t as [o w3]
  end.
  destruct (_unset_envs_unsafe args envs w3 Hf) as (ex & w4 & -> & Hex).
  now exists ex.
Qed.
End EntryPointFacts.

(** C1: with a user env that holds an empty variable name, in a process,
    os.environ.update raises before the Runtime is constructed, the error
    is logged, and the finally clause raises from os.unsetenv before it
    reaches is_shutdown.set(): [run] ends by raising, with neither
    Started nor Shutdown set. *)
Theorem C1_refused_unsetenv_skips_shutdown :
  let a := pea_args PROCESS (Some nameless_env) in
  let out := EntryPoint.run a "pea" (cls_of rt_ready_then_stops)
               (BasePea.init_envs a "pea") 500 "tcp://0.0.0.0:50001"
               fresh_world in
  BasePea.init_envs a "pea" !! EmptyString = Some "x"
  /\ fst out = Raises (unsetenv_error EmptyString)
  /\ is_shutdown (EntryPoint.events (snd out)) = false
  /\ is_started (EntryPoint.events (snd out)) = false
  /\ EntryPoint.seen_at_construction (EntryPoint.journal (snd out)) = None
  /\ EntryPoint.journal (snd out)
     = [Log ERROR (MsgDuringInit (setitem_error (EmptyString, "x"))) true].
Proof. cbv zeta. repeat split; vm_compute; reflexivity. Qed.

Section EntryPointIsolation.
Import EntryPoint.

(** C4: a Runtime whose run_forever raises and whose __exit__ does not
    suppress the exception makes [run] itself raise that exception,
    after its finally clause has set Shutdown; the docstring of [run]
    asks that no exception be raised there. *)
Theorem C4_loop_exception_escapes_run :
  let out := run (pea_args PROCESS None) "pea" (cls_of rt_failing_loop)
                 (BasePea.init_envs (pea_args PROCESS None) "pea") 500
                 "tcp://0.0.0.0:50001" fresh_world in
  fst out = Raises boom
  /\ is_Exception boom = true
  /\ is_started (events (snd out)) = true
  /\ is_shutdown (events (snd out)) = true.
Proof. cbv zeta. repeat split; vm_compute; reflexivity. Qed.
End EntryPointIsolation.

(** ** The environment overlay *)

Section Overlay.
Import EntryPoint.





End Overlay.



(** ** The supervisor: waiting for the start *)

Section Supervisor.
Import BasePea.
Variable O : Outside.

Lemma wait_result_true t : wait_result t true = true.
Proof. now destruct t. Qed.

(** C2: when the ready-or-shutdown combinator fires within the
    ready-timeout, wait_start_success raises RuntimeFailToStart if
    Shutdown is set and Started is not, raises
    RuntimeRunForeverEarlyError if Shutdown and Started are both set,
    and returns without exception if Shutdown is not set.  [ev] is the
    event set as the supervisor reads it when the wait returns. *)
Theorem C2_wait_start_success_outcomes (p : Pea) (ev : Events) :
  combinator_wait O
    (journal p ++ [Log DEBUG MsgWaitingSignal false;
                   WaitReadyOrShutdown (ready_timeout p)])
    (events p) = (true, ev) ->
  (is_shutdown ev = true -> is_started ev = false ->
     fst (wait_start_success O p) = Raises RuntimeFailToStart)
  /\ (is_shutdown ev = true -> is_started ev = true ->
     fst (wait_start_success O p) = Raises RuntimeRunForeverEarlyError)
  /\ (is_shutdown ev = false ->
     fst (wait_start_success O p) = Returns tt).
Proof.
  intros Hw.
  unfold wait_start_success, bind, get, logger, emit, ready_or_shutdown_wait.
  cbn. rewrite <- app_assoc. cbn. rewrite Hw, wait_result_true. cbn.
  repeat split.
  - intros -> ->. reflexivity.
  - intros -> ->. reflexivity.
  - intros ->. reflexivity.
Qed.

(** ** The supervisor: closing an already shut down Pea *)

(** C10: on a Pea whose Shutdown is set, close returns after writing
    its two debug records and closing the logger: it waits for nothing,
    sends no command, neither terminates nor joins the worker, and
    leaves the event set as it was. *)
Theorem C10_close_after_shutdown_is_noop (p : Pea) :
  is_shutdown (events p) = true ->
  close O p
  = (Returns tt,
     with_journal (journal p ++ [Log DEBUG MsgWaitingSignal false;
                                 Log DEBUG MsgStop false;
                                 LoggerClose]) p).
Proof.
  intros Hs.
  unfold close, bind, get, logger, emit, ret.
  cbn. rewrite Hs. rewrite andb_false_r. cbn.
  unfold with_journal. cbn. now rewrite <- !app_assoc.
Qed.
End Supervisor.

(** A worker whose constructor fails is reported as RuntimeFailToStart,
    one whose loop returns at once as RuntimeRunForeverEarlyError, and
    one that is ready and running lets the wait return. *)
Lemma C2_three_outcomes_witness :
  let p := sample_pea PROCESS ZEDRuntime no_events in
  fst (BasePea.wait_start_success (finished_worker cls_failing_init) p)
    = Raises RuntimeFailToStart
  /\ fst (BasePea.wait_start_success (finished_worker (cls_of rt_returns_at_once)) p)
    = Raises RuntimeRunForeverEarlyError
  /\ fst (BasePea.wait_start_success obedient_worker p) = Returns tt.
Proof.
  intros p.
  split; [|split].
  - exact (proj1 (C2_wait_start_success_outcomes
                    (finished_worker cls_failing_init) p
                    (events_after_run cls_failing_init) eq_refl)
                 ltac:(vm_compute; reflexivity) ltac:(vm_compute; reflexivity)).
  - exact (proj1 (proj2 (C2_wait_start_success_outcomes
                    (finished_worker (cls_of rt_returns_at_once)) p
                    (events_after_run (cls_of rt_returns_at_once)) eq_refl))
                 ltac:(vm_compute; reflexivity) ltac:(vm_compute; reflexivity)).
  - exact (proj2 (proj2 (C2_wait_start_success_outcomes
                    obedient_worker p ready_events eq_refl))
                 eq_refl).
Defined.

(** A second close on a Pea that a first close has shut down. *)
Lemma C10_second_close_witness :
  let closed := snd (BasePea.close obedient_worker
                       (sample_pea PROCESS ZEDRuntime ready_events)) in
  is_shutdown (BasePea.events closed) = true
  /\ BasePea.close obedient_worker closed
     = (Returns tt,
        BasePea.with_journal
          (BasePea.journal closed ++ [Log DEBUG MsgWaitingSignal false;
                                      Log DEBUG MsgStop false;
                                      LoggerClose]) closed).
Proof.
  intros closed.
  assert (H : is_shutdown (BasePea.events closed) = true)
    by (vm_compute; reflexivity).
  split; [exact H|].
  exact (C10_close_after_shutdown_is_noop obedient_worker closed H).
Defined.

(** ** The retrying control-channel sender *)

Section Retry.
Import BasePea.
Variable O : Outside.
Variable command : Command.
Variable num_retry : Z.

Lemma sends_app j1 j2 : sends (j1 ++ j2) = sends j1 ++ sends j2.
Proof.
  induction j1 as [|a j1 IH]; [reflexivity|].
  destruct a; cbn; now rewrite ?IH.
Qed.

Lemma with_journal_twice j j' p :
  with_journal j' (with_journal j p) = with_journal j' p.
Proof. reflexivity. Qed.

(** One turn of the loop. *)
Lemma retry_loop_turn retry rest p :
  retry_loop O command num_retry (retry :: rest) p =
  let p1 := with_journal
              (journal p ++ [Log DEBUG (MsgSending command retry) false;
                             SendCtrl command (_timeout_ctrl p)]) p in
  match ctrl_reply O (length (sends (journal p))) command with
  | Returns _ => (Returns tt, p1)
  | Raises ex =>
      if is_Exception ex then
        let p2 := with_journal (journal p1 ++ [Log WARNING (MsgRepr ex) false]) p1 in
        if retry =? num_retry then (Raises ex, p2)
        else retry_loop O command num_retry rest p2
      else (Raises ex, p1)
  end.
Proof.
  cbn [retry_loop]. unfold bind, logger, emit, get, send_ctrl_message, raise.
  cbn. rewrite sends_app. cbn. rewrite app_nil_r, <- app_assoc. cbn.
  destruct (ctrl_reply O _ command) as [[]|ex]; [reflexivity|].
  destruct (is_Exception ex); [|reflexivity].
  now destruct (retry =? num_retry).
Qed.

Local Ltac split_frame :=
  split; [reflexivity|split; [repeat constructor|split; [reflexivity|cbn; lia]]].

(** The loop only appends log records and sends of [command], at most
    one send per retry, and touches nothing else of the Pea. *)
Lemma retry_loop_frame retries p :
  exists added k,
    snd (retry_loop O command num_retry retries p)
      = with_journal (journal p ++ added) p
    /\ Forall (fun a => log_or_send a = true) added
    /\ sends added = repeat command k
    /\ (k <= length retries)%nat.
Proof.
  revert p. induction retries as [|retry rest IH]; intros p.
  - exists [], 0%nat. cbn. rewrite app_nil_r. destruct p. split_frame.
  - rewrite retry_loop_turn. cbv zeta.
    set (sent := [Log DEBUG (MsgSending command retry) false;
                  SendCtrl command (_timeout_ctrl p)]).
    destruct (ctrl_reply O _ command) as [[]|ex].
    { exists sent, 1%nat. cbn. split_frame. }
    destruct (is_Exception ex).
    2:{ exists sent, 1%nat. cbn. split_frame. }
    rewrite with_journal_twice. cbn [journal with_journal].
    set (warned := sent ++ [Log WARNING (MsgRepr ex) false]).
    rewrite <- app_assoc. fold warned.
    destruct (retry =? num_retry).
    { exists warned, 1%nat. cbn. split_frame. }
    destruct (IH (with_journal (journal p ++ warned) p))
      as (added & k & Hsnd & Hall & Hsends & Hk).
    exists (warned ++ added), (S k). rewrite Hsnd.
    cbn [journal with_journal]. rewrite with_journal_twice, <- app_assoc.
    split; [reflexivity|]. split.
    + apply Forall_app. split; [|exact Hall]. repeat constructor.
    + rewrite sends_app, Hsends. cbn. split; [reflexivity|lia].
Qed.

Lemma sends_after_turn retry p tail :
  sends (journal p ++ Log DEBUG (MsgSending command retry) false
                      :: SendCtrl command (_timeout_ctrl p) :: tail)
  = sends (journal p) ++ command :: sends tail.
Proof. now rewrite sends_app. Qed.

(** The loop over the retries [s, s+1, ..., num_retry]: it returns at the
    first send that is acknowledged, and when every send fails it raises
    the error of the last one. *)
Lemma retry_loop_outcome (n : nat) : forall (s : Z) (p : Pea),
  s + Z.of_nat n - 1 = num_retry ->
  let base := length (sends (journal p)) in
  let out := retry_loop O command num_retry (seqZ s (Z.of_nat n)) p in
  (forall k : nat, (k < n)%nat ->
     (forall i : nat, (i < k)%nat -> fails_at O command (base + i)) ->
     ctrl_reply O (base + k) command = Returns tt ->
     fst out = Returns tt
     /\ sends (journal (snd out)) = sends (journal p) ++ repeat command (S k))
  /\ ((0 < n)%nat ->
      (forall i : nat, (i < n)%nat -> fails_at O command (base + i)) ->
      exists ex,
        ctrl_reply O (base + n - 1) command = Raises ex
        /\ fst out = Raises ex
        /\ sends (journal (snd out)) = sends (journal p) ++ repeat command n).
Proof.
  induction n as [|n IH]; intros s p Hlast base out; subst out.
  { split; intros; lia. }
  rewrite seqZ_cons by lia.
  replace (Z.pred (Z.of_nat (S n))) with (Z.of_nat n) by lia.
  rewrite retry_loop_turn. cbv zeta. fold base.
  split.
  - intros k Hk Hfail Hok. destruct k as [|k].
    + rewrite Nat.add_0_r in Hok. rewrite Hok. cbn [fst snd journal with_journal].
      split; [reflexivity|]. now rewrite sends_after_turn.
    + destruct (Hfail 0%nat ltac:(lia)) as (ex & Hex & Hcatch).
      rewrite Nat.add_0_r in Hex. rewrite Hex, Hcatch.
      destruct (Z.eqb_spec s num_retry) as [Heq|Hne]; [lia|].
      rewrite with_journal_twice. cbn [journal with_journal].
      rewrite <- app_assoc. cbn [app].
      set (p2 := with_journal _ p).
      assert (Hbase : length (sends (journal p2)) = S base).
      { subst p2. cbn [journal with_journal]. rewrite sends_after_turn.
        rewrite length_app. cbn. fold base. lia. }
      destruct (IH (Z.succ s) p2 ltac:(lia)) as [IHok _].
      rewrite Hbase in IHok.
      destruct (IHok k ltac:(lia)) as [Hres Hsends].
      * intros i Hi. replace (S base + i)%nat with (base + S i)%nat by lia.
        apply Hfail. lia.
      * now replace (S base + k)%nat with (base + S k)%nat by lia.
      * split; [exact Hres|]. rewrite Hsends. subst p2.
        cbn [journal with_journal]. rewrite sends_after_turn.
        rewrite <- app_assoc. reflexivity.
  - intros _ Hfail.
    destruct (Hfail 0%nat ltac:(lia)) as (ex & Hex & Hcatch).
    rewrite Nat.add_0_r in Hex. rewrite Hex, Hcatch.
    destruct (Z.eqb_spec s num_retry) as [Heq|Hne].
    + assert (n = 0%nat) by lia. subst n.
      exists ex. replace (base + 1 - 1)%nat with base by lia.
      split; [exact Hex|]. split; [reflexivity|].
      cbn [fst snd journal with_journal]. rewrite <- app_assoc. cbn [app].
      now rewrite sends_after_turn.
    + rewrite with_journal_twice. cbn [journal with_journal].
      rewrite <- app_assoc. cbn [app].
      set (p2 := with_journal _ p).
      assert (Hbase : length (sends (journal p2)) = S base).
      { subst p2. cbn [journal with_journal]. rewrite sends_after_turn.
        rewrite length_app. cbn. fold base. lia. }
      destruct (IH (Z.succ s) p2 ltac:(lia)) as [_ IHfail].
      rewrite Hbase in IHfail.
      destruct IHfail as (ex' & Hex' & Hres & Hsends).
      * lia.
      * intros i Hi. replace (S base + i)%nat with (base + S i)%nat by lia.
        apply Hfail. lia.
      * exists ex'.
        replace (base + S n - 1)%nat with (S base + n - 1)%nat by lia.
        split; [exact Hex'|]. split; [exact Hres|].
        rewrite Hsends. subst p2. cbn [journal with_journal].
        rewrite sends_after_turn. rewrite <- app_assoc. reflexivity.
Qed.
End Retry.

(** C7: for every command and every num_retry, the sender appends only
    log records and at most num_retry sends of the command to the journal
    (no sleep, no wait between attempts); it returns at the first
    acknowledged send, having sent exactly that many times; and when all
    num_retry sends fail it raises the error of the last send after
    exactly num_retry sends. *)
Theorem C7_retry_sends_at_most_n_and_raises_last
    (O : BasePea.Outside) (command : Command) (num_retry : Z) (p : BasePea.Pea) :
  let base := length (BasePea.sends (BasePea.journal p)) in
  let out := BasePea._retry_control_message O command num_retry p in
  (exists added k,
      snd out = BasePea.with_journal (BasePea.journal p ++ added) p
      /\ Forall (fun a => BasePea.log_or_send a = true) added
      /\ BasePea.sends added = repeat command k
      /\ (k <= Z.to_nat num_retry)%nat)
  /\ (forall k : nat, (k < Z.to_nat num_retry)%nat ->
        (forall i : nat, (i < k)%nat -> BasePea.fails_at O command (base + i)) ->
        BasePea.ctrl_reply O (base + k) command = Returns tt ->
        fst out = Returns tt
        /\ BasePea.sends (BasePea.journal (snd out))
           = BasePea.sends (BasePea.journal p) ++ repeat command (S k))
  /\ (0 < num_retry ->
      (forall i : nat, (i < Z.to_nat num_retry)%nat ->
         BasePea.fails_at O command (base + i)) ->
      exists ex,
        BasePea.ctrl_reply O (base + Z.to_nat num_retry - 1) command = Raises ex
        /\ fst out = Raises ex
        /\ BasePea.sends (BasePea.journal (snd out))
           = BasePea.sends (BasePea.journal p)
             ++ repeat command (Z.to_nat num_retry)).
Proof.
  intros base out. subst out. unfold BasePea._retry_control_message.
  split; [|split].
  - destruct (retry_loop_frame O command num_retry (seqZ 1 num_retry) p)
      as (added & k & H1 & H2 & H3 & H4).
    rewrite length_seqZ in H4. now exists added, k.
  - intros k Hk. assert (Hpos : 0 < num_retry) by lia.
    pose proof (retry_loop_outcome O command num_retry (Z.to_nat num_retry) 1 p
                  ltac:(lia)) as [Hok _].
    rewrite Z2Nat.id in Hok by lia. now apply Hok.
  - intros Hpos.
    pose proof (retry_loop_outcome O command num_retry (Z.to_nat num_retry) 1 p
                  ltac:(lia)) as [_ Hfail].
    rewrite Z2Nat.id in Hfail by lia. apply Hfail. lia.
Qed.

(** Three retries on a dead channel: three sends, then the third error.
    Three retries on a channel that answers the second send: two sends,
    no error. *)
Lemma C7_retry_boundary_witness :
  let p := sample_pea PROCESS ZEDRuntime ready_events in
  let dead := BasePea._retry_control_message dead_channel TERMINATE 3 p in
  let flaky := BasePea._retry_control_message flaky_channel TERMINATE 3 p in
  (fst dead = Raises (send_failure 2)
   /\ BasePea.sends (BasePea.journal (snd dead)) = [TERMINATE; TERMINATE; TERMINATE])
  /\ (fst flaky = Returns tt
      /\ BasePea.sends (BasePea.journal (snd flaky)) = [TERMINATE; TERMINATE]).
Proof.
  intros p dead flaky. split.
  - destruct (proj2 (proj2 (C7_retry_sends_at_most_n_and_raises_last
                              dead_channel TERMINATE 3 p)))
      as (ex & Hex & Hres & Hsends).
    + reflexivity.
    + intros i _. exists (send_failure (0 + i)). split; reflexivity.
    + injection Hex as <-. split; [exact Hres|exact Hsends].
  - apply (proj1 (proj2 (C7_retry_sends_at_most_n_and_raises_last
                           flaky_channel TERMINATE 3 p)) 1%nat).
    + cbn. lia.
    + intros i Hi. assert (i = 0%nat) as -> by lia.
      exists (send_failure 0). split; reflexivity.
    + reflexivity.
Defined.

(** ** The supervisor: configuration is never touched while closing *)

Section Frame.
Import BasePea.
Variable O : Outside.

Lemma keeps_ret {A} (a : A) : keeps_config (ret a).
Proof. intros p. reflexivity. Qed.

Lemma keeps_raise {A} ex : keeps_config (raise (A:=A) ex).
Proof. intros p. reflexivity. Qed.

Lemma keeps_get {A} (f : Pea -> A) : keeps_config (get f).
Proof. intros p. reflexivity. Qed.

Lemma keeps_emit a : keeps_config (emit a).
Proof. intros p. reflexivity. Qed.

Lemma keeps_logger lvl msg : keeps_config (logger lvl msg).
Proof. intros p. reflexivity. Qed.

Lemma keeps_bind {A B} (m : M A) (f : A -> M B) :
  keeps_config m -> (forall a, keeps_config (f a)) -> keeps_config (bind m f).
Proof.
  intros Hm Hf p. unfold bind. specialize (Hm p).
  destruct (m p) as [[a|ex] p1]; cbn [snd] in *; [|exact Hm].
  now rewrite Hf.
Qed.

Lemma keeps_try_except {A} (m : M A) (h : PyExc -> M A) :
  keeps_config m -> (forall ex, keeps_config (h ex)) -> keeps_config (try_except m h).
Proof.
  intros Hm Hh p. unfold try_except. specialize (Hm p).
  destruct (m p) as [[a|ex] p1]; cbn [snd] in *; [exact Hm|].
  destruct (is_Exception ex); [|exact Hm]. now rewrite Hh.
Qed.

Lemma keeps_is_shutdown_wait t : keeps_config (is_shutdown_wait O t).
Proof. intros p. reflexivity. Qed.

Lemma keeps_ready_or_shutdown_wait t : keeps_config (ready_or_shutdown_wait O t).
Proof.
  intros p. unfold ready_or_shutdown_wait.
  now destruct (combinator_wait O _ _).
Qed.

Lemma keeps_terminate : keeps_config terminate.
Proof.
  intros p. unfold terminate. destruct (backend_eqb _ _); [|reflexivity].
  now destruct (worker_started p).
Qed.

Lemma keeps__retry_control_message command n :
  keeps_config (_retry_control_message O command n).
Proof.
  intros p. unfold _retry_control_message.
  destruct (retry_loop_frame O command n (seqZ 1 n) p) as (added & k & -> & _).
  reflexivity.
Qed.

Create HintDb pea.
#[local] Hint Resolve keeps_ret keeps_raise keeps_get keeps_emit keeps_logger
  keeps_is_shutdown_wait keeps_ready_or_shutdown_wait keeps_terminate
  keeps__retry_control_message : pea.

Ltac keeps :=
  repeat first
    [ solve [auto with pea]
    | match goal with |- keeps_config (if ?b then _ else _) => destruct b end
    | apply keeps_bind; [|intros ?]
    | apply keeps_try_except; [|intros ?] ].

Lemma keeps__deactivate_runtime : keeps_config (_deactivate_runtime O).
Proof. unfold _deactivate_runtime. keeps. Qed.

Lemma keeps__cancel_runtime : keeps_config (_cancel_runtime O).
Proof. unfold _cancel_runtime. keeps. intros p. reflexivity. Qed.

Lemma keeps_await_shutdown : keeps_config (await_shutdown O).
Proof. unfold await_shutdown, time_sleep. keeps. Qed.

Lemma keeps_close_handshake : keeps_config (close_handshake O).
Proof.
  unfold close_handshake.
  apply keeps_bind; [apply keeps__deactivate_runtime|intros _].
  apply keeps_bind; [apply keeps__cancel_runtime|intros _].
  apply keeps_await_shutdown.
Qed.

Lemma args_of_config p p' : config p' = config p -> args p' = args p.
Proof. unfold config. congruence. Qed.
End Frame.

(** ** The supervisor: closing a ready Pea *)

Section CloseReady.
Import BasePea.
Variable O : Outside.

(** The ready branch when the handshake raises an Exception. *)
Lemma close_ready_caught (p p2 : Pea) (ex : PyExc) :
  is_ready (events p) = true ->
  is_shutdown (events p) = false ->
  close_handshake O
    (with_journal (journal p ++ [Log DEBUG MsgWaitingSignal false]) p)
    = (Raises ex, p2) ->
  is_Exception ex = true ->
  close O p
  = (Returns tt,
     with_journal
       (journal p2
        ++ Log ERROR (close_error_msg (args p) ex) (negb (quiet_error (args p)))
        :: (if daemon (args p) then [] else [WorkerJoin])
        ++ [Log DEBUG MsgStop false; LoggerClose]) p2).
Proof.
  intros Hready Hshut Hraise Hcatch.
  set (p1 := with_journal _ p) in Hraise.
  pose proof (args_of_config _ _ (keeps_close_handshake O p1)) as Hargs.
  rewrite Hraise in Hargs. cbn [snd] in Hargs.
  change (args p1) with (args p) in Hargs.
  unfold close.
  unfold bind at 1. unfold logger at 1, emit at 1. fold p1.
  unfold bind at 1. unfold get at 1.
  change (events p1) with (events p). rewrite Hready, Hshut. cbn [andb negb].
  unfold bind at 1. unfold bind at 1. unfold try_except.
  rewrite Hraise, Hcatch.
  unfold bind, get, emit, logger, join, ret. cbn. rewrite Hargs.
  destruct (daemon (args p)); cbn; unfold with_journal; cbn;
    now rewrite <- !app_assoc.
Qed.

(** C3, as the code has it: when close is called with Ready set and
    Shutdown not set, an Exception raised by the handshake (a control
    command that exhausted its retries, or the missed Shutdown signal) is
    caught inside close and written to the log as an error record; close
    then joins the worker unless in daemon mode, closes the logger and
    returns normally.  The error does not reach the caller. *)
Theorem C3_handshake_error_is_logged_not_raised (p : Pea) (ex : PyExc) :
  is_ready (events p) = true ->
  is_shutdown (events p) = false ->
  let p1 := with_journal (journal p ++ [Log DEBUG MsgWaitingSignal false]) p in
  fst (close_handshake O p1) = Raises ex ->
  is_Exception ex = true ->
  fst (close O p) = Returns tt
  /\ journal (snd (close O p))
     = journal (snd (close_handshake O p1))
       ++ Log ERROR (close_error_msg (args p) ex) (negb (quiet_error (args p)))
       :: (if daemon (args p) then [] else [WorkerJoin])
       ++ [Log DEBUG MsgStop false; LoggerClose].
Proof.
  intros Hready Hshut p1 Hraise Hcatch.
  destruct (close_handshake O p1) as [r p2] eqn:Hh. cbn [fst snd] in *. subst r.
  rewrite (close_ready_caught p p2 ex Hready Hshut Hh Hcatch).
  split; reflexivity.
Qed.
End CloseReady.

(** ** The supervisor: closing a Pea that is not ready yet *)

Section CloseUnready.
Import BasePea.
Variable O : Outside.

Lemma close_unready (p : Pea) (fired : bool) (ev : Events) :
  is_ready (events p) = false ->
  is_shutdown (events p) = false ->
  combinator_wait O (waiting_journal p) (events p) = (fired, ev) ->
  let pw := with_events ev (with_journal (waiting_journal p) p) in
  close O p
  = ((if wait_result (ready_timeout p) fired then
        if is_ready ev then _cancel_runtime O;; await_shutdown O else ret tt
      else
        logger WARNING MsgTerminatingAfterWait;; terminate;; time_sleep 100);;
     logger DEBUG MsgStop;;
     emit LoggerClose) pw.
Proof.
  intros Hready Hshut Hwait pw.
  unfold close.
  unfold bind at 1. unfold logger at 1, emit at 1.
  unfold bind at 1. unfold get at 1. cbn [events with_journal fst snd].
  rewrite Hready, Hshut. cbn [andb negb].
  unfold bind at 1. unfold bind at 1. unfold logger at 1, emit at 1.
  unfold bind at 1. unfold get at 1.
  unfold bind at 1. unfold logger at 1, emit at 1.
  unfold bind at 1. unfold ready_or_shutdown_wait.
  cbn [journal with_journal events ready_timeout args].
  rewrite !with_journal_twice, <- !app_assoc. cbn [app].
  change (ready_timeout (with_journal _ p)) with (ready_timeout p).
  fold (waiting_journal p).
  rewrite Hwait. fold pw.
  unfold bind at 3.
  destruct (wait_result (ready_timeout p) fired); [|reflexivity].
  unfold bind at 1. unfold get at 1.
  change (events pw) with ev. reflexivity.
Qed.
Lemma bind_assoc {A B C} (m : M A) (f : A -> M B) (g : B -> M C) p :
  bind (bind m f) g p = bind m (fun a => bind (f a) g) p.
Proof. unfold bind. now destruct (m p) as [[a|ex] p1]. Qed.

(** Which Runtime classes are stopped by a TERMINATE message. *)
Lemma cancel_runtime_by_message p :
  runtime_class_eqb (self_runtime_cls p) ZEDRuntime
  || runtime_class_eqb (self_runtime_cls p) ContainerRuntime = true ->
  _cancel_runtime O p = _retry_control_message O TERMINATE 3 p.
Proof.
  intros Hcls. unfold _cancel_runtime. unfold bind at 1. unfold get at 1.
  now rewrite Hcls.
Qed.

Lemma cancel_runtime_by_event p :
  runtime_class_eqb (self_runtime_cls p) ZEDRuntime
  || runtime_class_eqb (self_runtime_cls p) ContainerRuntime = false ->
  _cancel_runtime O p
  = (Returns tt,
     with_events (set_cancel (events p)) (with_journal (journal p ++ [CancelSet]) p)).
Proof.
  intros Hcls. unfold _cancel_runtime. unfold bind at 1. unfold get at 1.
  now rewrite Hcls.
Qed.

(** The stop request sends TERMINATE at most three times and nothing
    else. *)
Lemma cancel_runtime_sends p :
  exists k, (k <= 3)%nat
    /\ sends (journal (snd (_cancel_runtime O p)))
       = sends (journal p) ++ repeat TERMINATE k.
Proof.
  destruct (runtime_class_eqb (self_runtime_cls p) ZEDRuntime
            || runtime_class_eqb (self_runtime_cls p) ContainerRuntime) eqn:Hcls.
  - rewrite cancel_runtime_by_message by exact Hcls.
    unfold _retry_control_message.
    destruct (retry_loop_frame O TERMINATE 3 (seqZ 1 3) p)
      as (added & k & -> & _ & Hsends & Hk).
    exists k. split; [exact Hk|].
    cbn [journal with_journal]. now rewrite sends_app, Hsends.
  - rewrite cancel_runtime_by_event by exact Hcls.
    exists 0%nat. split; [lia|].
    cbn [snd journal with_journal with_events]. rewrite sends_app. reflexivity.
Qed.

(** The wait for Shutdown and what follows it in the last branch. *)
Lemma await_shutdown_then_finish p :
  let t := _timeout_ctrl p in
  let j := journal p ++ [WaitShutdown t] in
  let e := shutdown_wait O j (events p) in
  (await_shutdown O;; logger DEBUG MsgStop;; emit LoggerClose) p
  = if is_shutdown e
    then (Returns tt,
          with_events e
            (with_journal (j ++ [Log DEBUG MsgStop false; LoggerClose]) p))
    else if can_terminate p
    then (Raises (ShutdownNotReceived t),
          with_events e (with_journal (j ++ kill_record p ++ [Sleep 100]) p))
    else (Raises never_started_error, with_events e (with_journal j p)).
Proof.
  intros t j e. unfold await_shutdown.
  unfold bind, get, is_shutdown_wait, terminate, time_sleep, logger, emit, raise, ret,
    kill_record, can_terminate.
  cbn. fold t. fold j. fold e.
  destruct (is_shutdown e); cbn.
  - unfold with_journal, with_events. cbn. now rewrite <- ?app_assoc.
  - destruct (backend_eqb (runtime_backend (args p)) PROCESS); cbn;
      [destruct (worker_started p); cbn|];
      unfold with_journal, with_events; cbn; now rewrite <- ?app_assoc.
Qed.

Lemma sends_waiting_journal p : sends (waiting_journal p) = sends (journal p).
Proof. unfold waiting_journal. rewrite sends_app. cbn. apply app_nil_r. Qed.

Lemma sends_kill_record p : sends (kill_record p) = [].
Proof. unfold kill_record. now destruct (backend_eqb _ _). Qed.

Lemma kill_record_process p :
  runtime_backend (args p) = PROCESS -> kill_record p = [WorkerTerminate].
Proof. intros H. unfold kill_record. now rewrite H. Qed.
Section Branch.
Variables (p : Pea) (fired : bool) (ev : Events).
Hypothesis Hready : is_ready (events p) = false.
Hypothesis Hshut : is_shutdown (events p) = false.
Hypothesis Hwait : combinator_wait O (waiting_journal p) (events p) = (fired, ev).

Let pw : Pea := with_events ev (with_journal (waiting_journal p) p).

(** The combinator wait timed out. *)
Lemma close_unready_timeout :
  wait_result (ready_timeout p) fired = false ->
  close O p
  = if can_terminate p
    then (Returns tt,
          with_journal
            (waiting_journal p
             ++ Log WARNING MsgTerminatingAfterWait false
             :: kill_record p ++ [Sleep 100; Log DEBUG MsgStop false; LoggerClose])
            pw)
    else (Raises never_started_error,
          with_journal
            (waiting_journal p ++ [Log WARNING MsgTerminatingAfterWait false])
            pw).
Proof.
  intros Hf. rewrite (close_unready p fired ev Hready Hshut Hwait). rewrite Hf.
  fold pw. unfold bind, logger, emit, terminate, time_sleep, kill_record,
    can_terminate.
  cbn. destruct (backend_eqb (runtime_backend (args p)) PROCESS); cbn;
    [destruct (worker_started p); cbn|];
    unfold with_journal, with_events; cbn; now rewrite <- ?app_assoc.
Qed.

(** The combinator fired on Shutdown alone. *)
Lemma close_unready_shutdown_won :
  wait_result (ready_timeout p) fired = true -> is_ready ev = false ->
  close O p
  = (Returns tt,
     with_journal
       (waiting_journal p ++ [Log DEBUG MsgStop false; LoggerClose]) pw).
Proof.
  intros Hf Hr. rewrite (close_unready p fired ev Hready Hshut Hwait).
  rewrite Hf, Hr. fold pw. unfold bind, logger, emit, ret. cbn.
  unfold with_journal, with_events; cbn; now rewrite <- ?app_assoc.
Qed.

(** The combinator fired and Ready is set. *)
Lemma close_unready_ready_arrived :
  wait_result (ready_timeout p) fired = true -> is_ready ev = true ->
  close O p
  = match _cancel_runtime O pw with
    | (Returns _, p2) =>
        (await_shutdown O;; logger DEBUG MsgStop;; emit LoggerClose) p2
    | (Raises ex, p2) => (Raises ex, p2)
    end.
Proof.
  intros Hf Hr. rewrite (close_unready p fired ev Hready Hshut Hwait).
  rewrite Hf, Hr. fold pw. rewrite bind_assoc. unfold bind at 1.
  reflexivity.
Qed.
End Branch.
End CloseUnready.

Section CloseUnreadyClaim.
Import BasePea.
Variable O : Outside.

(** The stop request leaves the worker as it is. *)
Lemma cancel_runtime_worker p :
  worker_started (snd (_cancel_runtime O p)) = worker_started p.
Proof.
  destruct (runtime_class_eqb (self_runtime_cls p) ZEDRuntime
            || runtime_class_eqb (self_runtime_cls p) ContainerRuntime) eqn:Hcls.
  - rewrite cancel_runtime_by_message by exact Hcls.
    unfold _retry_control_message.
    destruct (retry_loop_frame O TERMINATE 3 (seqZ 1 3) p) as (added & k & -> & _).
    reflexivity.
  - now rewrite cancel_runtime_by_event by exact Hcls.
Qed.

Lemma can_terminate_after_cancel p :
  can_terminate (snd (_cancel_runtime O p)) = can_terminate p.
Proof.
  unfold can_terminate. rewrite cancel_runtime_worker.
  now rewrite (args_of_config _ _ (keeps__cancel_runtime O p)).
Qed.

(** C8, as the code has it: when close is called with neither Ready nor
    Shutdown set, every command it sends is TERMINATE, at most three
    times; no DEACTIVATE is sent, dealer role or not.  If the combinator
    fires with Ready set, the stop request is TERMINATE with retries for
    a ZEDRuntime or ContainerRuntime and the Cancel event for any other
    class; an error of the stop request is raised to the caller;
    otherwise close waits for Shutdown up to the control timeout and, if
    it is missed, calls terminate and raises to the caller.  If the
    combinator wait times out, close sends nothing, logs that it
    terminates and calls terminate as a last resort.  Where terminate can
    be called (a thread, for which it does nothing, or a process that
    was started, which it kills) the missed Shutdown is what is raised,
    and close returns after the timeout; on a process that was never
    started the call of terminate after the timeout raises.  [arrived]
    is what the combinator wait returns. *)
Theorem C8_close_before_ready_sends_terminate_only
    (p : Pea) (fired : bool) (ev : Events) :
  is_ready (events p) = false ->
  is_shutdown (events p) = false ->
  combinator_wait O (waiting_journal p) (events p) = (fired, ev) ->
  let pw := with_events ev (with_journal (waiting_journal p) p) in
  let out := close O p in
  let arrived := wait_result (ready_timeout p) fired in
  (exists k, (k <= 3)%nat
     /\ sends (journal (snd out)) = sends (journal p) ++ repeat TERMINATE k)
  /\ (arrived = true -> is_ready ev = true ->
      let stop := _cancel_runtime O pw in
      let t := _timeout_ctrl p in
      let e := shutdown_wait O (journal (snd stop) ++ [WaitShutdown t])
                             (events (snd stop)) in
      (runtime_class_eqb (self_runtime_cls p) ZEDRuntime
       || runtime_class_eqb (self_runtime_cls p) ContainerRuntime = true ->
       stop = _retry_control_message O TERMINATE 3 pw)
      /\ (runtime_class_eqb (self_runtime_cls p) ZEDRuntime
          || runtime_class_eqb (self_runtime_cls p) ContainerRuntime = false ->
          fst stop = Returns tt
          /\ cancel_event (events (snd stop)) = true
          /\ sends (journal (snd stop)) = sends (journal p))
      /\ (forall ex, fst stop = Raises ex -> fst out = Raises ex)
      /\ (fst stop = Returns tt -> is_shutdown e = true ->
          fst out = Returns tt /\ WaitShutdown t ∈ journal (snd out))
      /\ (fst stop = Returns tt -> is_shutdown e = false ->
          raised (fst out) = true
          /\ WaitShutdown t ∈ journal (snd out)
          /\ (can_terminate p = true ->
              fst out = Raises (ShutdownNotReceived t)
              /\ (runtime_backend (args p) = PROCESS ->
                  WorkerTerminate ∈ journal (snd out)))))
  /\ (arrived = false ->
      sends (journal (snd out)) = sends (journal p)
      /\ Log WARNING MsgTerminatingAfterWait false ∈ journal (snd out)
      /\ (can_terminate p = true ->
          fst out = Returns tt
          /\ (runtime_backend (args p) = PROCESS ->
              WorkerTerminate ∈ journal (snd out)))
      /\ (can_terminate p = false -> fst out = Raises never_started_error)).
Proof.
  intros Hready Hshut Hwait pw out arrived. subst out.
  pose proof (close_unready_timeout O p fired ev Hready Hshut Hwait) as Htimeout.
  pose proof (close_unready_shutdown_won O p fired ev Hready Hshut Hwait) as Hwon.
  pose proof (close_unready_ready_arrived O p fired ev Hready Hshut Hwait) as Harr.
  cbv zeta in Htimeout, Hwon, Harr.
  fold pw in Htimeout, Hwon, Harr. fold arrived in Htimeout, Hwon, Harr.
  pose proof (keeps__cancel_runtime O pw) as Hcfg.
  pose proof (can_terminate_after_cancel pw) as Hcan.
  change (can_terminate pw) with (can_terminate p) in Hcan.
  pose proof (cancel_runtime_sends O pw) as (k & Hk & Hsends).
  change (journal pw) with (waiting_journal p) in Hsends.
  rewrite sends_waiting_journal in Hsends.
  split; [|split].
  - destruct arrived.
    + destruct (is_ready ev).
      * rewrite Harr by reflexivity.
        destruct (_cancel_runtime O pw) as [[[]|ex] p2]; cbn [snd] in *.
        -- rewrite await_shutdown_then_finish.
           exists k. split; [exact Hk|].
           destruct (is_shutdown (shutdown_wait O _ _));
             [|destruct (can_terminate p2)];
             cbn [snd journal with_journal with_events];
             rewrite ?sends_app, ?sends_kill_record, Hsends; cbn;
             now rewrite ?app_nil_r.
        -- now exists k.
      * rewrite Hwon by reflexivity. exists 0%nat. split; [lia|].
        cbn [snd journal with_journal]. rewrite sends_app, sends_waiting_journal.
        reflexivity.
    + rewrite Htimeout by reflexivity. exists 0%nat. split; [lia|].
      destruct (can_terminate p); cbn [snd journal with_journal];
        rewrite sends_app, sends_waiting_journal; cbn; [|reflexivity].
      rewrite sends_app, sends_kill_record. reflexivity.
  - intros Ha Hr. rewrite Harr by assumption.
    cbv zeta. split; [|split; [|split; [|split]]].
    + intros Hcls. now apply cancel_runtime_by_message.
    + intros Hcls. rewrite cancel_runtime_by_event by exact Hcls.
      cbn [fst snd events with_events journal with_journal set_cancel cancel_event].
      change (journal pw) with (waiting_journal p).
      split; [reflexivity|]. split; [reflexivity|].
      rewrite sends_app, sends_waiting_journal. apply app_nil_r.
    + intros ex Hex. destruct (_cancel_runtime O pw) as [r p2].
      cbn [fst] in Hex. now subst r.
    + intros Hok Harrived. destruct (_cancel_runtime O pw) as [r p2].
      cbn [fst snd] in *. subst r. rewrite await_shutdown_then_finish.
      assert (Ht : _timeout_ctrl p2 = _timeout_ctrl p)
        by (unfold config in Hcfg; cbn in Hcfg; congruence).
      rewrite Ht, Harrived. cbn [fst snd journal with_journal with_events].
      split; [reflexivity|]. set_solver.
    + intros Hok Hmissed. destruct (_cancel_runtime O pw) as [r p2].
      cbn [fst snd] in *. subst r. rewrite await_shutdown_then_finish.
      assert (Ht : _timeout_ctrl p2 = _timeout_ctrl p)
        by (unfold config in Hcfg; cbn in Hcfg; congruence).
      assert (Hargs : args p2 = args p)
        by (unfold config in Hcfg; cbn in Hcfg; congruence).
      rewrite Ht, Hmissed, Hcan.
      destruct (can_terminate p); cbn [fst snd journal with_journal with_events raised].
      * split; [reflexivity|]. split; [set_solver|].
        intros _. split; [reflexivity|].
        intros Hproc. unfold kill_record. rewrite Hargs, Hproc. cbn.
        set_solver.
      * split; [reflexivity|]. split; [set_solver|]. discriminate.
  - intros Ha. rewrite Htimeout by assumption.
    destruct (can_terminate p); cbn [fst snd journal with_journal].
    + split.
      { rewrite sends_app, sends_waiting_journal. cbn.
        rewrite sends_app, sends_kill_record. cbn. now rewrite app_nil_r. }
      split; [set_solver|]. split; [|discriminate].
      intros _. split; [reflexivity|].
      intros Hproc. rewrite (kill_record_process p Hproc). set_solver.
    + split.
      { rewrite sends_app, sends_waiting_journal. cbn. now rewrite app_nil_r. }
      split; [set_solver|]. split; [discriminate|reflexivity].
Qed.
End CloseUnreadyClaim.

(** ** The supervisor: the logger at the end of close *)

Section LoggerAtExit.
Import BasePea.
Variable O : Outside.

(** close is some branch followed by the last debug record and the
    closing of the logger. *)
Lemma close_shape (p : Pea) :
  exists (branch : M unit) (p1 : Pea),
    close O p = (branch;; logger DEBUG MsgStop;; emit LoggerClose) p1.
Proof.
  eexists _, (with_journal (journal p ++ [Log DEBUG MsgWaitingSignal false]) p).
  unfold close.
  unfold bind at 1. unfold logger at 1, emit at 1.
  unfold bind at 1. unfold get at 1.
  reflexivity.
Qed.

(** Whenever close returns normally, closing the logger was the last
    thing it did. *)
Lemma close_returning_closed_logger (p : Pea) :
  fst (close O p) = Returns tt ->
  last (journal (snd (close O p))) = Some LoggerClose.
Proof.
  destruct (close_shape p) as (branch & p1 & ->).
  unfold bind, logger, emit.
  destruct (branch p1) as [[[]|ex] p2]; cbn; [|discriminate].
  intros _. now rewrite last_snoc.
Qed.
End LoggerAtExit.

(** C9: closing a Pea that is not ready yet, whose worker then becomes
    ready and acknowledges TERMINATE but never signals Shutdown, ends
    with the exception for the missed Shutdown reaching the caller while
    the journal of close holds no closing of the logger. *)
Theorem C9_close_raises_without_closing_logger :
  let p := sample_pea PROCESS ZEDRuntime no_events in
  let out := BasePea.close stuck_worker p in
  fst out = Raises (ShutdownNotReceived 500)
  /\ BasePea.journal (snd out)
     = [Log DEBUG MsgWaitingSignal false;
        Log WARNING MsgClosedBeforeReady false;
        Log DEBUG MsgWaitingSignal false;
        WaitReadyOrShutdown (Some 1000);
        Log DEBUG (MsgSending TERMINATE 1) false;
        SendCtrl TERMINATE 500;
        WaitShutdown 500;
        WorkerTerminate;
        Sleep 100]
  /\ LoggerClose ∉ BasePea.journal (snd out).
Proof.
  cbv zeta.
  assert (Hj : BasePea.journal
                 (snd (BasePea.close stuck_worker
                         (sample_pea PROCESS ZEDRuntime no_events)))
               = [Log DEBUG MsgWaitingSignal false;
                  Log WARNING MsgClosedBeforeReady false;
                  Log DEBUG MsgWaitingSignal false;
                  WaitReadyOrShutdown (Some 1000);
                  Log DEBUG (MsgSending TERMINATE 1) false;
                  SendCtrl TERMINATE 500;
                  WaitShutdown 500;
                  WorkerTerminate;
                  Sleep 100]) by (vm_compute; reflexivity).
  split; [vm_compute; reflexivity|]. split; [exact Hj|].
  rewrite Hj. intros Hin.
  repeat (apply elem_of_cons in Hin as [Hin|Hin]; [discriminate|]).
  now apply elem_of_nil in Hin.
Qed.

(** ** The claims about close on concrete Peas *)

(** A ready Pea is closed over a dead channel, and over a worker that
    never signals Shutdown: the handshake raises, close returns. *)
Lemma C3_errors_swallowed_counterexample :
  let p := sample_pea PROCESS ZEDRuntime ready_events in
  let p1 := BasePea.with_journal
              (BasePea.journal p ++ [Log DEBUG MsgWaitingSignal false]) p in
  is_ready (BasePea.events p) = true
  /\ is_shutdown (BasePea.events p) = false
  /\ fst (BasePea.close_handshake dead_channel p1) = Raises (send_failure 2)
  /\ fst (BasePea.close dead_channel p) = Returns tt
  /\ fst (BasePea.close_handshake stuck_worker p1) = Raises (ShutdownNotReceived 500)
  /\ fst (BasePea.close stuck_worker p) = Returns tt.
Proof. cbv zeta. repeat split; vm_compute; reflexivity. Qed.

(** The same two closes, read through the log: the error record is
    written, the worker joined and the logger closed. *)
Lemma C3_logged_errors_witness :
  let p := sample_pea PROCESS ZEDRuntime ready_events in
  let p1 := BasePea.with_journal
              (BasePea.journal p ++ [Log DEBUG MsgWaitingSignal false]) p in
  (is_ready (BasePea.events p) = true /\ is_shutdown (BasePea.events p) = false)
  /\ (fst (BasePea.close_handshake dead_channel p1) = Raises (send_failure 2)
      /\ is_Exception (send_failure 2) = true)
  /\ (fst (BasePea.close dead_channel p) = Returns tt
      /\ BasePea.journal (snd (BasePea.close dead_channel p))
         = BasePea.journal (snd (BasePea.close_handshake dead_channel p1))
           ++ [Log ERROR (MsgDuringClose (send_failure 2)) true;
               WorkerJoin; Log DEBUG MsgStop false; LoggerClose])
  /\ (fst (BasePea.close_handshake stuck_worker p1) = Raises (ShutdownNotReceived 500)
      /\ is_Exception (ShutdownNotReceived 500) = true)
  /\ (fst (BasePea.close stuck_worker p) = Returns tt
      /\ BasePea.journal (snd (BasePea.close stuck_worker p))
         = BasePea.journal (snd (BasePea.close_handshake stuck_worker p1))
           ++ [Log ERROR (MsgDuringClose (ShutdownNotReceived 500)) true;
               WorkerJoin; Log DEBUG MsgStop false; LoggerClose]).
Proof.
  intros p p1.
  assert (Hdead : fst (BasePea.close_handshake dead_channel p1)
                  = Raises (send_failure 2)) by (vm_compute; reflexivity).
  assert (Hstuck : fst (BasePea.close_handshake stuck_worker p1)
                   = Raises (ShutdownNotReceived 500)) by (vm_compute; reflexivity).
  split; [split; reflexivity|].
  split; [split; [exact Hdead|reflexivity]|].
  split; [exact (C3_handshake_error_is_logged_not_raised
                   dead_channel p (send_failure 2)
                   eq_refl eq_refl Hdead eq_refl)|].
  split; [split; [exact Hstuck|reflexivity]|].
  exact (C3_handshake_error_is_logged_not_raised
           stuck_worker p (ShutdownNotReceived 500)
           eq_refl eq_refl Hstuck eq_refl).
Defined.

(** A dealer Pea, not in daemon mode, is closed before it is ready and
    Ready then arrives: only TERMINATE is sent and the worker is not
    joined, whereas the ready branch on the same Pea sends DEACTIVATE
    first and joins.  A thread-backed Pea whose wait times out is not
    terminated: close logs that it terminates, sleeps and returns. *)
Lemma C8_no_deactivate_counterexample :
  let unready := sample_pea PROCESS ZEDRuntime no_events in
  let ready := sample_pea PROCESS ZEDRuntime ready_events in
  BasePea._is_dealer unready = true
  /\ daemon (BasePea.args unready) = false
  /\ BasePea.combinator_wait obedient_worker (BasePea.waiting_journal unready)
       (BasePea.events unready) = (true, ready_events)
  /\ BasePea.close obedient_worker unready
     = (Returns tt,
        BasePea.with_events closed_events
          (BasePea.with_journal
             [Log DEBUG MsgWaitingSignal false;
              Log WARNING MsgClosedBeforeReady false;
              Log DEBUG MsgWaitingSignal false;
              WaitReadyOrShutdown (Some 1000);
              Log DEBUG (MsgSending TERMINATE 1) false;
              SendCtrl TERMINATE 500;
              WaitShutdown 500;
              Log DEBUG MsgStop false;
              LoggerClose] unready))
  /\ BasePea.close obedient_worker ready
     = (Returns tt,
        BasePea.with_events closed_events
          (BasePea.with_journal
             [Log DEBUG MsgWaitingSignal false;
              Log DEBUG (MsgSending DEACTIVATE 1) false;
              SendCtrl DEACTIVATE 500;
              Log DEBUG (MsgSending TERMINATE 1) false;
              SendCtrl TERMINATE 500;
              WaitShutdown 500;
              WorkerJoin;
              Log DEBUG MsgStop false;
              LoggerClose] ready))
  /\ BasePea.journal
       (snd (BasePea.close silent_worker (sample_pea THREAD ZEDRuntime no_events)))
     = [Log DEBUG MsgWaitingSignal false;
        Log WARNING MsgClosedBeforeReady false;
        Log DEBUG MsgWaitingSignal false;
        WaitReadyOrShutdown (Some 1000);
        Log WARNING MsgTerminatingAfterWait false;
        Sleep 100;
        Log DEBUG MsgStop false;
        LoggerClose].
Proof. cbv zeta. repeat split; vm_compute; reflexivity. Qed.

(** Closing the unready dealer Pea: with an obedient worker, with a
    worker that misses the Shutdown, and with a worker that never becomes
    ready. *)
Lemma C8_close_before_ready_witness :
  let p := sample_pea PROCESS ZEDRuntime no_events in
  is_ready (BasePea.events p) = false
  /\ is_shutdown (BasePea.events p) = false
  /\ BasePea.can_terminate p = true
  /\ (exists k, (k <= 3)%nat
        /\ BasePea.sends (BasePea.journal (snd (BasePea.close obedient_worker p)))
           = BasePea.sends (BasePea.journal p) ++ repeat TERMINATE k)
  /\ fst (BasePea.close obedient_worker p) = Returns tt
  /\ fst (BasePea.close stuck_worker p) = Raises (ShutdownNotReceived 500)
  /\ WorkerTerminate ∈ BasePea.journal (snd (BasePea.close stuck_worker p))
  /\ fst (BasePea.close dead_channel p) = Returns tt
  /\ WorkerTerminate ∈ BasePea.journal (snd (BasePea.close dead_channel p)).
Proof.
  intros p.
  pose proof (C8_close_before_ready_sends_terminate_only obedient_worker p
                true ready_events eq_refl eq_refl eq_refl) as Hgood.
  pose proof (C8_close_before_ready_sends_terminate_only stuck_worker p
                true ready_events eq_refl eq_refl eq_refl) as Hstuck.
  pose proof (C8_close_before_ready_sends_terminate_only dead_channel p
                false no_events eq_refl eq_refl eq_refl) as Hdead.
  cbv zeta in Hgood, Hstuck, Hdead.
  destruct Hgood as (Hsends & Hgood & _).
  destruct (Hgood eq_refl eq_refl) as (_ & _ & _ & Harrived & _).
  destruct Hstuck as (_ & Hstuck & _).
  destruct (Hstuck eq_refl eq_refl) as (_ & _ & _ & _ & Hmissed).
  destruct (Hmissed ltac:(vm_compute; reflexivity) ltac:(vm_compute; reflexivity))
    as (_ & _ & Hcan).
  destruct (Hcan eq_refl) as (Hraise & Hkill).
  destruct Hdead as (_ & _ & Hdead).
  destruct (Hdead eq_refl) as (_ & _ & Hcan' & _).
  destruct (Hcan' eq_refl) as (Hret & Hkill').
  split; [reflexivity|]. split; [reflexivity|]. split; [reflexivity|].
  split; [exact Hsends|].
  split; [exact (proj1 (Harrived ltac:(vm_compute; reflexivity)
                                 ltac:(vm_compute; reflexivity)))|].
  split; [exact Hraise|].
  split; [exact (Hkill eq_refl)|].
  split; [exact Hret|].
  exact (Hkill' eq_refl).
Defined.

(** * Further properties *)

(** ** The selection cascade below the gateway rule *)

Section Cascade.
Variable X : HubExternals.

Lemma rule_remote_fires a :
  remote_applies X a = true ->
  rule_remote X a = set_timeout_ready (-1) (set_runtime_cls "JinadRuntime" a).
Proof. unfold rule_remote, remote_applies. now intros ->. Qed.

Lemma rule_remote_skips a : remote_applies X a = false -> rule_remote X a = a.
Proof. unfold rule_remote, remote_applies. now intros ->. Qed.

Lemma rule_gateway_absent a : protocol a = None -> rule_gateway a = a.
Proof. unfold rule_gateway. now intros ->. Qed.

Lemma get_runtime_cls_remote (a : Args) :
  protocol a = None ->
  remote_applies X a = true ->
  _get_runtime_cls X a
  = (set_timeout_ready (-1) (set_runtime_cls "JinadRuntime" a),
     Returns JinadRuntime).
Proof.
  intros Hp Hr. unfold _get_runtime_cls.
  rewrite (rule_remote_fires a Hr).
  unfold rule_container, rule_hub. cbn.
  now rewrite rule_gateway_absent.
Qed.

(** A remote host wins over the executor reference: without a gateway
    protocol, a class name that is not a gateway's, a host other than the
    default one and remote execution enabled give the JinadRuntime and a
    ready-timeout of -1; the executor reference is left as it is, a
    docker:// image or a hub URI included (the hub is not pulled). *)
Theorem remote_host_selects_jinad (a : Args) :
  protocol a = None ->
  remote_applies X a = true ->
  _get_runtime_cls X a
  = (set_timeout_ready (-1) (set_runtime_cls "JinadRuntime" a),
     Returns JinadRuntime).
Proof.
  intros Hp Hr. unfold _get_runtime_cls.
  unfold rule_remote. fold (remote_applies X a). rewrite Hr.
  unfold rule_container, rule_hub, rule_gateway. cbn.
  now rewrite Hp.
Qed.

(** A local ZEDRuntime whose executor reference is a docker:// image
    becomes a ContainerRuntime; nothing else of args changes and the hub
    is not consulted. *)
Theorem local_image_selects_container (a : Args) :
  protocol a = None ->
  remote_applies X a = false ->
  runtime_cls a = "ZEDRuntime" ->
  startswith (uses a) "docker://" = true ->
  _get_runtime_cls X a
  = (set_runtime_cls "ContainerRuntime" a, Returns ContainerRuntime).
Proof.
  intros Hp Hr Hc Hu. unfold _get_runtime_cls.
  rewrite (rule_remote_skips a Hr).
  unfold rule_container. rewrite Hc, Hu. cbn.
  unfold rule_hub. cbn.
  now rewrite rule_gateway_absent.
Qed.

(** A local ZEDRuntime whose executor reference is a hub URI is pulled:
    args.uses becomes what the pull returns, and the class is the
    ContainerRuntime exactly when that is a docker:// image. *)
Theorem local_hub_uri_is_pulled (a : Args) :
  protocol a = None ->
  remote_applies X a = false ->
  runtime_cls a = "ZEDRuntime" ->
  startswith (uses a) "docker://" = false ->
  is_valid_huburi X (uses a) = true ->
  let pulled := set_uses (hub_pull X (uses a)) a in
  _get_runtime_cls X a
  = if startswith (hub_pull X (uses a)) "docker://"
    then (set_runtime_cls "ContainerRuntime" pulled, Returns ContainerRuntime)
    else (pulled, Returns ZEDRuntime).
Proof.
  intros Hp Hr Hc Hu Hh pulled. unfold _get_runtime_cls.
  rewrite (rule_remote_skips a Hr).
  unfold rule_container. rewrite Hc, Hu. cbn.
  unfold rule_hub. rewrite Hc, Hh. cbn. fold pulled.
  unfold startswith.
  destruct (String.prefix "docker://" (hub_pull X (uses a)));
    (rewrite rule_gateway_absent by exact Hp); cbn; [reflexivity|].
  now rewrite Hc.
Qed.

(** A local ZEDRuntime with a plain executor reference stays a
    ZEDRuntime and args is returned as it was. *)
Theorem local_plain_executor_keeps_zed (a : Args) :
  protocol a = None ->
  remote_applies X a = false ->
  runtime_cls a = "ZEDRuntime" ->
  startswith (uses a) "docker://" = false ->
  is_valid_huburi X (uses a) = false ->
  _get_runtime_cls X a = (a, Returns ZEDRuntime).
Proof.
  intros Hp Hr Hc Hu Hh. unfold _get_runtime_cls.
  rewrite (rule_remote_skips a Hr).
  unfold rule_container. rewrite Hc, Hu. cbn.
  unfold rule_hub. rewrite Hc, Hh. cbn.
  rewrite rule_gateway_absent by exact Hp. now rewrite Hc.
Qed.

Lemma policy_untouched_rule_remote a :
  policy_untouched (rule_remote X a) = policy_untouched a.
Proof. unfold rule_remote. now destruct (_ && _). Qed.

Lemma policy_untouched_rule_container a :
  policy_untouched (rule_container a) = policy_untouched a.
Proof. unfold rule_container. now destruct (_ && _). Qed.

Lemma policy_untouched_rule_hub a :
  policy_untouched (rule_hub X a) = policy_untouched a.
Proof.
  unfold rule_hub. destruct (_ && _); [|reflexivity].
  now destruct (startswith _ _).
Qed.

Lemma policy_untouched_rule_gateway a :
  policy_untouched (rule_gateway a) = policy_untouched a.
Proof. unfold rule_gateway. now destruct (protocol a). Qed.

Lemma timeout_ready_rule_container a :
  timeout_ready (rule_container a) = timeout_ready a.
Proof. unfold rule_container. now destruct (_ && _). Qed.

Lemma timeout_ready_rule_hub a : timeout_ready (rule_hub X a) = timeout_ready a.
Proof.
  unfold rule_hub. destruct (_ && _); [|reflexivity].
  now destruct (startswith _ _).
Qed.

Lemma timeout_ready_rule_gateway a : timeout_ready (rule_gateway a) = timeout_ready a.
Proof. unfold rule_gateway. now destruct (protocol a). Qed.

(** The side effects of the policy: the ready-timeout becomes -1 exactly
    when the remote rule fires and is otherwise kept, also when a gateway
    protocol then overrides the class; and no field other than
    runtime_cls, timeout_ready and uses is ever assigned. *)
Theorem policy_side_effects (a : Args) :
  let a' := fst (_get_runtime_cls X a) in
  timeout_ready a' = (if remote_applies X a then -1 else timeout_ready a)
  /\ policy_untouched a' = policy_untouched a.
Proof.
  cbv zeta. unfold _get_runtime_cls. cbn [fst]. split.
  - rewrite timeout_ready_rule_gateway, timeout_ready_rule_hub,
      timeout_ready_rule_container.
    unfold rule_remote. fold (remote_applies X a).
    now destruct (remote_applies X a).
  - now rewrite policy_untouched_rule_gateway, policy_untouched_rule_hub,
      policy_untouched_rule_container, policy_untouched_rule_remote.
Qed.
End Cascade.

Lemma remote_host_selects_jinad_witness :
  protocol remote_pea_args = None
  /\ remote_applies local_hub remote_pea_args = true
  /\ startswith (uses remote_pea_args) "docker://" = true
  /\ snd (_get_runtime_cls local_hub remote_pea_args) = Returns JinadRuntime
  /\ timeout_ready (fst (_get_runtime_cls local_hub remote_pea_args)) = -1
  /\ uses (fst (_get_runtime_cls local_hub remote_pea_args))
     = "docker://jinahub/encoder".
Proof.
  pose proof (remote_host_selects_jinad local_hub remote_pea_args eq_refl eq_refl)
    as H.
  split; [reflexivity|]. split; [reflexivity|]. split; [reflexivity|].
  rewrite H. repeat split.
Defined.

Lemma local_image_selects_container_witness :
  snd (_get_runtime_cls local_hub (local_pea_args "docker://jinahub/encoder"))
  = Returns ContainerRuntime.
Proof.
  now rewrite (local_image_selects_container local_hub
                 (local_pea_args "docker://jinahub/encoder")
                 eq_refl eq_refl eq_refl eq_refl).
Defined.

(** One hub URI, two hubs: the pull of the first returns an image, the
    pull of the second a plain executor. *)
Lemma local_hub_uri_is_pulled_witness :
  _get_runtime_cls local_hub (local_pea_args "jinahub://Encoder")
  = (set_runtime_cls "ContainerRuntime"
       (set_uses "docker://pulled" (local_pea_args "jinahub://Encoder")),
     Returns ContainerRuntime)
  /\ _get_runtime_cls source_hub (local_pea_args "jinahub://Encoder")
     = (set_uses "PulledExecutor" (local_pea_args "jinahub://Encoder"),
        Returns ZEDRuntime).
Proof.
  split.
  - exact (local_hub_uri_is_pulled local_hub (local_pea_args "jinahub://Encoder")
             eq_refl eq_refl eq_refl eq_refl eq_refl).
  - exact (local_hub_uri_is_pulled source_hub (local_pea_args "jinahub://Encoder")
             eq_refl eq_refl eq_refl eq_refl eq_refl).
Defined.

Lemma local_plain_executor_keeps_zed_witness :
  _get_runtime_cls local_hub (local_pea_args "MyExecutor")
  = (local_pea_args "MyExecutor", Returns ZEDRuntime).
Proof.
  exact (local_plain_executor_keeps_zed local_hub (local_pea_args "MyExecutor")
           eq_refl eq_refl eq_refl eq_refl eq_refl).
Defined.

(** The gateway class is selected and the ready-timeout is still
    disabled by the remote rule. *)
Lemma policy_side_effects_witness :
  snd (_get_runtime_cls local_hub remote_gateway) = Returns HTTPRuntime
  /\ timeout_ready remote_gateway = 5000
  /\ timeout_ready (fst (_get_runtime_cls local_hub remote_gateway)) = -1.
Proof.
  split; [reflexivity|]. split; [reflexivity|].
  now rewrite (proj1 (policy_side_effects local_hub remote_gateway)).
Defined.

(** ** The entry point: what escapes and what is left behind *)

Section EntryPointEdges.
Import EntryPoint.


(** A failing constructor: an Exception is logged once (with an empty
    message and no traceback under quiet_error) and [run] returns; any
    other BaseException is re-raised by [run] and nothing is logged.
    Either way nothing else is written after the constructor call.  The
    outcome is that of the try statement as long as the finalizer makes
    no call that raises. *)
Theorem constructor_failure_contained_iff_exception
    (args : Args) (name : string) (cls : RuntimeCls)
    (envs : gmap string string) (tc : Z) (addr : string) (w w0 w1 : World)
    (ex : PyExc) :
  _set_envs args envs w = (Returns tt, w0) ->
  construct cls args addr tc w0 = (Raises ex, w1) ->
  let out := run args name cls envs tc addr w in
  (is_Exception ex = true ->
     (finalizer_safe args envs = true -> fst out = Returns tt)
     /\ journal (snd out)
        = journal w1
          ++ [Log ERROR (if quiet_error args then MsgEmpty else MsgDuringInit ex)
                        (negb (quiet_error args))])
  /\ (is_Exception ex = false ->
      (finalizer_safe args envs = true -> fst out = Raises ex)
      /\ journal (snd out) = journal w1).
Proof.
  intros Hset Hc out. subst out. unfold run. rewrite Hset, Hc.
  unfold except_Exception.
  split; intros ->.
  - set (w2 := record _ w1).
    pose proof (journal__unset_envs args envs w2) as Hj.
    pose proof (_unset_envs_safe args envs w2) as Hu.
    destruct (_unset_envs args envs w2) as [[[]|ex'] w3]; cbn [fst snd] in *.
    + split; [reflexivity|]. cbn. rewrite Hj. cbn.
      unfold init_error_msg. now destruct (quiet_error args).
    + split; [intros Hs; now specialize (Hu Hs)|]. rewrite Hj. cbn.
      unfold init_error_msg. now destruct (quiet_error args).
  - pose proof (journal__unset_envs args envs w1) as Hj.
    pose proof (_unset_envs_safe args envs w1) as Hu.
    destruct (_unset_envs args envs w1) as [[[]|ex'] w3]; cbn [fst snd] in *.
    + split; [reflexivity|]. cbn. exact Hj.
    + split; [intros Hs; now specialize (Hu Hs)|]. exact Hj.
Qed.

Lemma penv_in_runtime {A} (f : Ctx -> Outcome A * Ctx) w :
  keeps_env f -> penv (snd (in_runtime f w)) = penv w.
Proof.
  intros Hf. unfold in_runtime.
  specialize (Hf (mkCtx (is_ready (events w)) (cancel_event (events w)) (penv w))).
  now destruct (f _).
Qed.

Lemma penv_with_runtime rt w :
  keeps_env (rt_enter rt) -> keeps_env (rt_run_forever rt) ->
  (forall e, keeps_env (rt_exit rt e)) ->
  penv (snd (with_runtime rt (in_runtime (rt_run_forever rt)) w)) = penv w.
Proof.
  intros He Hr Hx. unfold with_runtime.
  pose proof (penv_in_runtime (rt_enter rt) w He) as H1.
  destruct (in_runtime (rt_enter rt) w) as [[[]|ex] w1]; cbn [snd] in *; [|exact H1].
  pose proof (penv_in_runtime (rt_run_forever rt) w1 Hr) as H2.
  destruct (in_runtime (rt_run_forever rt) w1) as [[[]|ex] w2]; cbn [snd] in *.
  - pose proof (penv_in_runtime (rt_exit rt None) w2 (Hx None)) as H3.
    destruct (in_runtime (rt_exit rt None) w2) as [[b|ex] w3];
      cbn [snd] in *; congruence.
  - pose proof (penv_in_runtime (rt_exit rt (Some ex)) w2 (Hx (Some ex))) as H3.
    destruct (in_runtime (rt_exit rt (Some ex)) w2) as [[[|]|ex'] w3];
      cbn [snd] in *; congruence.
Qed.

(** What [_unset_envs] leaves depends on the environment it finds
    only. *)
Lemma penv__unset_envs args envs w w' :
  penv w = penv w' ->
  penv (snd (_unset_envs args envs w)) = penv (snd (_unset_envs args envs w')).
Proof.
  intros H. unfold _unset_envs.
  destruct (_ && _); [|exact H].
  unfold in_penv. rewrite H. now destruct (for_each _ _ _).
Qed.

(** The environment [run] leaves behind is that of [_set_envs] followed
    by [_unset_envs] when the Runtime does not touch it. *)
Lemma run_penv args name cls envs tc addr w w0 :
  env_neutral cls ->
  _set_envs args envs w = (Returns tt, w0) ->
  penv (snd (run args name cls envs tc addr w))
  = penv (snd (_unset_envs args envs w0)).
Proof.
  intros Hn Hset. destruct (Hn args addr tc) as [Hinit Hrt].
  unfold run. rewrite Hset.
  assert (Hc : penv (snd (construct cls args addr tc w0)) = penv w0).
  { unfold construct. now rewrite penv_in_runtime. }
  assert (Hrt' : forall rt w1,
             construct cls args addr tc w0 = (Returns rt, w1) ->
             keeps_env (rt_enter rt) /\ keeps_env (rt_run_forever rt)
             /\ forall e, keeps_env (rt_exit rt e)).
  { intros rt w1. unfold construct, in_runtime.
    destruct (rt_init cls args addr tc _) as [o c'] eqn:Hi.
    intros [= -> _]. exact (Hrt _ _ _ Hi). }
  match goal with
  | |- context [let '(o, w2) := ?t in _] =>
      assert (Ht : penv (snd t) = penv w0); [|destruct t as [o w3]]
  end.
  - destruct (construct cls args addr tc w0) as [[rt|ex] w1]; cbn [snd] in Hc.
    + destruct (Hrt' rt w1 eq_refl) as (He & Hr & Hx).
      now rewrite (penv_with_runtime rt (with_events set_started w1) He Hr Hx).
    + unfold except_Exception. now destruct (is_Exception ex).
  - cbn [snd] in Ht.
    rewrite <- (penv__unset_envs args envs w3 w0 Ht).
    now destruct (_unset_envs args envs w3) as [[[]|ex] w4].
Qed.

(** A thread-cooperative run leaves the environment it shares with the
    supervisor exactly as it was, whatever overlay and user env it is
    given, as long as the Runtime itself does not touch it. *)
Theorem thread_run_leaves_environment
    (args : Args) (name : string) (cls : RuntimeCls)
    (envs : gmap string string) (tc : Z) (addr : string) (w : World) :
  runtime_backend args = THREAD ->
  env_neutral cls ->
  penv (snd (run args name cls envs tc addr w)) = penv w.
Proof.
  intros Hb Hn.
  assert (Hset : exists w0, _set_envs args envs w = (Returns tt, w0)
                            /\ penv w0 = penv w).
  { unfold _set_envs. rewrite Hb. cbn [backend_eqb].
    destruct (dict_truthy (env args)); eexists; split; reflexivity. }
  destruct Hset as (w0 & Hset & Hw0).
  rewrite (run_penv args name cls envs tc addr w w0 Hn Hset).
  now rewrite _unset_envs_thread.
Qed.

(** A process-isolated run over an overlay whose variables can all be
    assigned ends with every overlay name absent from the native
    environment, a value inherited under such a name included, and
    every other variable as inherited; os.environ ends as the overlay
    over the inherited mapping when the user passed env, and unchanged
    otherwise. *)
Theorem process_run_environment_afterwards
    (args : Args) (name : string) (cls : RuntimeCls)
    (envs : gmap string string) (tc : Z) (addr : string) (w : World) :
  runtime_backend args = PROCESS ->
  env_neutral cls ->
  settable_overlay envs = true ->
  let e' := penv (snd (run args name cls envs tc addr w)) in
  (forall k, native_env e' !! k
             = if decide (is_Some (envs !! k)) then None
               else native_env (penv w) !! k)
  /\ os_environ e'
     = if dict_truthy (env args) then envs ∪ os_environ (penv w)
       else os_environ (penv w).
Proof.
  intros Hb Hn Hs e'. subst e'.
  pose proof (settable_overlay_legal_names envs Hs) as Hl.
  assert (Hset : _set_envs args envs w
                 = (Returns tt,
                    if dict_truthy (env args)
                    then with_penv (environ_update envs) w else w)).
  { destruct (dict_truthy (env args)) eqn:Ht.
    - now apply _set_envs_process.
    - unfold _set_envs. now rewrite Ht. }
  rewrite (run_penv args name cls envs tc addr w _ Hn Hset).
  rewrite _unset_envs_process by assumption.
  cbn [snd penv with_penv]. split.
  - intros k. rewrite native_env_foldl_unsetenv.
    destruct (decide (is_Some (envs !! k))) as [Hk|Hk].
    + rewrite decide_True; [reflexivity|now apply elem_of_dict_keys].
    + rewrite decide_False by (now rewrite elem_of_dict_keys).
      destruct (dict_truthy (env args)); cbn; [|reflexivity].
      apply lookup_union_r. now apply eq_None_not_Some.
  - rewrite os_environ_foldl_unsetenv.
    now destruct (dict_truthy (env args)).
Qed.
End EntryPointEdges.

Lemma cls_of_env_neutral (rt : EntryPoint.Runtime) :
  keeps_env (EntryPoint.rt_enter rt) ->
  keeps_env (EntryPoint.rt_run_forever rt) ->
  (forall e, keeps_env (EntryPoint.rt_exit rt e)) ->
  env_neutral (cls_of rt).
Proof.
  intros He Hr Hx args addr tc. split.
  - intros c. reflexivity.
  - intros c rt' c'. cbn. intros [= <- _]. auto.
Qed.

Lemma rt_ready_then_stops_neutral : env_neutral (cls_of rt_ready_then_stops).
Proof. apply cls_of_env_neutral; intros; intros c; reflexivity. Qed.


(** An Exception and a KeyboardInterrupt raised by the constructor. *)
Lemma constructor_failure_contained_witness :
  let out cls := EntryPoint.run (pea_args PROCESS None) "pea" cls ∅ 500
                                "tcp://0.0.0.0:50001" fresh_world in
  (fst (out cls_failing_init) = Returns tt
   /\ EntryPoint.journal (snd (out cls_failing_init))
      = [Construct inherited_env; Log ERROR (MsgDuringInit boom) true])
  /\ (fst (out cls_interrupted_init) = Raises interrupt
      /\ EntryPoint.journal (snd (out cls_interrupted_init))
         = [Construct inherited_env]).
Proof.
  intros out. split.
  - destruct (proj1 (constructor_failure_contained_iff_exception
                       (pea_args PROCESS None) "pea" cls_failing_init ∅ 500
                       "tcp://0.0.0.0:50001" fresh_world _ _ boom eq_refl eq_refl)
                    eq_refl) as [Hout Hlog].
    split; [exact (Hout eq_refl)|exact Hlog].
  - destruct (proj2 (constructor_failure_contained_iff_exception
                       (pea_args PROCESS None) "pea" cls_interrupted_init ∅ 500
                       "tcp://0.0.0.0:50001" fresh_world _ _ interrupt eq_refl
                       eq_refl) eq_refl) as [Hout Hlog].
    split; [exact (Hout eq_refl)|exact Hlog].
Defined.

Lemma thread_run_leaves_environment_witness :
  EntryPoint.penv
    (snd (EntryPoint.run (pea_args THREAD (Some user_overrides)) "pea"
            (cls_of rt_ready_then_stops)
            (BasePea.init_envs (pea_args THREAD (Some user_overrides)) "pea")
            500 "tcp://0.0.0.0:50001" named_world))
  = named_env.
Proof.
  exact (thread_run_leaves_environment
           (pea_args THREAD (Some user_overrides)) "pea"
           (cls_of rt_ready_then_stops)
           (BasePea.init_envs (pea_args THREAD (Some user_overrides)) "pea")
           500 "tcp://0.0.0.0:50001" named_world
           eq_refl rt_ready_then_stops_neutral).
Defined.

(** A process that inherited a worker name and was given no user env:
    the overlay is never applied, yet the inherited name is gone from
    the native environment afterwards while os.environ still has it. *)
Lemma process_run_environment_witness :
  let e' := EntryPoint.penv
              (snd (EntryPoint.run (pea_args PROCESS None) "pea"
                      (cls_of rt_ready_then_stops)
                      (BasePea.init_envs (pea_args PROCESS None) "pea")
                      500 "tcp://0.0.0.0:50001" named_world)) in
  native_env named_env !! "JINA_POD_NAME" = Some "parent"
  /\ native_env e' !! "JINA_POD_NAME" = None
  /\ os_environ e' = os_environ named_env.
Proof.
  intros e'.
  destruct (process_run_environment_afterwards
              (pea_args PROCESS None) "pea" (cls_of rt_ready_then_stops)
              (BasePea.init_envs (pea_args PROCESS None) "pea")
              500 "tcp://0.0.0.0:50001" named_world
              eq_refl rt_ready_then_stops_neutral
              ltac:(vm_compute; reflexivity)) as [Hnative Hmapping].
  split; [reflexivity|]. split.
  - fold e' in Hnative. rewrite Hnative. reflexivity.
  - exact Hmapping.
Defined.

Section EntryPointSignals.
Import EntryPoint.

(** On a fresh pair of signals [run] ends with Started set exactly when
    its constructor call returned a Runtime, and with Shutdown set
    exactly when the finalizer makes no call that raises: under the
    thread backend, or when every overlay name is one os.unsetenv
    accepts.  Otherwise the exception of os.unsetenv is what [run]
    raises, whatever the try statement did. *)
Theorem signals_after_run
    (args : Args) (name : string) (cls : RuntimeCls)
    (envs : gmap string string) (tc : Z) (addr : string) (w : World) :
  own_signals w = (false, false) ->
  let out := run args name cls envs tc addr w in
  (is_started (events (snd out)) = true
   <-> construction_succeeds args cls envs tc addr w = true)
  /\ (is_shutdown (events (snd out)) = true
      <-> finalizer_safe args envs = true)
  /\ (finalizer_safe args envs = false ->
      exists ex, fst out = Raises ex /\ is_Exception ex = true).
Proof.
  intros Hw out. subst out. unfold own_signals in Hw. injection Hw as Hst Hsh.
  rewrite run_started, run_shutdown, Hst, Hsh. cbn [orb].
  split; [reflexivity|]. split; [reflexivity|].
  apply run_raises_from_finalizer.
Qed.
End EntryPointSignals.

(** The three exits of a run whose finalizer is safe (the loop returns,
    the constructor raises, the loop raises), and a run over an overlay
    with an empty variable name. *)
Lemma signals_after_run_witness :
  let after a cls :=
    EntryPoint.events
      (snd (EntryPoint.run a "pea" cls (BasePea.init_envs a "pea") 500
                           "tcp://0.0.0.0:50001" fresh_world)) in
  let plain := pea_args PROCESS None in
  let nameless := pea_args PROCESS (Some nameless_env) in
  EntryPoint.own_signals fresh_world = (false, false)
  /\ is_shutdown (after plain (cls_of rt_ready_then_stops)) = true
  /\ is_shutdown (after plain cls_failing_init) = true
  /\ is_shutdown (after plain (cls_of rt_failing_loop)) = true
  /\ is_started (after plain cls_failing_init) <> true
  /\ is_shutdown (after nameless (cls_of rt_ready_then_stops)) <> true.
Proof.
  intros after plain nameless.
  pose proof (fun a cls =>
    signals_after_run a "pea" cls (BasePea.init_envs a "pea") 500
      "tcp://0.0.0.0:50001" fresh_world eq_refl) as H.
  cbv zeta in H.
  split; [reflexivity|].
  split; [apply (proj1 (proj2 (H plain (cls_of rt_ready_then_stops))));
          vm_compute; reflexivity|].
  split; [apply (proj1 (proj2 (H plain cls_failing_init)));
          vm_compute; reflexivity|].
  split; [apply (proj1 (proj2 (H plain (cls_of rt_failing_loop))));
          vm_compute; reflexivity|].
  split.
  - intros Hs. apply (proj1 (H plain cls_failing_init)) in Hs.
    vm_compute in Hs. discriminate.
  - intros Hs. apply (proj1 (proj2 (H nameless (cls_of rt_ready_then_stops)))) in Hs.
    vm_compute in Hs. discriminate.
Defined.

(** ** The retrying sender: which send is the last *)

Section RetryOutcome.
Import BasePea.
Variable O : Outside.
Variable command : Command.
Variable num_retry : Z.

Lemma retry_loop_last_reply (n : nat) : forall (s : Z) (p : Pea),
  s + Z.of_nat n - 1 = num_retry ->
  (0 < n)%nat ->
  let base := length (sends (journal p)) in
  let out := retry_loop O command num_retry (seqZ s (Z.of_nat n)) p in
  exists k : nat,
    (k < n)%nat
    /\ sends (journal (snd out)) = sends (journal p) ++ repeat command (S k)
    /\ fst out = ctrl_reply O (base + k) command
    /\ (forall i : nat, (i < k)%nat -> fails_at O command (base + i))
    /\ ((S k < n)%nat -> ~ fails_at O command (base + k)).
Proof.
  induction n as [|n IH]; intros s p Hlast Hpos base out; subst out; [lia|].
  rewrite seqZ_cons by lia.
  replace (Z.pred (Z.of_nat (S n))) with (Z.of_nat n) by lia.
  rewrite retry_loop_turn. cbv zeta. fold base.
  destruct (ctrl_reply O base command) as [[]|ex] eqn:Hreply.
  { exists 0%nat. rewrite Nat.add_0_r, Hreply.
    cbn [fst snd journal with_journal]. rewrite sends_after_turn.
    repeat split; try lia. intros _ (ex & Hex & _). congruence. }
  destruct (is_Exception ex) eqn:Hcatch.
  2:{ exists 0%nat. rewrite Nat.add_0_r, Hreply.
      cbn [fst snd journal with_journal]. rewrite sends_after_turn.
      repeat split; try lia. intros _ (ex' & Hex' & Hc). congruence. }
  destruct (Z.eqb_spec s num_retry) as [Heq|Hne].
  { exists 0%nat. rewrite Nat.add_0_r, Hreply.
    cbn [fst snd journal with_journal]. rewrite <- app_assoc. cbn [app].
    rewrite sends_after_turn. repeat split; lia. }
  rewrite with_journal_twice. cbn [journal with_journal].
  rewrite <- app_assoc. cbn [app].
  set (p2 := with_journal _ p).
  assert (Hbase : length (sends (journal p2)) = S base).
  { subst p2. cbn [journal with_journal]. rewrite sends_after_turn.
    rewrite length_app. cbn. fold base. lia. }
  destruct (IH (Z.succ s) p2 ltac:(lia) ltac:(lia))
    as (k & Hk & Hsends & Hres & Hbefore & Hstop).
  rewrite Hbase in Hres, Hbefore, Hstop.
  exists (S k). split; [lia|]. split; [|split; [|split]].
  - rewrite Hsends. subst p2. cbn [journal with_journal].
    rewrite sends_after_turn, <- app_assoc. reflexivity.
  - rewrite Hres. f_equal. lia.
  - intros i Hi. destruct i as [|i].
    + rewrite Nat.add_0_r. now exists ex.
    + replace (base + S i)%nat with (S base + i)%nat by lia. apply Hbefore. lia.
  - intros Hlt. replace (base + S k)%nat with (S base + k)%nat by lia.
    apply Hstop. lia.
Qed.

(** With at least one retry allowed, the sender makes k+1 sends for some
    k below num_retry and its outcome is the channel's reply to the last
    of them: an acknowledgment, the error that exhausted the retries, or
    an exception that [except Exception] does not catch.  Every earlier
    send failed with a caught exception, and the sender stops before
    num_retry sends only on a reply that is not such a failure. *)
Theorem retry_outcome_is_last_reply (p : Pea) :
  0 < num_retry ->
  let base := length (sends (journal p)) in
  let out := _retry_control_message O command num_retry p in
  exists k : nat,
    (k < Z.to_nat num_retry)%nat
    /\ sends (journal (snd out)) = sends (journal p) ++ repeat command (S k)
    /\ fst out = ctrl_reply O (base + k) command
    /\ (forall i : nat, (i < k)%nat -> fails_at O command (base + i))
    /\ ((S k < Z.to_nat num_retry)%nat -> ~ fails_at O command (base + k)).
Proof.
  intros Hpos. cbv zeta. unfold _retry_control_message.
  pose proof (retry_loop_last_reply (Z.to_nat num_retry) 1 p
                ltac:(lia) ltac:(lia)) as H.
  now rewrite Z2Nat.id in H by lia.
Qed.

(** With num_retry = 0 or negative the range is empty: nothing is sent,
    nothing is logged, and the sender returns as if the command had gone
    through. *)
Theorem retry_without_attempts_succeeds (p : Pea) :
  num_retry <= 0 ->
  _retry_control_message O command num_retry p = (Returns tt, p).
Proof.
  intros Hn. unfold _retry_control_message. now rewrite seqZ_nil.
Qed.
End RetryOutcome.

(** An interrupt on the second of three sends ends the retries there. *)
Lemma retry_outcome_is_last_reply_witness :
  let p := sample_pea PROCESS ZEDRuntime ready_events in
  let out := BasePea._retry_control_message interrupted_channel TERMINATE 3 p in
  fst out = Raises interrupt
  /\ BasePea.sends (BasePea.journal (snd out)) = [TERMINATE; TERMINATE].
Proof.
  intros p out.
  destruct (retry_outcome_is_last_reply interrupted_channel TERMINATE 3 p eq_refl)
    as (k & Hk & Hsends & Hres & Hbefore & Hstop).
  fold out in Hsends, Hres.
  assert (k = 1%nat) as ->.
  { destruct k as [|[|k]].
    - exfalso. apply Hstop; [cbn; lia|].
      exists (send_failure 0). split; reflexivity.
    - reflexivity.
    - destruct (Hbefore 1%nat ltac:(lia)) as (ex & Hex & Hc).
      cbn in Hex. injection Hex as <-. discriminate. }
  split; [exact Hres|exact Hsends].
Defined.

Lemma retry_without_attempts_witness :
  let p := sample_pea PROCESS ZEDRuntime ready_events in
  BasePea._retry_control_message dead_channel TERMINATE 0 p = (Returns tt, p).
Proof.
  intros p.
  apply (retry_without_attempts_succeeds dead_channel TERMINATE 0 p). lia.
Defined.

(** ** What close does and never does *)

Section Appends.
Import BasePea.
Variable O : Outside.
Variable p0 : Pea.
Variable P : Action -> bool.

Lemma appends_ret {A} (a : A) : appends p0 P (ret a).
Proof. intros p Hc. exists []. cbn. now rewrite app_nil_r. Qed.

Lemma appends_raise {A} ex : appends p0 P (raise (A:=A) ex).
Proof. intros p Hc. exists []. cbn. now rewrite app_nil_r. Qed.

Lemma appends_emit a : P a = true -> appends p0 P (emit a).
Proof. intros Ha p Hc. exists [a]. cbn. repeat split; auto. Qed.

Lemma appends_bind {A B} (m : M A) (f : A -> M B) :
  appends p0 P m -> (forall a, appends p0 P (f a)) -> appends p0 P (bind m f).
Proof.
  intros Hm Hf p Hc. unfold bind.
  destruct (Hm p Hc) as (added & Hj & Hall & Hc1).
  destruct (m p) as [[a|ex] p1]; cbn [snd] in *.
  - destruct (Hf a p1 Hc1) as (added' & Hj' & Hall' & Hc2).
    exists (added ++ added'). rewrite Hj', Hj, app_assoc.
    split; [reflexivity|]. split; [now apply Forall_app|exact Hc2].
  - now exists added.
Qed.

(** After a read the continuation may rely on the value read. *)
Lemma appends_get_bind {A B} (f : Pea -> A) (k : A -> M B) :
  (forall p, config p = config p0 -> appends p0 P (k (f p))) ->
  appends p0 P (bind (get f) k).
Proof. intros Hk p Hc. unfold bind, get. now apply Hk. Qed.

Lemma appends_try_except {A} (m : M A) (h : PyExc -> M A) :
  appends p0 P m -> (forall ex, appends p0 P (h ex)) ->
  appends p0 P (try_except m h).
Proof.
  intros Hm Hh p Hc. unfold try_except.
  destruct (Hm p Hc) as (added & Hj & Hall & Hc1).
  destruct (m p) as [[a|ex] p1]; cbn [snd] in *; [now exists added|].
  destruct (is_Exception ex); [|now exists added].
  destruct (Hh ex p1 Hc1) as (added' & Hj' & Hall' & Hc2).
  exists (added ++ added'). rewrite Hj', Hj, app_assoc.
  split; [reflexivity|]. split; [now apply Forall_app|exact Hc2].
Qed.

Lemma appends_is_shutdown_wait t :
  P (WaitShutdown t) = true -> appends p0 P (is_shutdown_wait O t).
Proof. intros Ht p Hc. exists [WaitShutdown t]. cbn. repeat split; auto. Qed.

Lemma appends_ready_or_shutdown_wait o :
  P (WaitReadyOrShutdown o) = true -> appends p0 P (ready_or_shutdown_wait O o).
Proof.
  intros Ho p Hc. exists [WaitReadyOrShutdown o]. unfold ready_or_shutdown_wait.
  destruct (combinator_wait O _ _). cbn. repeat split; auto.
Qed.

Lemma appends_terminate :
  (runtime_backend (args p0) = PROCESS -> P WorkerTerminate = true) ->
  appends p0 P terminate.
Proof.
  intros Hk p Hc. unfold terminate.
  assert (Ha : args p = args p0) by (unfold config in Hc; congruence).
  rewrite Ha. destruct (runtime_backend (args p0)); cbn.
  - exists []. rewrite app_nil_r. repeat split; auto.
  - destruct (worker_started p); cbn.
    + exists [WorkerTerminate]. repeat split; auto.
    + exists []. rewrite app_nil_r. repeat split; auto.
Qed.

Lemma appends_retry_loop command n retries :
  (forall l m b, P (Log l m b) = true) ->
  P (SendCtrl command (_timeout_ctrl p0)) = true ->
  appends p0 P (retry_loop O command n retries).
Proof.
  intros Hlog Hsend.
  induction retries as [|retry rest IH]; [apply appends_ret|].
  intros p Hc. rewrite retry_loop_turn. cbv zeta.
  assert (Ht : _timeout_ctrl p = _timeout_ctrl p0)
    by (unfold config in Hc; congruence).
  rewrite Ht.
  set (sent := [Log DEBUG (MsgSending command retry) false;
                SendCtrl command (_timeout_ctrl p0)]).
  assert (Hsent : Forall (fun a => P a = true) sent)
    by (repeat constructor; auto).
  destruct (ctrl_reply O _ command) as [[]|ex]; [now exists sent|].
  destruct (is_Exception ex); [|now exists sent].
  rewrite with_journal_twice. cbn [journal with_journal].
  rewrite <- app_assoc.
  set (warned := sent ++ [Log WARNING (MsgRepr ex) false]).
  assert (Hwarned : Forall (fun a => P a = true) warned)
    by (apply Forall_app; split; [exact Hsent|repeat constructor; auto]).
  destruct (retry =? n); [now exists warned|].
  destruct (IH (with_journal (journal p ++ warned) p) Hc)
    as (added & Hj & Hall & Hc').
  exists (warned ++ added). rewrite Hj. cbn [journal with_journal].
  rewrite app_assoc. split; [reflexivity|].
  split; [now apply Forall_app|exact Hc'].
Qed.
End Appends.

Section ClosePermitted.
Import BasePea.
Variable O : Outside.
Variable p0 : Pea.

Let P := permitted_in_close p0.

Lemma permitted_log l m b : P (Log l m b) = true.
Proof. reflexivity. Qed.

Lemma config_args p : config p = config p0 -> args p = args p0.
Proof. unfold config. congruence. Qed.

Lemma config_timeout_ctrl p : config p = config p0 -> _timeout_ctrl p = _timeout_ctrl p0.
Proof. unfold config. congruence. Qed.

Lemma config_runtime_cls p :
  config p = config p0 -> self_runtime_cls p = self_runtime_cls p0.
Proof. unfold config. congruence. Qed.

Lemma appends__deactivate_runtime : appends p0 P (_deactivate_runtime O).
Proof.
  unfold _deactivate_runtime. apply appends_get_bind. intros p Hc.
  unfold _is_dealer at 1. rewrite (config_args p Hc). fold (_is_dealer p0).
  destruct (_is_dealer p0) eqn:Hd; [|apply appends_ret].
  apply appends_retry_loop; [apply permitted_log|].
  subst P. cbn. now rewrite Hd, Z.eqb_refl.
Qed.

Lemma appends__cancel_runtime : appends p0 P (_cancel_runtime O).
Proof.
  unfold _cancel_runtime. apply appends_get_bind. intros p Hc.
  rewrite (config_runtime_cls p Hc). fold (message_class p0).
  destruct (message_class p0) eqn:Hm.
  - apply appends_retry_loop; [apply permitted_log|].
    subst P. cbn. now rewrite Hm, Z.eqb_refl.
  - apply appends_bind.
    + apply appends_emit. subst P. cbn. now rewrite Hm.
    + intros _ q Hq. exists []. cbn. now rewrite app_nil_r.
Qed.

Lemma appends_await_shutdown : appends p0 P (await_shutdown O).
Proof.
  unfold await_shutdown. apply appends_get_bind. intros p Hc.
  rewrite (config_timeout_ctrl p Hc).
  apply appends_bind.
  - apply appends_is_shutdown_wait. subst P. cbn. apply Z.eqb_refl.
  - intros arrived. destruct arrived; cbn [negb]; [apply appends_ret|].
    apply appends_bind.
    + apply appends_terminate. intros Hb. subst P. cbn. now rewrite Hb.
    + intros _. apply appends_bind; [|intros _; apply appends_raise].
      now apply appends_emit.
Qed.

Lemma appends_close_handshake : appends p0 P (close_handshake O).
Proof.
  unfold close_handshake.
  apply appends_bind; [apply appends__deactivate_runtime|intros _].
  apply appends_bind; [apply appends__cancel_runtime|intros _].
  apply appends_await_shutdown.
Qed.

(** Every action of close is one the configuration permits. *)
Lemma appends_close : appends p0 P (close O).
Proof.
  unfold close.
  apply appends_bind; [now apply appends_emit|intros _].
  apply appends_get_bind. intros p Hc.
  apply appends_bind.
  2:{ intros _. apply appends_bind; [now apply appends_emit|intros _].
      now apply appends_emit. }
  destruct (is_ready (events p) && negb (is_shutdown (events p))).
  - apply appends_bind.
    + apply appends_try_except; [apply appends_close_handshake|].
      intros ex. apply appends_get_bind. intros q Hq. now apply appends_emit.
    + intros _. apply appends_get_bind. intros q Hq.
      rewrite (config_args q Hq).
      destruct (daemon (args p0)) eqn:Hd; cbn [negb]; [apply appends_ret|].
      apply appends_emit. subst P. cbn. now rewrite Hd.
  - destruct (is_shutdown (events p)); [apply appends_ret|].
    apply appends_bind; [now apply appends_emit|intros _].
    apply appends_get_bind. intros q Hq.
    apply appends_bind; [now apply appends_emit|intros _].
    apply appends_bind.
    + apply appends_ready_or_shutdown_wait. subst P. cbn.
      apply bool_decide_eq_true_2.
      unfold ready_timeout. now rewrite (config_args q Hq).
    + intros fired. destruct fired.
      * apply appends_get_bind. intros r Hr.
        destruct (is_ready (events r)); [|apply appends_ret].
        apply appends_bind; [apply appends__cancel_runtime|intros _].
        apply appends_await_shutdown.
      * apply appends_bind; [now apply appends_emit|intros _].
        apply appends_bind.
        -- apply appends_terminate. intros Hb. subst P. cbn. now rewrite Hb.
        -- intros _. now apply appends_emit.
Qed.
End ClosePermitted.

Section CloseNever.
Import BasePea.
Variable O : Outside.

(** close never kills a thread-cooperative worker, never joins the
    worker of a daemon Pea, never starts a worker, and leaves the
    configuration of the Pea as it was. *)
Theorem close_respects_worker_kind (p : Pea) :
  exists added,
    journal (snd (close O p)) = journal p ++ added
    /\ (runtime_backend (args p) = THREAD -> WorkerTerminate ∉ added)
    /\ (daemon (args p) = true -> WorkerJoin ∉ added)
    /\ (WorkerStart ∉ added)
    /\ config (snd (close O p)) = config p.
Proof.
  destruct (appends_close O p p eq_refl) as (added & Hj & Hall & Hc).
  exists added. rewrite Forall_forall in Hall.
  split; [exact Hj|]. split; [|split; [|split; [|exact Hc]]].
  - intros Hb Hin. apply Hall in Hin. cbn in Hin. rewrite Hb in Hin. discriminate.
  - intros Hd Hin. apply Hall in Hin. cbn in Hin. rewrite Hd in Hin. discriminate.
  - intros Hin. apply Hall in Hin. discriminate.
Qed.

(** Every command close sends goes out under the control timeout and is
    never ACTIVATE; DEACTIVATE is sent only by a dealer, TERMINATE only
    to a class that listens for messages, and the Cancel event is set
    only for a class that does not: the two stop mechanisms are never
    mixed.  The wait for Shutdown uses the control timeout and the wait
    on the combinator the ready-timeout. *)
Theorem close_commands_follow_configuration (p : Pea) :
  exists added,
    journal (snd (close O p)) = journal p ++ added
    /\ (forall c t, SendCtrl c t ∈ added ->
          c <> ACTIVATE
          /\ t = _timeout_ctrl p
          /\ (c = DEACTIVATE -> _is_dealer p = true)
          /\ (c = TERMINATE -> message_class p = true))
    /\ (CancelSet ∈ added -> message_class p = false)
    /\ (forall t, WaitShutdown t ∈ added -> t = _timeout_ctrl p)
    /\ (forall o, WaitReadyOrShutdown o ∈ added -> o = ready_timeout p).
Proof.
  destruct (appends_close O p p eq_refl) as (added & Hj & Hall & Hc).
  exists added. rewrite Forall_forall in Hall.
  split; [exact Hj|]. split; [|split; [|split]].
  - intros c t Hin. apply Hall in Hin. destruct c; cbn in Hin; [discriminate| |].
    + apply andb_true_iff in Hin as [Hd Ht]. apply Z.eqb_eq in Ht.
      repeat split; auto; discriminate.
    + apply andb_true_iff in Hin as [Hm Ht]. apply Z.eqb_eq in Ht.
      repeat split; auto; discriminate.
  - intros Hin. apply Hall in Hin. cbn in Hin. now apply negb_true_iff in Hin.
  - intros t Hin. apply Hall in Hin. cbn in Hin. now apply Z.eqb_eq in Hin.
  - intros o Hin. apply Hall in Hin. cbn in Hin.
    now apply bool_decide_eq_true in Hin.
Qed.
End CloseNever.

(** ** The ready branch of close, step by step *)

Section ReadyBranch.
Import BasePea.
Variable O : Outside.

(** The ready branch as a function of how the handshake ends. *)
Lemma close_ready_eq (p : Pea) :
  is_ready (events p) = true ->
  is_shutdown (events p) = false ->
  close O p
  = match close_handshake O
            (with_journal (journal p ++ [Log DEBUG MsgWaitingSignal false]) p) with
    | (Returns _, p2) => finish_ready p2
    | (Raises ex, p2) =>
        if is_Exception ex
        then finish_ready
               (with_journal
                  (journal p2 ++ [Log ERROR (close_error_msg (args p2) ex)
                                            (negb (quiet_error (args p2)))]) p2)
        else (Raises ex, p2)
    end.
Proof.
  intros Hready Hshut. unfold close.
  unfold bind at 1. unfold logger at 1, emit at 1.
  set (p1 := with_journal _ p).
  unfold bind at 1. unfold get at 1.
  change (events p1) with (events p). rewrite Hready, Hshut. cbn [andb negb].
  unfold bind at 1. unfold bind at 1. unfold try_except.
  destruct (close_handshake O p1) as [[[]|ex] p2].
  - unfold bind, get, emit, logger, join, ret, finish_ready. cbn.
    destruct (daemon (args p2)); cbn; unfold with_journal; cbn;
      now rewrite <- ?app_assoc.
  - destruct (is_Exception ex); [|reflexivity].
    unfold bind, get, emit, logger, join, ret, finish_ready. cbn.
    destruct (daemon (args p2)); cbn; unfold with_journal; cbn;
      now rewrite <- ?app_assoc.
Qed.

Lemma sends_finish_ready q :
  sends (journal (snd (finish_ready q))) = sends (journal q).
Proof.
  unfold finish_ready. cbn [snd journal with_journal].
  rewrite sends_app. destruct (daemon (args q)); cbn; apply app_nil_r.
Qed.

Lemma deactivate_sends p :
  exists k, (k <= 3)%nat
    /\ sends (journal (snd (_deactivate_runtime O p)))
       = sends (journal p) ++ repeat DEACTIVATE k
    /\ (_is_dealer p = false -> k = 0%nat).
Proof.
  unfold _deactivate_runtime. unfold bind, get.
  destruct (_is_dealer p).
  - unfold _retry_control_message.
    destruct (retry_loop_frame O DEACTIVATE 3 (seqZ 1 3) p)
      as (added & k & -> & _ & Hsends & Hk).
    exists k. split; [exact Hk|]. cbn [journal with_journal].
    rewrite sends_app, Hsends. split; [reflexivity|discriminate].
  - exists 0%nat. cbn. rewrite app_nil_r. repeat split; lia.
Qed.

Lemma cancel_sends p :
  exists m, (m <= 3)%nat
    /\ sends (journal (snd (_cancel_runtime O p)))
       = sends (journal p) ++ repeat TERMINATE m
    /\ (message_class p = false -> m = 0%nat).
Proof.
  destruct (message_class p) eqn:Hm; unfold message_class in Hm.
  - rewrite cancel_runtime_by_message by exact Hm.
    unfold _retry_control_message.
    destruct (retry_loop_frame O TERMINATE 3 (seqZ 1 3) p)
      as (added & k & -> & _ & Hsends & Hk).
    exists k. split; [exact Hk|]. cbn [journal with_journal].
    rewrite sends_app, Hsends. split; [reflexivity|discriminate].
  - rewrite cancel_runtime_by_event by exact Hm.
    exists 0%nat. split; [lia|].
    cbn [snd journal with_journal with_events]. rewrite sends_app.
    split; reflexivity.
Qed.

Lemma await_shutdown_sends p :
  sends (journal (snd (await_shutdown O p))) = sends (journal p).
Proof.
  unfold await_shutdown.
  unfold bind, get, is_shutdown_wait, terminate, time_sleep, emit, raise, ret.
  cbn. destruct (is_shutdown (shutdown_wait O _ _)); cbn.
  - rewrite sends_app. cbn. apply app_nil_r.
  - destruct (backend_eqb (runtime_backend (args p)) PROCESS); cbn;
      [destruct (worker_started p); cbn|];
      rewrite !sends_app; cbn; now rewrite ?app_nil_r.
Qed.

Lemma message_class_config p q :
  config q = config p -> message_class q = message_class p.
Proof. unfold config, message_class. intros H. now replace (self_runtime_cls q) with (self_runtime_cls p) by congruence. Qed.

(** The handshake sends DEACTIVATE first and TERMINATE after. *)
Lemma handshake_sends p :
  exists k m, (k <= 3)%nat /\ (m <= 3)%nat
    /\ sends (journal (snd (close_handshake O p)))
       = sends (journal p) ++ repeat DEACTIVATE k ++ repeat TERMINATE m
    /\ (_is_dealer p = false -> k = 0%nat)
    /\ (message_class p = false -> m = 0%nat).
Proof.
  destruct (deactivate_sends p) as (k & Hk & Hsk & Hk0).
  pose proof (keeps__deactivate_runtime O p) as Hc1.
  unfold close_handshake. unfold bind at 1.
  destruct (_deactivate_runtime O p) as [[[]|ex] p1]; cbn [snd] in *.
  2:{ exists k, 0%nat. cbn. rewrite app_nil_r. repeat split; auto; lia. }
  destruct (cancel_sends p1) as (m & Hm & Hsm & Hm0).
  rewrite (message_class_config p p1 Hc1) in Hm0.
  unfold bind at 1.
  destruct (_cancel_runtime O p1) as [[[]|ex] p2]; cbn [snd] in *.
  - exists k, m. rewrite await_shutdown_sends, Hsm, Hsk, <- app_assoc.
    repeat split; auto.
  - exists k, m. rewrite Hsm, Hsk, <- app_assoc. repeat split; auto.
Qed.
End ReadyBranch.

Section CloseSends.
Import BasePea.
Variable O : Outside.

Lemma close_shutdown_eq (p : Pea) :
  is_shutdown (events p) = true ->
  close O p
  = (Returns tt,
     with_journal (journal p ++ [Log DEBUG MsgWaitingSignal false;
                                 Log DEBUG MsgStop false;
                                 LoggerClose]) p).
Proof.
  intros Hs. unfold close, bind, get, logger, emit, ret.
  cbn. rewrite Hs, andb_false_r. cbn.
  unfold with_journal. cbn. now rewrite <- !app_assoc.
Qed.

Lemma close_unready_sends (p : Pea) :
  is_ready (events p) = false ->
  is_shutdown (events p) = false ->
  exists m, (m <= 3)%nat
    /\ sends (journal (snd (close O p))) = sends (journal p) ++ repeat TERMINATE m
    /\ (message_class p = false -> m = 0%nat).
Proof.
  intros Hready Hshut.
  destruct (combinator_wait O (waiting_journal p) (events p)) as [fired ev] eqn:Hwait.
  pose proof (close_unready_timeout O p fired ev Hready Hshut Hwait) as Htimeout.
  pose proof (close_unready_shutdown_won O p fired ev Hready Hshut Hwait) as Hwon.
  pose proof (close_unready_ready_arrived O p fired ev Hready Hshut Hwait) as Harr.
  cbv zeta in Htimeout, Hwon, Harr.
  set (pw := with_events ev (with_journal (waiting_journal p) p)) in *.
  destruct (wait_result (ready_timeout p) fired).
  - destruct (is_ready ev).
    + rewrite Harr by reflexivity.
      destruct (cancel_sends O pw) as (m & Hm & Hsm & Hm0).
      change (journal pw) with (waiting_journal p) in Hsm.
      rewrite sends_waiting_journal in Hsm.
      change (message_class pw) with (message_class p) in Hm0.
      exists m. split; [exact Hm|]. split; [|exact Hm0].
      destruct (_cancel_runtime O pw) as [[[]|ex] p2]; cbn [snd] in *; [|exact Hsm].
      rewrite await_shutdown_then_finish.
      destruct (is_shutdown (shutdown_wait O _ _));
        [|destruct (can_terminate p2)];
        cbn [snd journal with_journal with_events];
        rewrite ?sends_app, ?sends_kill_record, Hsm; cbn;
        now rewrite ?app_nil_r.
    + rewrite Hwon by reflexivity. exists 0%nat. split; [lia|].
      cbn [snd journal with_journal]. rewrite sends_app, sends_waiting_journal.
      split; [reflexivity|auto].
  - rewrite Htimeout by reflexivity. exists 0%nat. split; [lia|].
    destruct (can_terminate p); cbn [snd journal with_journal];
      rewrite sends_app, sends_waiting_journal; cbn;
      rewrite ?sends_app, ?sends_kill_record; split; auto.
Qed.

(** Whatever the worker and the channel do, close sends at most three
    DEACTIVATE followed by at most three TERMINATE and nothing else.
    DEACTIVATE goes out only from a dealer that is ready and not shut
    down when close is called; TERMINATE only to a class that listens
    for messages, and only if Shutdown is not set when close is
    called. *)
Theorem close_sends_deactivate_then_terminate (p : Pea) :
  exists k m : nat,
    (k <= 3)%nat /\ (m <= 3)%nat
    /\ sends (journal (snd (close O p)))
       = sends (journal p) ++ repeat DEACTIVATE k ++ repeat TERMINATE m
    /\ (k <> 0%nat ->
        _is_dealer p = true
        /\ is_ready (events p) = true /\ is_shutdown (events p) = false)
    /\ (m <> 0%nat ->
        message_class p = true /\ is_shutdown (events p) = false).
Proof.
  destruct (is_shutdown (events p)) eqn:Hshut.
  { exists 0%nat, 0%nat. rewrite close_shutdown_eq by exact Hshut.
    cbn [snd journal with_journal]. rewrite sends_app. cbn.
    repeat split; auto; lia. }
  destruct (is_ready (events p)) eqn:Hready.
  - rewrite close_ready_eq by assumption.
    set (p1 := with_journal _ p).
    destruct (handshake_sends O p1) as (k & m & Hk & Hm & Hs & Hk0 & Hm0).
    change (_is_dealer p1) with (_is_dealer p) in Hk0.
    change (message_class p1) with (message_class p) in Hm0.
    assert (Hs1 : sends (journal p1) = sends (journal p)).
    { subst p1. cbn [journal with_journal]. rewrite sends_app. apply app_nil_r. }
    rewrite Hs1 in Hs.
    exists k, m. split; [exact Hk|]. split; [exact Hm|]. split.
    + destruct (close_handshake O p1) as [[[]|ex] p2]; cbn [snd] in *.
      * now rewrite sends_finish_ready.
      * destruct (is_Exception ex); [|exact Hs].
        rewrite sends_finish_ready. cbn [journal with_journal].
        rewrite sends_app, Hs. cbn. apply app_nil_r.
    + split.
      * intros Hne. destruct (_is_dealer p); [auto|]. now specialize (Hk0 eq_refl).
      * intros Hne. destruct (message_class p); [auto|]. now specialize (Hm0 eq_refl).
  - destruct (close_unready_sends p Hready Hshut) as (m & Hm & Hs & Hm0).
    exists 0%nat, m. split; [lia|]. split; [exact Hm|]. split; [exact Hs|].
    split; [lia|].
    intros Hne. destruct (message_class p); [auto|]. now specialize (Hm0 eq_refl).
Qed.

(** When every one of the three DEACTIVATE sends of a ready dealer
    fails, the handshake ends there: close writes the error record,
    joins unless a daemon and closes the logger, and returns, without
    having sent TERMINATE, set Cancel, waited for Shutdown or called
    terminate; the events are as they were. *)
Theorem failed_deactivate_skips_stop_request (p : Pea) :
  is_ready (events p) = true ->
  is_shutdown (events p) = false ->
  _is_dealer p = true ->
  (forall i : nat, (i < 3)%nat ->
     fails_at O DEACTIVATE (length (sends (journal p)) + i)) ->
  exists added ex,
    close O p
    = finish_ready
        (with_journal
           (journal p ++ Log DEBUG MsgWaitingSignal false
            :: added ++ [Log ERROR (close_error_msg (args p) ex)
                                   (negb (quiet_error (args p)))]) p)
    /\ Forall (fun a => log_or_send a = true) added
    /\ sends added = [DEACTIVATE; DEACTIVATE; DEACTIVATE]
    /\ ctrl_reply O (length (sends (journal p)) + 2) DEACTIVATE = Raises ex.
Proof.
  intros Hready Hshut Hdealer Hfail.
  rewrite close_ready_eq by assumption.
  set (p1 := with_journal _ p).
  assert (Hs1 : sends (journal p1) = sends (journal p)).
  { subst p1. cbn [journal with_journal]. rewrite sends_app. apply app_nil_r. }
  unfold close_handshake. unfold bind at 1.
  unfold _deactivate_runtime. unfold bind at 1. unfold get at 1.
  change (_is_dealer p1) with (_is_dealer p). rewrite Hdealer.
  unfold _retry_control_message.
  destruct (retry_loop_frame O DEACTIVATE 3 (seqZ 1 3) p1)
    as (added & k & Hsnd & Hall & Hsends & Hk).
  destruct (retry_loop_outcome O DEACTIVATE 3 3 1 p1 eq_refl) as [_ Hout].
  rewrite Hs1 in Hout. destruct (Hout ltac:(lia) Hfail) as (ex & Hex & Hres & Hsent).
  change (Z.of_nat 3) with 3 in Hres, Hsent.
  destruct (Hfail 2%nat ltac:(lia)) as (ex' & Hex' & Hcatch).
  replace (length (sends (journal p)) + 3 - 1)%nat
    with (length (sends (journal p)) + 2)%nat in Hex by lia.
  assert (ex' = ex) by congruence. subst ex'.
  destruct (retry_loop O DEACTIVATE 3 (seqZ 1 3) p1) as [r p2].
  cbn [fst snd] in *. subst r p2.
  rewrite Hcatch. cbn [args journal with_journal].
  rewrite with_journal_twice.
  exists added, ex. split.
  - f_equal. subst p1. cbn [journal with_journal].
    now rewrite <- !app_assoc.
  - split; [exact Hall|]. split; [|exact Hex].
    cbn [journal with_journal] in Hsent. rewrite sends_app, Hs1 in Hsent.
    apply app_inv_head in Hsent. exact Hsent.
Qed.

(** An exception of the handshake that [except Exception] does not catch
    leaves close at once: close ends where the handshake ended, with no
    error record, no join and the logger still open. *)
Theorem uncaught_exception_leaves_close (p : Pea) (ex : PyExc) :
  is_ready (events p) = true ->
  is_shutdown (events p) = false ->
  let p1 := with_journal (journal p ++ [Log DEBUG MsgWaitingSignal false]) p in
  fst (close_handshake O p1) = Raises ex ->
  is_Exception ex = false ->
  close O p = (Raises ex, snd (close_handshake O p1)).
Proof.
  intros Hready Hshut p1 Hraise Hcatch.
  rewrite close_ready_eq by assumption. fold p1.
  destruct (close_handshake O p1) as [r p2]. cbn [fst snd] in *. subst r.
  now rewrite Hcatch.
Qed.

(** When the worker shuts down by itself while close waits for a Pea
    that never became ready, close asks nothing more of it: no command,
    no Cancel, no terminate, no join; it closes the logger and returns. *)
Theorem close_after_worker_left (p : Pea) (ev : Events) :
  is_ready (events p) = false ->
  is_shutdown (events p) = false ->
  combinator_wait O (waiting_journal p) (events p) = (true, ev) ->
  is_ready ev = false ->
  close O p
  = (Returns tt,
     with_events ev
       (with_journal
          (waiting_journal p ++ [Log DEBUG MsgStop false; LoggerClose]) p)).
Proof.
  intros Hready Hshut Hwait Hev.
  now rewrite (close_unready_shutdown_won O p true ev Hready Hshut Hwait
                 (wait_result_true _) Hev).
Qed.
End CloseSends.

Lemma failed_deactivate_skips_stop_request_witness :
  let p := sample_pea PROCESS ZEDRuntime ready_events in
  fst (BasePea.close dead_channel p) = Returns tt
  /\ BasePea.events (snd (BasePea.close dead_channel p)) = ready_events
  /\ BasePea.sends (BasePea.journal (snd (BasePea.close dead_channel p)))
     = [DEACTIVATE; DEACTIVATE; DEACTIVATE].
Proof.
  intros p.
  destruct (failed_deactivate_skips_stop_request dead_channel p
              eq_refl eq_refl eq_refl) as (added & ex & Hclose & Hall & Hsends & Hex).
  { intros i _. exists (send_failure (0 + i)). split; reflexivity. }
  rewrite Hclose. split; [reflexivity|]. split; [reflexivity|].
  rewrite sends_finish_ready. cbn [BasePea.journal BasePea.with_journal].
  change (BasePea.journal p) with (@nil Action). cbn [app BasePea.sends].
  rewrite sends_app, Hsends. reflexivity.
Defined.

Lemma uncaught_exception_leaves_close_witness :
  let p := sample_pea PROCESS ZEDRuntime ready_events in
  BasePea.close interrupted_at_once p
  = (Raises interrupt,
     BasePea.with_journal
       [Log DEBUG MsgWaitingSignal false;
        Log DEBUG (MsgSending DEACTIVATE 1) false;
        SendCtrl DEACTIVATE 500] p).
Proof.
  intros p.
  now rewrite (uncaught_exception_leaves_close interrupted_at_once p interrupt
                 eq_refl eq_refl eq_refl eq_refl).
Defined.

Lemma close_after_worker_left_witness :
  let p := sample_pea PROCESS ZEDRuntime no_events in
  BasePea.close dying_worker p
  = (Returns tt,
     BasePea.with_events (mkEvents true true false false)
       (BasePea.with_journal
          [Log DEBUG MsgWaitingSignal false;
           Log WARNING MsgClosedBeforeReady false;
           Log DEBUG MsgWaitingSignal false;
           WaitReadyOrShutdown (Some 1000);
           Log DEBUG MsgStop false;
           LoggerClose] p)).
Proof.
  intros p.
  now rewrite (close_after_worker_left dying_worker p
                 (mkEvents true true false false) eq_refl eq_refl eq_refl eq_refl).
Defined.

(** ** Waiting for the start, starting, constructing *)

Section StartUp.
Import BasePea.
Variable O : Outside.

(** wait_start_success as a function of what the combinator wait
    brings. *)
Lemma wait_start_success_eq (p : Pea) (fired : bool) (ev : Events) :
  combinator_wait O
    (journal p ++ [Log DEBUG MsgWaitingSignal false;
                   WaitReadyOrShutdown (ready_timeout p)])
    (events p) = (fired, ev) ->
  let pw :=
    with_events ev
      (with_journal
         (journal p ++ [Log DEBUG MsgWaitingSignal false;
                        WaitReadyOrShutdown (ready_timeout p)]) p) in
  wait_start_success O p
  = if wait_result (ready_timeout p) fired then
      if is_shutdown ev then
        (Raises (if negb (is_started ev) then RuntimeFailToStart
                 else RuntimeRunForeverEarlyError), pw)
      else (Returns tt, with_journal (journal pw ++ [Log SUCCESS MsgReady false]) pw)
    else
      match close O
              (with_journal
                 (journal pw
                  ++ [Log WARNING (MsgReadyTimeout (timeout_ready (args p))) false])
                 pw) with
      | (Returns _, q) => (Raises (TimeoutError (self_name q)), q)
      | (Raises ex, q) => (Raises ex, q)
      end.
Proof.
  intros Hwait pw. unfold wait_start_success.
  unfold bind at 1. unfold get at 1.
  unfold bind at 1. unfold logger at 1, emit at 1.
  unfold bind at 1. unfold ready_or_shutdown_wait.
  cbn [journal with_journal events]. rewrite <- app_assoc. cbn [app].
  rewrite Hwait. rewrite with_journal_twice. fold pw.
  destruct (wait_result (ready_timeout p) fired).
  - unfold bind, get, raise, logger, emit. cbn [events with_events].
    change (events pw) with ev.
    destruct (is_shutdown ev); [|reflexivity].
    now destruct (negb (is_started ev)).
  - unfold bind at 1. unfold get at 1.
    unfold bind at 1. unfold logger at 1, emit at 1.
    unfold bind at 1.
    change (args pw) with (args p).
    now destruct (close O _) as [[[]|ex] q].
Qed.

(** close leaves the Pea its name. *)
Lemma self_name_close (p : Pea) : self_name (snd (close O p)) = self_name p.
Proof.
  destruct (appends_close O p p eq_refl) as (added & _ & _ & H).
  unfold config in H. congruence.
Qed.

(** wait_start_success returns without exception exactly when the
    combinator wait reports the event and Shutdown is not set when it
    does; a wait that times out never ends in a normal return. *)
Theorem wait_start_success_returns_iff (p : Pea) (fired : bool) (ev : Events) :
  combinator_wait O
    (journal p ++ [Log DEBUG MsgWaitingSignal false;
                   WaitReadyOrShutdown (ready_timeout p)])
    (events p) = (fired, ev) ->
  fst (wait_start_success O p) = Returns tt
  <-> wait_result (ready_timeout p) fired = true /\ is_shutdown ev = false.
Proof.
  intros Hwait. rewrite (wait_start_success_eq p fired ev Hwait).
  destruct (wait_result (ready_timeout p) fired).
  - destruct (is_shutdown ev); cbn [fst]; [|tauto].
    split; [discriminate|]. intros [_ H]. discriminate.
  - destruct (close O _) as [[[]|ex] q]; cbn [fst];
      (split; [discriminate|]); intros [H _]; discriminate.
Qed.

(** A ready-timeout needs a positive args.timeout_ready.  After it
    wait_start_success logs a warning, runs close and raises: the
    TimeoutError that names the Pea if close returned, and otherwise the
    exception close raised, which takes the place of the TimeoutError. *)
Theorem ready_timeout_closes_then_raises
    (p : Pea) (fired : bool) (ev : Events) :
  combinator_wait O
    (journal p ++ [Log DEBUG MsgWaitingSignal false;
                   WaitReadyOrShutdown (ready_timeout p)])
    (events p) = (fired, ev) ->
  wait_result (ready_timeout p) fired = false ->
  let pc :=
    with_events ev
      (with_journal
         (journal p ++ [Log DEBUG MsgWaitingSignal false;
                        WaitReadyOrShutdown (ready_timeout p);
                        Log WARNING (MsgReadyTimeout (timeout_ready (args p))) false])
         p) in
  0 < timeout_ready (args p)
  /\ wait_start_success O p
     = match close O pc with
       | (Returns _, q) => (Raises (TimeoutError (self_name p)), q)
       | (Raises ex, q) => (Raises ex, q)
       end.
Proof.
  intros Hwait Hres pc. split.
  - unfold ready_timeout in Hres.
    destruct (timeout_ready (args p) <=? 0) eqn:Ht; [discriminate|].
    now apply Z.leb_gt in Ht.
  - rewrite (wait_start_success_eq p fired ev Hwait), Hres.
    match goal with |- context [close O ?q] => replace q with pc end.
    + pose proof (self_name_close pc) as Hname.
      destruct (close O pc) as [[[]|ex] q]; cbn [snd] in Hname; [|reflexivity].
      now rewrite Hname.
    + subst pc. unfold with_journal, with_events. cbn. now rewrite <- app_assoc.
Qed.

(** start launches the worker first, and a worker that was started
    before refuses by raising.  On a worker not started yet a
    non-blocking start returns at once, and a blocking start returns
    normally exactly when the combinator wait reports the event with
    Shutdown not set. *)
Theorem start_returns_iff (p : Pea) (fired : bool) (ev : Events) :
  combinator_wait O
    (journal p ++ [WorkerStart; Log DEBUG MsgWaitingSignal false;
                   WaitReadyOrShutdown (ready_timeout p)])
    (events p) = (fired, ev) ->
  (worker_started p = true ->
   start O p = (Raises (already_started_error (runtime_backend (args p))), p))
  /\ (worker_started p = false ->
      (exists rest, journal (snd (start O p)) = journal p ++ WorkerStart :: rest)
      /\ (noblock_on_start (args p) = true ->
          start O p
          = (Returns tt,
             with_journal (journal p ++ [WorkerStart]) (with_worker_started p)))
      /\ (noblock_on_start (args p) = false ->
          (fst (start O p) = Returns tt
           <-> wait_result (ready_timeout p) fired = true
               /\ is_shutdown ev = false))).
Proof.
  intros Hwait. split.
  { intros Hst. unfold start, bind, worker_start. now rewrite Hst. }
  intros Hst.
  set (p1 := with_journal (journal p ++ [WorkerStart]) (with_worker_started p)).
  assert (Hstart : start O p
                   = if noblock_on_start (args p) then (Returns tt, p1)
                     else wait_start_success O p1).
  { unfold start, bind, worker_start, emit, get. rewrite Hst. cbn. fold p1.
    now destruct (noblock_on_start (args p)). }
  assert (Hwait1 : combinator_wait O
                     (journal p1 ++ [Log DEBUG MsgWaitingSignal false;
                                     WaitReadyOrShutdown (ready_timeout p1)])
                     (events p1) = (fired, ev)).
  { subst p1. cbn [journal with_journal events]. rewrite <- app_assoc. exact Hwait. }
  pose proof (wait_start_success_eq p1 fired ev Hwait1) as Heq. cbv zeta in Heq.
  change (ready_timeout p1) with (ready_timeout p) in Heq.
  set (pw := with_events ev _) in Heq.
  assert (Hpw : journal pw
                = journal p ++ WorkerStart
                  :: [Log DEBUG MsgWaitingSignal false;
                      WaitReadyOrShutdown (ready_timeout p)]).
  { subst pw p1. cbn [journal with_journal with_events]. now rewrite <- app_assoc. }
  split; [|split].
  - rewrite Hstart. destruct (noblock_on_start (args p)); [now exists []|].
    rewrite Heq. destruct (wait_result (ready_timeout p) fired).
    + destruct (is_shutdown ev); cbn [snd journal with_journal];
        rewrite Hpw, <- ?app_assoc; eauto.
    + set (pc := with_journal _ pw).
      destruct (appends_close O pc pc eq_refl) as (added & Hj & _).
      destruct (close O pc) as [[[]|ex] q]; cbn [snd] in *; rewrite Hj;
        subst pc; cbn [journal with_journal]; rewrite Hpw, <- !app_assoc;
        cbn [app]; eauto.
  - intros Hnb. rewrite Hstart, Hnb. reflexivity.
  - intros Hnb. rewrite Hstart, Hnb, Heq.
    destruct (wait_result (ready_timeout p) fired).
    + destruct (is_shutdown ev); cbn [fst]; [|tauto].
      split; [discriminate|]. intros [_ H]. discriminate.
    + destruct (close O _) as [[[]|ex] q]; cbn [fst];
        (split; [discriminate|]); intros [H _]; discriminate.
Qed.
End StartUp.

(** A worker that left [run] after a failed constructor, and one that is
    ready and running. *)
Lemma wait_start_success_returns_iff_witness :
  let p := sample_pea PROCESS ZEDRuntime no_events in
  fst (BasePea.wait_start_success obedient_worker p) = Returns tt
  /\ fst (BasePea.wait_start_success (finished_worker cls_failing_init) p)
     <> Returns tt
  /\ fst (BasePea.wait_start_success silent_worker p) <> Returns tt.
Proof.
  intros p. split; [|split].
  - apply (wait_start_success_returns_iff obedient_worker p true ready_events
             eq_refl). split; reflexivity.
  - intros H.
    apply (wait_start_success_returns_iff (finished_worker cls_failing_init) p
             true (events_after_run cls_failing_init) eq_refl) in H.
    destruct H as [_ H]. vm_compute in H. discriminate.
  - intros H.
    apply (wait_start_success_returns_iff silent_worker p false no_events
             eq_refl) in H.
    destruct H as [H _]. vm_compute in H. discriminate.
Defined.

(** A worker that stays silent: the ready-timeout is reported after
    close has terminated the process. *)
Lemma ready_timeout_closes_then_raises_witness :
  let p := sample_pea PROCESS ZEDRuntime no_events in
  let out := BasePea.wait_start_success silent_worker p in
  BasePea.wait_result (BasePea.ready_timeout p) false = false
  /\ fst out = Raises (TimeoutError "pea")
  /\ WorkerTerminate ∈ BasePea.journal (snd out)
  /\ last (BasePea.journal (snd out)) = Some LoggerClose.
Proof.
  intros p out. subst out. split; [reflexivity|].
  rewrite (proj2 (ready_timeout_closes_then_raises silent_worker p false no_events
                    eq_refl eq_refl)).
  vm_compute. split; [reflexivity|]. split; [|reflexivity].
  repeat (first [apply list_elem_of_here | apply list_elem_of_further]).
Defined.

(** A blocking start of a fresh worker, and a second start of a worker
    that runs already. *)
Lemma start_returns_iff_witness :
  let blocking := unstarted_pea PROCESS ZEDRuntime no_events in
  let running := sample_pea PROCESS ZEDRuntime ready_events in
  noblock_on_start (BasePea.args blocking) = false
  /\ BasePea.worker_started blocking = false
  /\ fst (BasePea.start obedient_worker blocking) = Returns tt
  /\ fst (BasePea.start silent_worker blocking) <> Returns tt
  /\ BasePea.worker_started running = true
  /\ BasePea.start obedient_worker running
     = (Raises (BasePea.already_started_error PROCESS), running).
Proof.
  intros blocking running.
  split; [reflexivity|]. split; [reflexivity|]. split; [|split; [|split]].
  - apply (proj2 (proj2 (proj2 (start_returns_iff obedient_worker blocking true
                                  ready_events eq_refl) eq_refl)) eq_refl).
    split; reflexivity.
  - intros H.
    apply (proj2 (proj2 (proj2 (start_returns_iff silent_worker blocking false
                                  no_events eq_refl) eq_refl)) eq_refl) in H.
    destruct H as [H _]. vm_compute in H. discriminate.
  - reflexivity.
  - exact (proj1 (start_returns_iff obedient_worker running true ready_events
                    eq_refl) eq_refl).
Defined.

(** ** Construction of the supervisor *)

Section Construction.
Import BasePea.
Variable X : HubExternals.

(** A Pea constructed for a remote host gets the JinadRuntime and a
    disabled ready-timeout, so that its wait for the start is unbounded;
    it starts with no event set. *)
Theorem remote_pea_waits_unbounded (a : Args) (ctrl_address : string) :
  protocol a = None ->
  remote_applies X a = true ->
  exists p,
    __init__ X a ctrl_address = Returns p
    /\ self_runtime_cls p = JinadRuntime
    /\ timeout_ready (args p) = -1
    /\ ready_timeout p = None
    /\ events p = no_events
    /\ _timeout_ctrl p = timeout_ctrl a.
Proof.
  intros Hp Hr. unfold __init__.
  rewrite (get_runtime_cls_remote X a Hp Hr).
  eexists. split; [reflexivity|]. repeat split.
Qed.

(** The overlay __init__ builds: a name the user's env defines has the
    user's value; any other name has the built-in entry, that is the
    worker name, the log id and, under quiet, the quiet log
    configuration; nothing else is in the overlay. *)
Theorem init_envs_lookup (a : Args) (self_name : string) (k : string) :
  init_envs a self_name !! k
  = match user_value a k with
    | Some v => Some v
    | None => default_overlay a self_name k
    end.
Proof.
  assert (Hdef : forall e : gmap string string,
             e = (if quiet a
                  then <["JINA_LOG_CONFIG" := "QUIET"]>
                         (<["JINA_LOG_ID" := identity a]>
                            {["JINA_POD_NAME" := self_name]})
                  else <["JINA_LOG_ID" := identity a]>
                         {["JINA_POD_NAME" := self_name]}) ->
             e !! k = default_overlay a self_name k).
  { intros e ->. unfold default_overlay.
    destruct (String.eqb_spec k "JINA_POD_NAME") as [->|Hn1].
    { destruct (quiet a); now simplify_map_eq. }
    destruct (String.eqb_spec k "JINA_LOG_ID") as [->|Hn2].
    { destruct (quiet a); now simplify_map_eq. }
    destruct (String.eqb_spec k "JINA_LOG_CONFIG") as [->|Hn3];
      destruct (quiet a); cbn; now simplify_map_eq. }
  unfold init_envs, user_value. destruct (env a) as [user|].
  - unfold dict_truthy. destruct (bool_decide (user = ∅)) eqn:He; cbn [negb].
    + apply bool_decide_eq_true in He. subst user.
      rewrite lookup_empty. now apply Hdef.
    + rewrite lookup_union. destruct (user !! k) as [v|] eqn:Hu.
      * apply union_Some_l.
      * rewrite (left_id None (∪)). now apply Hdef.
  - now apply Hdef.
Qed.
End Construction.

Lemma remote_pea_waits_unbounded_witness :
  exists p,
    BasePea.__init__ local_hub remote_pea_args "tcp://10.1.2.3:50001" = Returns p
    /\ timeout_ready remote_pea_args = 5000
    /\ BasePea.ready_timeout p = None
    /\ BasePea.self_runtime_cls p = JinadRuntime.
Proof.
  destruct (remote_pea_waits_unbounded local_hub remote_pea_args
              "tcp://10.1.2.3:50001" eq_refl eq_refl)
    as (p & Hinit & Hcls & _ & Hto & _).
  exists p. repeat split; assumption.
Defined.

(** A user env that renames the worker wins over the built-in name and
    leaves the log id in place. *)
Lemma init_envs_lookup_witness :
  let a := pea_args PROCESS (Some renaming_env) in
  BasePea.init_envs a "pea" !! "JINA_POD_NAME" = Some "renamed"
  /\ BasePea.init_envs a "pea" !! "JINA_LOG_ID" = Some "id-1"
  /\ BasePea.init_envs a "pea" !! "JINA_LOG_CONFIG" = None.
Proof.
  intros a.
  rewrite !(init_envs_lookup a "pea"). repeat split.
Defined.

(** ** Activation and deactivation *)

Section Activation.
Import BasePea.
Variable O : Outside.

Lemma dealer_command_outcome (command : Command) (p : Pea) :
  let out := _retry_control_message O command 3 p in
  exists k : nat,
    (k < 3)%nat
    /\ sends (journal (snd out)) = sends (journal p) ++ repeat command (S k)
    /\ fst out = ctrl_reply O (length (sends (journal p)) + k) command
    /\ events (snd out) = events p.
Proof.
  cbv zeta. unfold _retry_control_message.
  destruct (retry_loop_last_reply O command 3 3 1 p eq_refl ltac:(lia))
    as (k & Hk & Hsends & Hres & _).
  destruct (retry_loop_frame O command 3 (seqZ 1 3) p) as (added & k' & Hsnd & _).
  exists k. change (Z.of_nat 3) with 3 in *.
  split; [exact Hk|]. split; [exact Hsends|]. split; [exact Hres|].
  now rewrite Hsnd.
Qed.

(** ACTIVATE and DEACTIVATE are the business of dealers only: for any
    other Pea both calls return at once and leave the Pea untouched; for
    a dealer each makes one to three sends of its own command, reports
    the channel's reply to the last of them, and leaves the events
    alone. *)
Theorem activation_is_for_dealers_only (p : Pea) :
  let base := length (sends (journal p)) in
  (_is_dealer p = false ->
     activate_runtime O p = (Returns tt, p)
     /\ _deactivate_runtime O p = (Returns tt, p))
  /\ (_is_dealer p = true ->
      (exists k : nat,
         (k < 3)%nat
         /\ sends (journal (snd (activate_runtime O p)))
            = sends (journal p) ++ repeat ACTIVATE (S k)
         /\ fst (activate_runtime O p) = ctrl_reply O (base + k) ACTIVATE
         /\ events (snd (activate_runtime O p)) = events p)
      /\ (exists k : nat,
            (k < 3)%nat
            /\ sends (journal (snd (_deactivate_runtime O p)))
               = sends (journal p) ++ repeat DEACTIVATE (S k)
            /\ fst (_deactivate_runtime O p) = ctrl_reply O (base + k) DEACTIVATE
            /\ events (snd (_deactivate_runtime O p)) = events p)).
Proof.
  intros base. split.
  - intros Hd. unfold activate_runtime, _deactivate_runtime, bind, get.
    now rewrite Hd.
  - intros Hd. split.
    + unfold activate_runtime, bind, get. rewrite Hd.
      apply dealer_command_outcome.
    + unfold _deactivate_runtime, bind, get. rewrite Hd.
      apply dealer_command_outcome.
Qed.
End Activation.

(** A dealer activated over a channel that answers the second send. *)
Lemma activation_is_for_dealers_only_witness :
  let dealer := sample_pea PROCESS ZEDRuntime ready_events in
  BasePea._is_dealer dealer = true
  /\ exists k : nat,
       (k < 3)%nat
       /\ BasePea.sends (BasePea.journal (snd (BasePea.activate_runtime flaky_channel dealer)))
          = repeat ACTIVATE (S k)
       /\ fst (BasePea.activate_runtime flaky_channel dealer)
          = BasePea.ctrl_reply flaky_channel k ACTIVATE.
Proof.
  intros dealer. split; [reflexivity|].
  destruct (proj1 (proj2 (activation_is_for_dealers_only flaky_channel dealer)
                     eq_refl))
    as (k & Hk & Hsends & Hres & _).
  exists k. split; [exact Hk|]. split; [exact Hsends|exact Hres].
Defined.

(** ** The close properties on concrete Peas *)

(** A thread-cooperative Pea that never becomes ready is closed after
    the wait timed out: terminate is called and nothing is killed. *)
Lemma close_respects_worker_kind_witness :
  let p := sample_pea THREAD ZEDRuntime no_events in
  runtime_backend (BasePea.args p) = THREAD
  /\ Log WARNING MsgTerminatingAfterWait false
     ∈ BasePea.journal (snd (BasePea.close silent_worker p))
  /\ WorkerTerminate ∉ BasePea.journal (snd (BasePea.close silent_worker p)).
Proof.
  intros p.
  destruct (close_respects_worker_kind silent_worker p)
    as (added & Hj & Hthread & _).
  split; [reflexivity|]. split.
  - vm_compute.
    repeat (first [apply list_elem_of_here | apply list_elem_of_further]).
  - rewrite Hj. exact (Hthread eq_refl).
Defined.

(** A dealer Pea over a gateway class, closed while ready: the class has
    no control listener, so no TERMINATE goes out. *)
Lemma close_commands_follow_configuration_witness :
  let p := gateway_pea ready_events in
  message_class p = false
  /\ forall t, SendCtrl TERMINATE t
               ∉ BasePea.journal (snd (BasePea.close obedient_worker p)).
Proof.
  intros p.
  destruct (close_commands_follow_configuration obedient_worker p)
    as (added & Hj & Hsend & _).
  split; [reflexivity|].
  intros t Hin. rewrite Hj in Hin.
  destruct (Hsend TERMINATE t Hin) as (_ & _ & _ & Hm).
  specialize (Hm eq_refl). discriminate.
Defined.

(** The same Pea closed before it is ready sends nothing at all. *)
Lemma close_sends_deactivate_then_terminate_witness :
  let p := gateway_pea no_events in
  BasePea.sends (BasePea.journal (snd (BasePea.close obedient_worker p))) = [].
Proof.
  intros p.
  destruct (close_sends_deactivate_then_terminate obedient_worker p)
    as (k & m & _ & _ & Hs & Hk & Hm).
  destruct k as [|k]; [|destruct (Hk ltac:(lia)) as (_ & H & _); discriminate].
  destruct m as [|m]; [|destruct (Hm ltac:(lia)) as (H & _); discriminate].
  exact Hs.
Defined.

(** A close that returns: the ready dealer Pea over an obedient worker. *)
Lemma close_returning_closed_logger_witness :
  let p := sample_pea PROCESS ZEDRuntime ready_events in
  fst (BasePea.close obedient_worker p) = Returns tt
  /\ last (BasePea.journal (snd (BasePea.close obedient_worker p)))
     = Some LoggerClose.
Proof.
  intros p.
  assert (H : fst (BasePea.close obedient_worker p) = Returns tt)
    by (vm_compute; reflexivity).
  split; [exact H|].
  exact (close_returning_closed_logger obedient_worker p H).
Defined.
